(** * TVB storage facade and export builder

    A shallow embedding of [tvb.storage.storage_interface.StorageInterface]
    and [tvb.adapters.exporters.export_manager.ExportManager].

    Python methods become functions in a state-and-exception monad over a
    [World] that holds the file system, the clock, the profile settings,
    the relational store and the attributes of the [StorageInterface]
    instance.  Paths are lists of components ([os.path.join] appends a
    component, [os.path.basename] takes the last one); names inside a zip
    archive stay strings, because the code builds them by concatenation. *)

From stdpp Require Import base option list gmap strings pretty.

Open Scope string_scope.
Open Scope list_scope.
Open Scope Z_scope.

(** ** Python values *)

(** Exceptions raised by the modelled code.  [OSError] stands for the
    whole family raised by [os] and [shutil] (missing file, existing
    target, not a directory, permission denied). *)
Inductive exn :=
| InvalidExportDataException
| ExportException
| RenameWhileSyncEncryptingException
| FileStructureException
| OSError
| ValueError
| TypeError
| AttributeError.

#[global] Instance exn_eq_dec : EqDecision exn.
Proof. solve_decision. Defined.

Inductive result (A : Type) :=
| Ok (a : A)
| Raise (e : exn).
Arguments Ok {A} a.
Arguments Raise {A} e.

(** An identifier is an [int] (a database key), a [str] (the synthetic
    import operation carries a string id) or [None] (an entity that was
    never stored). *)
Inductive pyid :=
| IdNone
| IdInt (n : Z)
| IdStr (s : string).

#[global] Instance pyid_eq_dec : EqDecision pyid.
Proof. solve_decision. Defined.

(** Python's [str(x)]. *)
Definition py_str (i : pyid) : string :=
  match i with
  | IdNone => "None"
  | IdInt n => pretty n
  | IdStr s => s
  end.

(** Python's [a in b] on two strings. *)
Fixpoint str_contains (needle hay : string) : bool :=
  String.prefix needle hay ||
  match hay with
  | EmptyString => false
  | String _ rest => str_contains needle rest
  end.

(** Python's [s.endswith(suffix)]: some tail of [s] is [suffix]. *)
Fixpoint str_endswith (s suffix : string) : bool :=
  bool_decide (s = suffix) ||
  match s with
  | EmptyString => false
  | String _ rest => str_endswith rest suffix
  end.

Record datetime := {
  year : Z; month : Z; day : Z;
  hour : Z; minute : Z; second : Z; microsecond : Z
}.

Fixpoint zeros (n : nat) : string :=
  match n with
  | O => ""
  | S k => "0" +:+ zeros k
  end.

(** [%0wd] for a non-negative field. *)
Definition zero_pad (w : nat) (n : Z) : string :=
  let s := pretty n in zeros (w - String.length s) +:+ s.

(** [now.strftime("%Y-%m-%d_%H-%M")] *)
Definition strftime_minutes (d : datetime) : string :=
  zero_pad 4 (year d) +:+ "-" +:+ zero_pad 2 (month d) +:+ "-" +:+
  zero_pad 2 (day d) +:+ "_" +:+ zero_pad 2 (hour d) +:+ "-" +:+
  zero_pad 2 (minute d).

(** ** File system *)

Abbreviation path := (list string).

(** What a regular file holds: a container with key/value metadata and
    an opaque payload, or a zip archive listing its entries in the order
    they were written. *)
#[local] Set Warnings "-register-all".
Inductive content :=
| Blob (meta : gmap string string) (payload : string)
| Archive (entries : list (string * content)).

Inductive node :=
| Dir
| File (c : content).

(** [os.path.basename] *)
Definition basename (p : path) : string := List.last p "".

(** [os.path.dirname] *)
Definition dirname (p : path) : path := removelast p.

(** The components of [p] below [d], when [p] is [d] or lies under it. *)
Fixpoint relpath (d p : path) : option path :=
  match d, p with
  | [], _ => Some p
  | x :: d', y :: p' => if decide (x = y) then relpath d' p' else None
  | _ :: _, [] => None
  end.

Definition under (d p : path) : bool :=
  match relpath d p with Some _ => true | None => false end.

(** Everything at or below [d], keyed by the path relative to [d]. *)
Definition subtree (d : path) (m : gmap path node) : gmap path node :=
  list_to_map
    (omap (λ kv : path * node, (λ r, (r, kv.2)) <$> relpath d kv.1)
          (map_to_list m)).

(** The tree without [d] and what lies under it. *)
Definition prune (d : path) (m : gmap path node) : gmap path node :=
  filter (λ kv : path * node, under d kv.1 = false) m.

(** The names directly inside [d]. *)
Definition children (d : path) (m : gmap path node) : list string :=
  omap (λ kv : path * node,
          match relpath d kv.1 with
          | Some [f] => Some f
          | _ => None
          end)
       (map_to_list m).

(** The regular files strictly below [d], by relative path ([os.walk]). *)
Definition walk_files (d : path) (m : gmap path node) : list (path * content) :=
  omap (λ kv : path * node,
          match kv.2, kv.1 with
          | File c, f :: r => Some (f :: r, c)
          | _, _ => None
          end)
       (map_to_list (subtree d m)).

(** The non-empty prefixes of a path, shortest first. *)
Definition ancestors (p : path) : list path :=
  (λ n, take n p) <$> seq 1 (length p).

Definition is_file (n : option node) : bool :=
  match n with Some (File _) => true | _ => false end.

Definition is_dir (n : option node) : bool :=
  match n with Some Dir => true | _ => false end.

(** Whether the operating system refuses to delete or move [d]: some
    existing node at or below [d] is write protected. *)
Definition denied (prot : gset path) (d : path) (m : gmap path node) : bool :=
  existsb (λ p, under d p && bool_decide (is_Some (m !! p))) (elements prot).

(** ** Entities of the relational store *)

Record Project := {
  project_id : Z;
  project_name : string;
  project_gid : string
}.

Record DataType := {
  dt_gid : string;
  dt_type : string;
  fk_from_operation : Z
}.

Record Algorithm := {
  algo_id : Z;
  algo_module : string;
  algo_classname : string
}.

Inductive op_status :=
| STATUS_PENDING
| STATUS_STARTED
| STATUS_FINISHED
| STATUS_CANCELED
| STATUS_ERROR.

#[global] Instance op_status_eq_dec : EqDecision op_status.
Proof. solve_decision. Defined.

(** Modelled from the spec: [model_operation.Operation] is not part of
    the sources; the record keeps the attributes the export code reads
    or assigns ([id], [project], [algorithm], the two foreign keys given
    to the constructor, the status and the two timestamps). *)
Record Operation := {
  op_id : pyid;
  fk_launched_in : Z;
  fk_from_algo : Z;
  op_project : option Project;
  op_algorithm : option Algorithm;
  op_status_of : op_status;
  start_date : option datetime;
  completion_date : option datetime
}.

Record Burst := {
  burst_id : Z;
  burst_gid : string;
  burst_project : Project;
  fk_simulation : Z;
  simulator_gid : string
}.

(** Modelled from the spec: what the export code asks of the relational
    store and of the files of view-models, which the sources reach
    through [dao], [ProjectService] and [h5]. *)
Record Database := {
  operations : list Operation;
  algorithms : list Algorithm;
  bursts : list Burst;
  (** storage paths of the datatypes a project links from other projects,
      by project id *)
  linked_datatypes : gmap Z (list path);
  (** view-model and datatype files referenced from a view-model, by gid *)
  view_model_references : gmap string (list path * list path)
}.

(** ** The world *)

(** Modelled from the spec: the state of a [TvbZip] handle (the class is
    not part of the sources): where the archive goes, the entries added
    so far, and whether the handle was closed.  Entries are buffered in
    the handle and reach the archive file when the handle is closed. *)
Record ZipHandle := {
  zip_dest : path;
  zip_entries : list (string * content);
  zip_closed : bool
}.

(** Modelled from the spec: the state of an [EncryptionHandler] (the
    class is not part of the sources): the [dirGid] it was built for. *)
Record CryptHandle := {
  dir_gid : string
}.

Record World := {
  fs : gmap path node;
  write_protected : gset path;
  clock : nat → datetime;
  tick : nat;
  (** [TvbProfile.current.TVB_STORAGE] *)
  TVB_STORAGE : path;
  (** whether the profile asks for encrypted storage *)
  encrypt_storage : bool;
  project_usage_count : gmap path nat;
  running_op_count : gmap path nat;
  db : Database;
  (** attributes of the [StorageInterface] instance *)
  tvb_zip : option ZipHandle;
  encryption_handler : option CryptHandle
}.

Definition with_fs (f : gmap path node → gmap path node) (w : World) : World :=
  {| fs := f (fs w); write_protected := write_protected w;
     clock := clock w; tick := tick w; TVB_STORAGE := TVB_STORAGE w;
     encrypt_storage := encrypt_storage w;
     project_usage_count := project_usage_count w;
     running_op_count := running_op_count w; db := db w;
     tvb_zip := tvb_zip w; encryption_handler := encryption_handler w |}.

Definition with_tick (n : nat) (w : World) : World :=
  {| fs := fs w; write_protected := write_protected w;
     clock := clock w; tick := n; TVB_STORAGE := TVB_STORAGE w;
     encrypt_storage := encrypt_storage w;
     project_usage_count := project_usage_count w;
     running_op_count := running_op_count w; db := db w;
     tvb_zip := tvb_zip w; encryption_handler := encryption_handler w |}.

Definition with_tvb_zip (z : option ZipHandle) (w : World) : World :=
  {| fs := fs w; write_protected := write_protected w;
     clock := clock w; tick := tick w; TVB_STORAGE := TVB_STORAGE w;
     encrypt_storage := encrypt_storage w;
     project_usage_count := project_usage_count w;
     running_op_count := running_op_count w; db := db w;
     tvb_zip := z; encryption_handler := encryption_handler w |}.

Definition with_encryption_handler (h : option CryptHandle) (w : World) : World :=
  {| fs := fs w; write_protected := write_protected w;
     clock := clock w; tick := tick w; TVB_STORAGE := TVB_STORAGE w;
     encrypt_storage := encrypt_storage w;
     project_usage_count := project_usage_count w;
     running_op_count := running_op_count w; db := db w;
     tvb_zip := tvb_zip w; encryption_handler := h |}.

(** ** The monad of Python code: state, and exceptions that keep the
    state reached when they were raised *)

Definition M (A : Type) : Type := World → result A * World.

#[global] Instance M_ret : MRet M := λ A a w, (Ok a, w).

#[global] Instance M_bind : MBind M := λ A B f m w,
  match m w with
  | (Ok a, w') => f a w'
  | (Raise e, w') => (Raise e, w')
  end.

Definition raise {A} (e : exn) : M A := λ w, (Raise e, w).

Definition gets {A} (f : World → A) : M A := λ w, (Ok (f w), w).

Definition modify (f : World → World) : M unit := λ w, (Ok tt, f w).

(** [for x in l: body(x)] *)
Fixpoint for_each {A} (l : list A) (body : A → M unit) : M unit :=
  match l with
  | [] => mret tt
  | x :: l' => body x ≫= λ _, for_each l' body
  end.

(** [datetime.now()]: each reading consumes one tick of the clock. *)
Definition datetime_now : M datetime := λ w,
  (Ok (clock w (tick w)), with_tick (S (tick w)) w).

(** ** [os] and [shutil] *)

Definition os_path_exists (p : path) : M bool :=
  gets (λ w, bool_decide (is_Some (fs w !! p))).

Definition os_path_isfile (p : path) : M bool :=
  gets (λ w, is_file (fs w !! p)).

Definition os_listdir (d : path) : M (list string) := λ w,
  if is_dir (fs w !! d) then (Ok (children d (fs w)), w) else (Raise OSError, w).

(** [os.makedirs(p)]: [p] must not exist and no ancestor may be a file. *)
Definition os_makedirs (p : path) : M unit := λ w,
  if bool_decide (is_Some (fs w !! p)) then (Raise OSError, w)
  else if existsb (λ q, is_file (fs w !! q)) (ancestors p) then (Raise OSError, w)
  else (Ok tt, with_fs (λ m, foldr (λ q acc, <[q := Dir]> acc) m (ancestors p)) w).

Definition os_rmdir (d : path) : M unit := λ w,
  if is_dir (fs w !! d) && bool_decide (children d (fs w) = [])
     && negb (denied (write_protected w) d (fs w))
  then (Ok tt, with_fs (delete d) w)
  else (Raise OSError, w).

Definition os_remove (p : path) : M unit := λ w,
  if is_file (fs w !! p) && negb (denied (write_protected w) p (fs w))
  then (Ok tt, with_fs (delete p) w)
  else (Raise OSError, w).

(** [shutil.rmtree(d, ignore_errors)].  A refused removal leaves the
    tree as it was. *)
Definition shutil_rmtree (d : path) (ignore_errors : bool) : M unit := λ w,
  if is_dir (fs w !! d) && negb (denied (write_protected w) d (fs w))
  then (Ok tt, with_fs (prune d) w)
  else if ignore_errors then (Ok tt, w) else (Raise OSError, w).

(** Whether [os.rename] accepts the target: it is free, or a file that a
    file replaces, or an empty directory that a directory replaces. *)
Definition rename_target_ok (src dst : path) (m : gmap path node) : bool :=
  match m !! src, m !! dst with
  | Some _, None => true
  | Some (File _), Some (File _) => true
  | Some Dir, Some Dir => bool_decide (children dst m = [])
  | _, _ => false
  end.

(** The tree after moving [src] to [dst]. *)
Definition moved (src dst : path) (m : gmap path node) : gmap path node :=
  kmap (app dst) (subtree src m) ∪ prune dst (prune src m).

(** [os.rename(src, dst)] with POSIX semantics. *)
Definition os_rename (src dst : path) : M unit := λ w,
  if bool_decide (src = dst) then
    if bool_decide (is_Some (fs w !! src)) then (Ok tt, w) else (Raise OSError, w)
  else if rename_target_ok src dst (fs w) && negb (under src dst)
          && negb (denied (write_protected w) src (fs w))
  then (Ok tt, with_fs (moved src dst) w)
  else (Raise OSError, w).

(** [open(p, 'rb').read()] *)
Definition read_file (p : path) : M content := λ w,
  match fs w !! p with
  | Some (File c) => (Ok c, w)
  | _ => (Raise OSError, w)
  end.

(** [open(p, 'wb').write(c)]: the parent must be a directory (the root
    always is) and [p] must not be one. *)
Definition write_file (p : path) (c : content) : M unit := λ w,
  if (bool_decide (dirname p = []) || is_dir (fs w !! dirname p))
     && negb (is_dir (fs w !! p)) && negb (bool_decide (p = []))
  then (Ok tt, with_fs (<[p := File c]>) w)
  else (Raise OSError, w).

(** ** Collaborators of the storage facade *)

Module FilesHelper.

(** Modelled from the spec: [FilesHelper] is not part of the sources.
    Section 6 of the specification gives the layout
    [storageRoot/PROJECTS_FOLDER/<projectName>/<operationId>/<file>];
    this is [storageRoot/PROJECTS_FOLDER]. *)
Definition get_projects_folder (w : World) : path :=
  TVB_STORAGE w ++ ["PROJECTS"].

(** Modelled from the spec: [FilesHelper.get_project_folder] resolves
    [storageRoot/PROJECTS_FOLDER/<projectName>] followed by the given
    sub-folders; path resolution is a pure function of the names. *)
Definition get_project_folder (w : World) (project_name : string)
    (sub_folders : list string) : path :=
  get_projects_folder w ++ [project_name] ++ sub_folders.

(** Modelled from the spec: [FilesHelper.get_operation_folder] resolves
    [storageRoot/PROJECTS_FOLDER/<projectName>/<operationId>]. *)
Definition get_operation_folder (w : World) (project_name : string)
    (operation_id : pyid) : path :=
  get_project_folder w project_name [py_str operation_id].

(** Modelled from the spec: [FilesHelper.get_project_meta_file_path]
    resolves [storageRoot/PROJECTS_FOLDER/<projectName>/Project.xml]. *)
Definition get_project_meta_file_path (w : World) (project_name : string) : path :=
  get_project_folder w project_name [] ++ ["Project.xml"].

(** Modelled from the spec: [FilesHelper.check_created] makes sure the
    folder exists, creating it with its parents when it does not. *)
Definition check_created (p : path) : M unit :=
  os_path_exists p ≫= λ ex : bool,
  if ex then mret tt else os_makedirs p.

(** Modelled from the spec: [FilesHelper.rename_project_structure]; a
    project folder is "renamed on project rename", and the helper
    returns the old and the new folder. *)
Definition rename_project_structure (project_name new_name : string) : M (path * path) :=
  gets (λ w, get_project_folder w project_name []) ≫= λ old_folder,
  gets (λ w, get_project_folder w new_name []) ≫= λ new_folder,
  os_rename old_folder new_folder ≫= λ _,
  mret (old_folder, new_folder).

(** Modelled from the spec: [FilesHelper.remove_project_structure]; a
    project folder is "deleted on project removal", and a refused
    removal surfaces as an exception. *)
Definition remove_project_structure (project_name : string) : M unit :=
  gets (λ w, get_project_folder w project_name []) ≫= λ complete_path,
  os_path_exists complete_path ≫= λ ex : bool,
  if ex then shutil_rmtree complete_path false else mret tt.

(** Modelled from the spec: [FilesHelper.remove_folder(folder_path,
    ignore_errors)] removes a directory tree; what cannot be removed is
    an error unless errors are ignored. *)
Definition remove_folder (folder_path : path) (ignore_errors : bool) : M unit :=
  shutil_rmtree folder_path ignore_errors.

(** Modelled from the spec: [FilesHelper.copy_file(source, dest)] copies
    one file, creating the folder of [dest] when it is missing. *)
Definition copy_file (source dest : path) : M unit :=
  read_file source ≫= λ c,
  check_created (dirname dest) ≫= λ _,
  write_file dest c.

End FilesHelper.

Module TvbZip.

(** Modelled from the spec: [TvbZip] (the archive adapter, which
    "creates/opens a zip archive, adds files/directories with a path
    prefix and an exclusion list") is not part of the sources.  This is
    [TvbZip(dest_path, mode)]: mode ["w"] creates an empty archive, any
    other mode opens an existing one. *)
Definition open (dest_path : path) (mode : string) : M ZipHandle :=
  if decide (mode = "w") then
    write_file dest_path (Archive []) ≫= λ _,
    mret {| zip_dest := dest_path; zip_entries := []; zip_closed := false |}
  else
    read_file dest_path ≫= λ c : content,
    match c with
    | Archive es => mret {| zip_dest := dest_path; zip_entries := es; zip_closed := false |}
    | Blob _ _ => raise OSError
    end.

(** Modelled from the spec: the archive keeps its entries in the order
    they were added. *)
Definition add_entries (z : ZipHandle) (es : list (string * content)) : ZipHandle :=
  {| zip_dest := zip_dest z; zip_entries := zip_entries z ++ es;
     zip_closed := zip_closed z |}.

(** Modelled from the spec: [TvbZip.write(file_name, arc)] stores one
    file under the archive name [arc]. *)
Definition write (z : ZipHandle) (file_name : path) (arc : string) : M ZipHandle :=
  if zip_closed z then raise ValueError
  else read_file file_name ≫= λ c, mret (add_entries z [(arc, c)]).

(** Modelled from the spec: the exclusion list of [write_zip_folder]; a
    relative path is left out when one of its components is the name of
    an excluded folder (the spec leaves out "the excluded
    error-operation folders and the temp folder"). *)
Definition excluded (exclude : list pyid) (r : path) : bool :=
  existsb (λ e, bool_decide (py_str e ∈ r)) exclude.

(** Modelled from the spec: the entries a folder contributes to the
    archive: every file below it that is not excluded, named by the
    prefix followed by its relative path. *)
Definition folder_entries (m : gmap path node) (folder : path)
    (archive_path_prefix : string) (exclude : list pyid) : list (string * content) :=
  omap (λ rc : path * content,
          if excluded exclude rc.1 then None
          else Some (archive_path_prefix +:+ String.concat "/" rc.1, rc.2))
       (walk_files folder m).

(** Modelled from the spec: [TvbZip.write_zip_folder(folder,
    archive_path_prefix, exclude)] "adds files/directories with a path
    prefix and an exclusion list". *)
Definition write_zip_folder (z : ZipHandle) (folder : path)
    (archive_path_prefix : string) (exclude : list pyid) : M ZipHandle :=
  if zip_closed z then raise ValueError
  else gets (λ w, add_entries z (folder_entries (fs w) folder archive_path_prefix exclude)).

(** Modelled from the spec: [TvbZip.close()]; the archive file receives
    the buffered entries. *)
Definition close (z : ZipHandle) : M ZipHandle :=
  modify (with_fs (<[zip_dest z := File (Archive (zip_entries z))]>)) ≫= λ _,
  mret {| zip_dest := zip_dest z; zip_entries := zip_entries z; zip_closed := true |}.

(** Modelled from the spec: [TvbZip.namelist()]; the archive adapter
    "lists entries", by name and in the order of the archive. *)
Definition namelist (z : ZipHandle) : list string := (zip_entries z).*1.

End TvbZip.

Module DataEncryptionHandler.

(** Modelled from the spec: [DataEncryptionHandler] is not part of the
    sources; whether "encryption is enabled" is a setting of the
    profile. *)
Definition encryption_enabled (w : World) : bool := encrypt_storage w.

(** Modelled from the spec: the [UsageCounters] are "per project-folder,
    two non-negative integers"; a folder without an entry counts zero. *)
Definition counter (m : gmap path nat) (folder : path) : nat :=
  default 0%nat (m !! folder).

(** Modelled from the spec: a folder is "in active use (non-zero usage
    count)" when [projectUsageCount] or [runningOpCount] is positive. *)
Definition is_in_usage (w : World) (project_folder : path) : bool :=
  bool_decide (0 < counter (project_usage_count w) project_folder)%nat
  || bool_decide (0 < counter (running_op_count w) project_folder)%nat.

(** Modelled from the spec: the encrypted counterpart is "a
    deterministic sibling path computed from the plaintext project
    folder"; the sibling carries the suffix [_encrypted]. *)
Definition compute_encrypted_folder_path (current_project_folder : path) : path :=
  dirname current_project_folder ++ [basename current_project_folder +:+ "_encrypted"].

(** Modelled from the spec: the key of a project is persisted "never
    inside the plaintext project tree"; it is a file of a folder of keys
    under the storage root, named after the project id. *)
Definition project_key_path (w : World) (project_id : Z) : path :=
  TVB_STORAGE w ++ ["PROJECT_KEYS"; "project_key_" +:+ pretty project_id].

End DataEncryptionHandler.

Module EncryptionHandler.

(** Modelled from the spec: [EncryptionHandler] is not part of the
    sources.  "Each dirGid maps deterministically to one
    encrypted-directory path and one password-file path (pure function
    of dirGid)"; this is the encrypted directory. *)
Definition get_encrypted_dir (w : World) (h : CryptHandle) : path :=
  TVB_STORAGE w ++ ["ENCRYPTED"; dir_gid h].

(** Modelled from the spec: the password file of a [dirGid], "persisted
    next to the ciphertext". *)
Definition get_password_file (w : World) (h : CryptHandle) : path :=
  TVB_STORAGE w ++ ["ENCRYPTED"; dir_gid h +:+ ".pwd"].

(** Modelled from the spec: [cleanup] "must delete both the encrypted
    payload and the key material"; each is deleted when it is there. *)
Definition purge (encrypted_dir password_file : path) : M unit :=
  os_path_exists encrypted_dir ≫= λ ex_dir : bool,
  (if ex_dir then shutil_rmtree encrypted_dir false else mret tt) ≫= λ _,
  os_path_exists password_file ≫= λ ex_pwd : bool,
  if ex_pwd then os_remove password_file else mret tt.

(** Modelled from the spec: [EncryptionHandler.cleanup()] purges the
    directory and the password file of its [dirGid]. *)
Definition cleanup (h : CryptHandle) : M unit :=
  gets (λ w, get_encrypted_dir w h) ≫= λ encrypted_dir,
  gets (λ w, get_password_file w h) ≫= λ password_file,
  purge encrypted_dir password_file.

End EncryptionHandler.

Module dao.

(** Modelled from the spec: the relational store is an external
    collaborator "providing operation/algorithm/project lookups by id
    and by error status"; these are the operations of a project "whose
    status is error". *)
Definition get_operations_with_error_in_project (project_id : Z) : M (list Operation) :=
  gets (λ w, filter (λ o, fk_launched_in o = project_id ∧ op_status_of o = STATUS_ERROR)
                    (operations (db w))).

(** Modelled from the spec: the lookup of an algorithm by its "fixed
    module+class pair"; [None] when it is not registered. *)
Definition get_algorithm_by_module (module_name class_name : string) : M (option Algorithm) :=
  gets (λ w, List.find (λ a, bool_decide (algo_module a = module_name
                                          ∧ algo_classname a = class_name))
                       (algorithms (db w))).

(** Modelled from the spec: the lookup of a simulation run by id;
    [None] when there is none. *)
Definition get_burst_by_id (id : Z) : M (option Burst) :=
  gets (λ w, List.find (λ b, bool_decide (burst_id b = id)) (bursts (db w))).

End dao.

Module ProjectService.

(** Modelled from the spec: [ProjectService] is not part of the sources;
    linked datatypes are the "datatypes in this project that are
    references into other projects' storage", and the service answers
    with their storage paths. *)
Definition get_linked_datatypes_storage_path (project : Project) : M (list path) :=
  gets (λ w, default [] (linked_datatypes (db w) !! project_id project)).

End ProjectService.

Module model_operation.

(** Modelled from the spec: [Operation(None, None, project_id, algo_id)]
    builds an operation that was never stored. *)
Definition __init__ (launched_in from_algo : Z) : Operation :=
  {| op_id := IdNone; fk_launched_in := launched_in; fk_from_algo := from_algo;
     op_project := None; op_algorithm := None; op_status_of := STATUS_PENDING;
     start_date := None; completion_date := None |}.

(** Modelled from the spec: the assignment [op.project = project]. *)
Definition set_project (p : Project) (o : Operation) : Operation :=
  {| op_id := op_id o; fk_launched_in := fk_launched_in o;
     fk_from_algo := fk_from_algo o;
     op_project := Some p; op_algorithm := op_algorithm o;
     op_status_of := op_status_of o;
     start_date := start_date o; completion_date := completion_date o |}.

(** Modelled from the spec: the assignment [op.algorithm = algo]. *)
Definition set_algorithm (a : Algorithm) (o : Operation) : Operation :=
  {| op_id := op_id o; fk_launched_in := fk_launched_in o;
     fk_from_algo := fk_from_algo o;
     op_project := op_project o; op_algorithm := Some a;
     op_status_of := op_status_of o;
     start_date := start_date o; completion_date := completion_date o |}.

(** Modelled from the spec: the assignment [op.id = ...]. *)
Definition set_id (i : pyid) (o : Operation) : Operation :=
  {| op_id := i; fk_launched_in := fk_launched_in o;
     fk_from_algo := fk_from_algo o;
     op_project := op_project o; op_algorithm := op_algorithm o;
     op_status_of := op_status_of o;
     start_date := start_date o; completion_date := completion_date o |}.

(** Modelled from the spec: [start_now] sets the start timestamp "to
    now". *)
Definition start_now (o : Operation) : M Operation :=
  now ← datetime_now;
  mret {| op_id := op_id o; fk_launched_in := fk_launched_in o;
          fk_from_algo := fk_from_algo o;
          op_project := op_project o; op_algorithm := op_algorithm o;
          op_status_of := STATUS_STARTED;
          start_date := Some now; completion_date := completion_date o |}.

(** Modelled from the spec: [mark_complete(status)] sets the completion
    timestamp "to now" and the final status ("a completed import
    pseudo-operation record"). *)
Definition mark_complete (status : op_status) (o : Operation) : M Operation :=
  now ← datetime_now;
  mret {| op_id := op_id o; fk_launched_in := fk_launched_in o;
          fk_from_algo := fk_from_algo o;
          op_project := op_project o; op_algorithm := op_algorithm o;
          op_status_of := status;
          start_date := start_date o; completion_date := Some now |}.

End model_operation.

Module h5.

(** Modelled from the spec: "filenames embed the datatype's global id";
    the first name of a listing that contains the gid and names a regular
    file of the folder. *)
Fixpoint find_by_gid (m : gmap path node) (folder : path) (gid : string)
    (names : list string) : option path :=
  match names with
  | [] => None
  | f :: rest =>
      let fp := folder ++ [f] in
      if str_contains gid f && is_file (m !! fp) then Some fp
      else find_by_gid m folder gid rest
  end.

(** Modelled from the spec: [h5.determine_filepath] answers with the
    file of a folder that carries the gid and fails when there is
    none. *)
Definition determine_filepath (gid : string) (base_dir : path) : M path :=
  names ← os_listdir base_dir;
  found ← gets (λ w, find_by_gid (fs w) base_dir gid names);
  match found with
  | Some fp => mret fp
  | None => raise OSError
  end.

(** Modelled from the spec: [h5.gather_references_of_view_model] answers
    with the "root view-model and all objects it transitively
    references", as the store of references records them: the
    view-model files and the datatype files. *)
Definition gather_references_of_view_model (gid : string) (base_dir : path)
    : M (list path * list path) :=
  gets (λ w, default ([], []) (view_model_references (db w) !! gid)).

(** Modelled from the spec: [H5File.remove_metadata_param]; the blob
    store adapter can "get/set/append/remove named datasets and
    key-value metadata", and this removes one metadata key of a container
    file. *)
Definition remove_metadata_param (file_path : path) (param : string) : M unit :=
  c ← read_file file_path;
  match c with
  | Blob meta payload => modify (with_fs (<[file_path := File (Blob (delete param meta) payload)]>))
  | Archive _ => raise OSError
  end.

End h5.

(** ** [StorageInterface] *)

(** The argument of a Python call, before it is bound to a parameter. *)
Inductive pyval :=
| VNone
| VBool (b : bool)
| VProject (p : Project)
| VDataTypes (l : list DataType)
| VIds (l : list pyid)
| VPath (p : path)
| VPaths (l : list path)
| VOperation (o : Operation).

Module StorageInterface.

(** Modelled from the spec: [XMLWriter.FILE_EXTENSION] is not part of
    the sources; the specification names the metadata file
    [Project.xml]. *)
Definition TVB_FILE_EXTENSION : string := ".xml".
Definition TVB_PROJECT_FILE : string := "Project" +:+ TVB_FILE_EXTENSION.
Definition ZIP_FILE_EXTENSION : string := "zip".
Definition os_sep : string := "/".

(** *** Delegations to [FilesHelper] *)

Definition check_created (p : path) : M unit := FilesHelper.check_created p.

Definition get_project_folder (project_name : string) (sub_folders : list string) : M path :=
  gets (λ w, FilesHelper.get_project_folder w project_name sub_folders).

Definition rename_project_structure (project_name new_name : string) : M (path * path) :=
  FilesHelper.rename_project_structure project_name new_name.

Definition remove_project_structure (project_name : string) : M unit :=
  FilesHelper.remove_project_structure project_name.

Definition get_project_meta_file_path (project_name : string) : M path :=
  gets (λ w, FilesHelper.get_project_meta_file_path w project_name).

Definition get_operation_folder (project_name : string) (operation_id : pyid) : M path :=
  gets (λ w, FilesHelper.get_operation_folder w project_name operation_id).

Definition copy_file (source dest : path) : M unit := FilesHelper.copy_file source dest.

Definition remove_folder (folder_path : path) (ignore_errors : bool) : M unit :=
  FilesHelper.remove_folder folder_path ignore_errors.

(** *** Delegations to the [TvbZip] held in [self.tvb_zip] *)

(** [self.tvb_zip.<method>]: attribute access on [None] fails. *)
Definition self_tvb_zip : M ZipHandle := λ w,
  match tvb_zip w with
  | Some z => (Ok z, w)
  | None => (Raise AttributeError, w)
  end.

Definition initialize_tvb_zip (dest_path : path) (mode : string) : M unit :=
  z ← TvbZip.open dest_path mode;
  modify (with_tvb_zip (Some z)).

Definition write_zip_folder (folder : path) (archive_path_prefix : string)
    (exclude : list pyid) : M unit :=
  z ← self_tvb_zip;
  z' ← TvbZip.write_zip_folder z folder archive_path_prefix exclude;
  modify (with_tvb_zip (Some z')).

Definition close_tvb_zip : M unit :=
  z ← self_tvb_zip;
  z' ← TvbZip.close z;
  modify (with_tvb_zip (Some z')).

Definition write_zip_arc (file_name : path) (arc : string) : M unit :=
  z ← self_tvb_zip;
  z' ← TvbZip.write z file_name arc;
  modify (with_tvb_zip (Some z')).

(** *** Encryption handler *)

Definition cleanup (dir_gid : string) : M unit :=
  let h := {| dir_gid := dir_gid |} in
  modify (with_encryption_handler (Some h));;
  EncryptionHandler.cleanup h.

(** *** Data encryption handler *)

Definition is_in_usage (project_folder : path) : M bool :=
  gets (λ w, DataEncryptionHandler.is_in_usage w project_folder).

Definition compute_encrypted_folder_path (current_project_folder : path) : path :=
  DataEncryptionHandler.compute_encrypted_folder_path current_project_folder.

Definition encryption_enabled : M bool :=
  gets DataEncryptionHandler.encryption_enabled.

Definition project_key_path (project_id : Z) : M path :=
  gets (λ w, DataEncryptionHandler.project_key_path w project_id).

(** *** Export *)

(** [operation] may be [None]: reading [operation.project] then fails,
    as it does when the operation carries no project. *)
Definition export_datatypes (paths : list path) (operation : option Operation) : M unit :=
  match operation ≫= λ o, (λ p, (o, p)) <$> op_project o with
  | None => raise AttributeError
  | Some (o, project) =>
      op_folder ← get_operation_folder (project_name project) (op_id o);
      let op_folder_name := basename op_folder in
      for_each paths (λ pth,
        let zip_pth := op_folder_name +:+ "/" +:+ basename pth in
        write_zip_arc pth zip_pth);;
      remove_folder op_folder false
  end.

(** [data_gid] is [data.gid]. *)
Definition build_data_export_folder (data_gid : string) (export_folder : path) : M path :=
  now ← datetime_now;
  let date_str :=
    pretty (year now) +:+ "-" +:+ pretty (month now) +:+ "-" +:+ pretty (day now)
    +:+ "_" +:+ pretty (hour now) +:+ "-" +:+ pretty (minute now) +:+ "-"
    +:+ pretty (second now) +:+ "_" +:+ pretty (microsecond now) in
  let tmp_str := date_str +:+ "@" +:+ data_gid in
  let data_export_folder := export_folder ++ [tmp_str] in
  check_created data_export_folder;;
  mret data_export_folder.

(** One element of [to_be_exported_folders]. *)
Record pack := {
  folder : path;
  archive_path_prefix : string;
  exclude : list pyid
}.

(** The body of the loop over [project_datatypes]; the accumulator is
    [(to_be_exported_folders, considered_op_ids)]. *)
Definition consider (w : World) (project : Project) (folders_to_exclude : list pyid)
    (acc : list pack * list Z) (dt : DataType) : list pack * list Z :=
  let op_id := fk_from_operation dt in
  if decide (op_id ∈ acc.2) then acc
  else (acc.1 ++ [{| folder := FilesHelper.get_project_folder w (project_name project)
                                 [pretty op_id];
                     archive_path_prefix := pretty op_id +:+ os_sep;
                     exclude := folders_to_exclude |}],
        acc.2 ++ [op_id]).

Definition export_project (project : Project) (project_datatypes : list DataType)
    (folders_to_exclude : list pyid) (export_folder : path)
    (linked_paths : option (list path)) (op : option Operation)
    (optimize_size : bool) : M path :=
  project_folder ← get_project_folder (project_name project) [];
  to_be_exported_folders ←
    (if optimize_size then
       gets (λ w, (fold_left (consider w project folders_to_exclude)
                             project_datatypes ([], [])).1)
     else
       let folders_to_exclude := folders_to_exclude ++ [IdStr "TEMP"] in
       mret [{| folder := project_folder; archive_path_prefix := "";
                exclude := folders_to_exclude |}]);
  now ← datetime_now;
  let date_str := strftime_minutes now in
  let zip_file_name :=
    date_str +:+ "_" +:+ project_name project +:+ "." +:+ ZIP_FILE_EXTENSION in
  export_folder ← build_data_export_folder (project_gid project) export_folder;
  let result_path := export_folder ++ [zip_file_name] in
  initialize_tvb_zip result_path "w";;
  for_each to_be_exported_folders (λ pk,
    write_zip_folder (folder pk) (archive_path_prefix pk) (exclude pk));;
  match linked_paths with
  | Some paths => export_datatypes paths op
  | None => mret tt
  end;;
  (if optimize_size then
     meta_path ← get_project_meta_file_path (project_name project);
     write_zip_arc meta_path TVB_PROJECT_FILE
   else mret tt);;
  close_tvb_zip;;
  mret result_path.

Definition as_linked_paths (v : pyval) : option (option (list path)) :=
  match v with
  | VNone => Some None
  | VPaths l => Some (Some l)
  | _ => None
  end.

Definition as_operation (v : pyval) : option (option Operation) :=
  match v with
  | VNone => Some None
  | VOperation o => Some (Some o)
  | _ => None
  end.

(** The positional call of [export_project] on a storage interface.
    The method has seven parameters besides [self] and none has a
    default: Python raises [TypeError] before the body runs when the
    call does not supply exactly seven arguments.  Arguments of another
    type than the body expects are outside the model and reported as
    [TypeError] too. *)
Definition export_project_call (args : list pyval) : M path :=
  match args with
  | [project; project_datatypes; folders_to_exclude; export_folder;
     linked_paths; op; optimize_size] =>
      match project, project_datatypes, folders_to_exclude, export_folder,
            as_linked_paths linked_paths, as_operation op, optimize_size with
      | VProject p, VDataTypes dts, VIds excl, VPath ef, Some lp, Some o, VBool b =>
          export_project p dts excl ef lp o b
      | _, _, _, _, _, _, _ => raise TypeError
      end
  | _ => raise TypeError
  end.

(** *** Generic methods *)

(** The loop of [get_h5_by_gid] over the listing; falling off the end
    returns [None]. *)
Fixpoint first_h5 (op_path : path) (dt_gid : string) (names : list string)
    : M (option path) :=
  match names with
  | [] => mret None
  | f :: rest =>
      let fp := op_path ++ [f] in
      isf ← os_path_isfile fp;
      if str_contains dt_gid f && isf then mret (Some fp)
      else first_h5 op_path dt_gid rest
  end.

Definition get_h5_by_gid (project_name : string) (op_id : pyid) (dt_gid : string)
    : M (option path) :=
  op_path ← gets (λ w, FilesHelper.get_operation_folder w project_name op_id);
  names ← os_listdir op_path;
  first_h5 op_path dt_gid names.

Definition rename_project (current_proj_name new_name : string) : M unit :=
  project_folder ← get_project_folder current_proj_name [];
  enabled ← encryption_enabled;
  in_usage ← is_in_usage project_folder;
  if enabled && negb in_usage then raise RenameWhileSyncEncryptingException
  else
    rename_project_structure current_proj_name new_name;;
    let encrypted_path := compute_encrypted_folder_path project_folder in
    ex ← os_path_exists encrypted_path;
    if ex : bool then
      new_folder ← get_project_folder new_name [];
      let new_encrypted_path := compute_encrypted_folder_path new_folder in
      os_rename encrypted_path new_encrypted_path
    else mret tt.

Definition remove_project (project : Project) : M unit :=
  project_folder ← get_project_folder (project_name project) [];
  remove_project_structure (project_name project);;
  let encrypted_path := compute_encrypted_folder_path project_folder in
  ex ← os_path_exists encrypted_path;
  (if ex : bool then remove_folder encrypted_path false else mret tt);;
  key_path ← project_key_path (project_id project);
  ex_key ← os_path_exists key_path;
  if ex_key : bool then os_remove key_path else mret tt.

(** *** Further methods of the facade *)

Definition TVB_STORAGE_FILE_EXTENSION : string := ".h5".

(** The outcome of a call that may exhaust the call stack of the
    interpreter. *)
Inductive call_outcome (A : Type) :=
| Returned (r : result A)
| RecursionError.
Arguments Returned {A} r.
Arguments RecursionError {A}.

(** [get_allen_mouse_cache_folder]: the body is a call of the method
    itself.  [depth] is the number of frames the call stack still
    takes. *)
Fixpoint get_allen_mouse_cache_folder (depth : nat) (project_name : string)
    (w : World) : call_outcome path * World :=
  match depth with
  | O => (RecursionError, w)
  | S d => get_allen_mouse_cache_folder d project_name w
  end.

Definition namelist (dest_path : path) (mode : string) : M (list string) :=
  initialize_tvb_zip dest_path mode;;
  z ← self_tvb_zip;
  let name_list := TvbZip.namelist z in
  close_tvb_zip;;
  mret name_list.


Definition ends_with_tvb_file_extension (file : string) : bool :=
  str_endswith file TVB_FILE_EXTENSION.

Definition ends_with_tvb_storage_file_extension (file : string) : bool :=
  str_endswith file TVB_STORAGE_FILE_EXTENSION.

End StorageInterface.

(** ** [ExportManager] *)

(** The interface of a datatype exporter ([ABCExporter]). *)
Record Exporter := {
  accepts : DataType → bool;
  get_label : string;
  (** [export(data, data_export_folder, project)] answers with the name
      to show, the path of the exported file and whether the file may be
      deleted after download *)
  export : DataType → path → Project → M (string * path * bool)
}.

(** [var = None; try: var = assign(); return rest(var) finally: fin(var)].
    An exception of the [finally] block replaces the outcome of the
    [try] block. *)
Definition try_finally_bound {A B} (assign : M A) (rest : A → M B)
    (fin : option A → M unit) : M B := λ w,
  match assign w with
  | (Raise e, w1) =>
      match fin None w1 with
      | (Ok _, w2) => (Raise e, w2)
      | (Raise e', w2) => (Raise e', w2)
      end
  | (Ok a, w1) =>
      let (r, w2) := rest a w1 in
      match fin (Some a) w2 with
      | (Ok _, w3) => (r, w3)
      | (Raise e', w3) => (Raise e', w3)
      end
  end.

Module ExportManager.

Definition EXPORT_FOLDER_NAME : string := "EXPORT_TMP".
Definition EXPORTED_SIMULATION_NAME : string := "exported_simulation".
Definition EXPORTED_SIMULATION_DTS_DIR : string := "datatypes".

(** Modelled from the spec: [tvb.config] is not part of the sources;
    the import adapter is "identified by a fixed module+class pair". *)
Definition TVB_IMPORTER_MODULE : string := "tvb.adapters.uploaders.tvb_importer".
(** Modelled from the spec: the class of the same "fixed module+class
    pair". *)
Definition TVB_IMPORTER_CLASS : string := "TVBImporter".

(** The attributes of an instance; the attributes of its
    [storage_interface] live in the world. *)
Record t := {
  all_exporters : gmap string Exporter;
  export_folder : path
}.

Definition _register_exporter (class_name : string) (exporter : option Exporter)
    (registry : gmap string Exporter) : gmap string Exporter :=
  match exporter with
  | Some e => <[class_name := e]> registry
  | None => registry
  end.

(** [ExportManager()]: the two exporters are registered under their
    class names and a new [StorageInterface] is built, whose lazily
    instantiated attributes start as [None]. *)
Definition __init__ (TVBExporter TVBLinkedExporter : Exporter) : M t :=
  storage ← gets TVB_STORAGE;
  modify (with_tvb_zip None);;
  modify (with_encryption_handler None);;
  mret {| all_exporters :=
            _register_exporter "TVBLinkedExporter" (Some TVBLinkedExporter)
              (_register_exporter "TVBExporter" (Some TVBExporter) ∅);
          export_folder := storage ++ [EXPORT_FOLDER_NAME] |}.

Definition export_data (self : t) (data : option DataType)
    (exporter_id : option string) (project : option Project)
    : M (string * path * bool) :=
  match data with
  | None => raise InvalidExportDataException
  | Some data =>
  match exporter_id with
  | None => raise ExportException
  | Some exporter_id =>
  match all_exporters self !! exporter_id with
  | None => raise ExportException
  | Some exporter =>
  match project with
  | None => raise ExportException
  | Some project =>
    if negb (accepts exporter data) then raise InvalidExportDataException
    else
      try_finally_bound
        (StorageInterface.build_data_export_folder (dt_gid data) (export_folder self))
        (λ data_export_folder, export exporter data data_export_folder project)
        (λ data_export_folder,
           match data_export_folder with
           | None => mret tt
           | Some data_export_folder =>
               names ← os_listdir data_export_folder;
               if bool_decide (length names = 0%nat)
               then os_rmdir data_export_folder
               else mret tt
           end)
  end end end end.

Definition _export_linked_datatypes (project : Project)
    : M (option (list path) * option Operation) :=
  linked_paths ← ProjectService.get_linked_datatypes_storage_path project;
  if bool_decide (linked_paths = []) then mret (None, None)
  else
    algo ← dao.get_algorithm_by_module TVB_IMPORTER_MODULE TVB_IMPORTER_CLASS;
    match algo with
    | None => raise AttributeError
    | Some algo =>
        let op := model_operation.__init__ (project_id project) (algo_id algo) in
        let op := model_operation.set_project project op in
        let op := model_operation.set_algorithm algo op in
        let op := model_operation.set_id (IdStr "links-to-external-projects") op in
        op ← model_operation.start_now op;
        op ← model_operation.mark_complete STATUS_FINISHED op;
        mret (Some linked_paths, Some op)
    end.

Definition _get_op_with_errors (project_id : Z) : M (list pyid) :=
  operations ← dao.get_operations_with_error_in_project project_id;
  mret (op_id <$> operations).

Definition export_project (self : t) (project : option Project) : M path :=
  match project with
  | None => raise ExportException
  | Some project =>
      folders_to_exclude ← _get_op_with_errors (project_id project);
      '(linked_paths, op) ← _export_linked_datatypes project;
      result_path ← StorageInterface.export_project_call
        [VProject project; VIds folders_to_exclude; VPath (export_folder self);
         from_option VPaths VNone linked_paths; from_option VOperation VNone op];
      mret result_path
  end.

(** A path written where Python expects a string. *)
Definition path_str (p : path) : string := String.concat "/" p.

Definition export_simulator_configuration (self : t) (burst_id : Z) : M path :=
  burst ← dao.get_burst_by_id burst_id;
  match burst with
  | None => raise InvalidExportDataException
  | Some burst =>
      op_folder ← StorageInterface.get_project_folder
                    (project_name (burst_project burst)) [pretty (fk_simulation burst)];
      tmp_export_folder ← StorageInterface.build_data_export_folder
                            (burst_gid burst) (export_folder self);
      let tmp_sim_folder := tmp_export_folder ++ [EXPORTED_SIMULATION_NAME] in
      ex ← os_path_exists tmp_sim_folder;
      (if ex : bool then mret tt else os_makedirs tmp_sim_folder);;
      '(all_view_model_paths, all_datatype_paths) ←
        h5.gather_references_of_view_model (simulator_gid burst) op_folder;
      burst_path ← h5.determine_filepath (burst_gid burst) op_folder;
      let all_view_model_paths := all_view_model_paths ++ [burst_path] in
      for_each all_view_model_paths (λ vm_path,
        let dest := tmp_sim_folder ++ [basename vm_path] in
        StorageInterface.copy_file vm_path dest);;
      for_each all_datatype_paths (λ dt_path,
        let dest := tmp_sim_folder ++ [EXPORTED_SIMULATION_DTS_DIR; basename dt_path] in
        StorageInterface.copy_file dt_path dest);;
      main_vm_path ← h5.determine_filepath (simulator_gid burst) tmp_sim_folder;
      h5.remove_metadata_param main_vm_path "history_gid";;
      now ← datetime_now;
      let date_str := strftime_minutes now in
      let zip_file_name :=
        date_str +:+ "_" +:+ pretty burst_id +:+ "."
        +:+ StorageInterface.ZIP_FILE_EXTENSION in
      let result_path := tmp_export_folder ++ [zip_file_name] in
      StorageInterface.write_zip_folder result_path (path_str tmp_sim_folder) [];;
      StorageInterface.remove_folder tmp_sim_folder false;;
      mret result_path
  end.

(** [get_exporters_for_data]: the loop over the registered exporters
    fills the dictionary [results]. *)
Definition get_exporters_for_data (self : t) (data : option DataType)
    : M (gmap string string) :=
  match data with
  | None => raise InvalidExportDataException
  | Some data =>
      mret (map_fold (λ exporterId exporter results,
                        if accepts exporter data
                        then <[exporterId := get_label exporter]> results
                        else results)
                     ∅ (all_exporters self))
  end.

End ExportManager.

(** ** A sample installation

    One project [P] (id 1) with a finished operation 1 holding a
    connectivity, a failed operation 2, a [TEMP] folder and its metadata
    file; an encrypted counterpart of [P]; the key of project 1; the
    encrypted directory and the password of directory gid [dg]. *)

Definition blob (payload : string) : content := Blob ∅ payload.

Definition sample_fs : gmap path node :=
  list_to_map [
    (["TVB"], Dir);
    (["TVB"; "PROJECTS"], Dir);
    (["TVB"; "PROJECTS"; "P"], Dir);
    (["TVB"; "PROJECTS"; "P"; "Project.xml"], File (blob "meta"));
    (["TVB"; "PROJECTS"; "P"; "1"], Dir);
    (["TVB"; "PROJECTS"; "P"; "1"; "Connectivity_g1.h5"], File (blob "conn"));
    (["TVB"; "PROJECTS"; "P"; "2"], Dir);
    (["TVB"; "PROJECTS"; "P"; "2"; "Broken_g2.h5"], File (blob "bad"));
    (["TVB"; "PROJECTS"; "P"; "TEMP"], Dir);
    (["TVB"; "PROJECTS"; "P"; "TEMP"; "scratch"], File (blob "tmp"));
    (["TVB"; "PROJECTS"; "P_encrypted"], Dir);
    (["TVB"; "PROJECTS"; "P_encrypted"; "payload"], File (blob "cipher"));
    (["TVB"; "PROJECT_KEYS"], Dir);
    (["TVB"; "PROJECT_KEYS"; "project_key_1"], File (blob "key"));
    (["TVB"; "ENCRYPTED"], Dir);
    (["TVB"; "ENCRYPTED"; "dg"], Dir);
    (["TVB"; "ENCRYPTED"; "dg"; "data"], File (blob "cipher"));
    (["TVB"; "ENCRYPTED"; "dg.pwd"], File (blob "secret"));
    (["TVB"; "EXPORT_TMP"], Dir)
  ].

Definition sample_clock (n : nat) : datetime :=
  {| year := 2021; month := 3; day := 9; hour := 14; minute := 5;
     second := 7; microsecond := Z.of_nat n |}.

Definition sample_project : Project :=
  {| project_id := 1; project_name := "P"; project_gid := "pg" |}.

Definition sample_importer : Algorithm :=
  {| algo_id := 7; algo_module := "tvb.adapters.uploaders.tvb_importer";
     algo_classname := "TVBImporter" |}.

Definition sample_operation (id : Z) (status : op_status) : Operation :=
  {| op_id := IdInt id; fk_launched_in := 1; fk_from_algo := 7;
     op_project := Some sample_project; op_algorithm := Some sample_importer;
     op_status_of := status; start_date := None; completion_date := None |}.

Definition sample_db : Database :=
  {| operations := [sample_operation 1 STATUS_FINISHED; sample_operation 2 STATUS_ERROR];
     algorithms := [sample_importer];
     bursts := [];
     linked_datatypes := ∅;
     view_model_references := ∅ |}.

Definition make_world (files : gmap path node) (store : Database)
    (encrypted : bool) (running : nat) : World :=
  {| fs := files; write_protected := ∅; clock := sample_clock; tick := 0;
     TVB_STORAGE := ["TVB"]; encrypt_storage := encrypted;
     project_usage_count := ∅;
     running_op_count := {[ ["TVB"; "PROJECTS"; "P"] := running ]};
     db := store; tvb_zip := None; encryption_handler := None |}.

(** The sample installation, with encryption switched on or off and
    the given count of running operations in the folder of [P]. *)
Definition sample_world (encrypted : bool) (running : nat) : World :=
  make_world sample_fs sample_db encrypted running.

(** The sample installation where the system refuses to delete one file
    of operation 1. *)
Definition locked_world : World :=
  {| fs := sample_fs;
     write_protected := {[ ["TVB"; "PROJECTS"; "P"; "1"; "Connectivity_g1.h5"] ]};
     clock := sample_clock; tick := 0;
     TVB_STORAGE := ["TVB"]; encrypt_storage := true;
     project_usage_count := ∅; running_op_count := ∅;
     db := sample_db; tvb_zip := None; encryption_handler := None |}.

(** The sample installation where [P] links one surface stored in
    project [Other] and the folder of the synthetic import operation is
    on disk. *)
Definition linked_surface : path := ["TVB"; "PROJECTS"; "Other"; "9"; "Surface_s1.h5"].

Definition linked_world : World :=
  make_world
    (<[ ["TVB"; "PROJECTS"; "P"; "links-to-external-projects"] := Dir ]>
       (<[ linked_surface := File (blob "surface") ]> sample_fs))
    {| operations := operations sample_db; algorithms := algorithms sample_db;
       bursts := []; linked_datatypes := {[ 1 := [linked_surface] ]};
       view_model_references := ∅ |}
    false 0.

(** The sample installation with a burst (id 5) simulated by operation
    1: the root view-model [sg] references one child view-model and one
    connectivity. *)
Definition sample_burst : Burst :=
  {| burst_id := 5; burst_gid := "bg"; burst_project := sample_project;
     fk_simulation := 1; simulator_gid := "sg" |}.

Definition burst_world : World :=
  make_world
    (<[ ["TVB"; "PROJECTS"; "P"; "1"; "BurstConfiguration_bg.h5"] := File (blob "burst") ]>
       (<[ ["TVB"; "PROJECTS"; "P"; "1"; "SimulatorAdapterModel_sg.h5"] :=
             File (Blob {[ "history_gid" := "hist" ]} "simulator") ]>
          (<[ ["TVB"; "PROJECTS"; "P"; "1"; "Generic2dOscillator_m1.h5"] :=
                File (blob "model") ]> sample_fs)))
    {| operations := operations sample_db; algorithms := algorithms sample_db;
       bursts := [sample_burst]; linked_datatypes := ∅;
       view_model_references :=
         {[ "sg" := ([ ["TVB"; "PROJECTS"; "P"; "1"; "SimulatorAdapterModel_sg.h5"];
                       ["TVB"; "PROJECTS"; "P"; "1"; "Generic2dOscillator_m1.h5"] ],
                     [ ["TVB"; "PROJECTS"; "P"; "1"; "Connectivity_g1.h5"] ]) ]} |}
    false 0.

Definition sample_datatype (gid : string) (op : Z) : DataType :=
  {| dt_gid := gid; dt_type := "Connectivity"; fk_from_operation := op |}.

(** An exporter that accepts every datatype and writes one file named
    after its gid. *)
Definition writing_exporter : Exporter :=
  {| accepts := λ _, true;
     get_label := "TVB Format";
     export := λ data data_export_folder project,
       let file_name := dt_gid data +:+ ".h5" in
       let dest := data_export_folder ++ [file_name] in
       write_file dest (blob "exported");;
       mret (file_name, dest, true) |}.

(** An exporter that accepts every datatype and then fails to export it. *)
Definition failing_exporter : Exporter :=
  {| accepts := λ _, true;
     get_label := "TVB Format with links";
     export := λ _ _ _, raise ExportException |}.

(** An exporter that accepts nothing. *)
Definition refusing_exporter : Exporter :=
  {| accepts := λ _, false;
     get_label := "None";
     export := λ _ _ _, raise ExportException |}.

(** A manager whose only exporter accepts nothing. *)
Definition refusing_manager : ExportManager.t :=
  {| ExportManager.all_exporters :=
       ExportManager._register_exporter "RefusingExporter" (Some refusing_exporter) ∅;
     ExportManager.export_folder := ["TVB"; "EXPORT_TMP"] |}.

Definition sample_manager : ExportManager.t :=
  {| ExportManager.all_exporters :=
       ExportManager._register_exporter "TVBLinkedExporter" (Some failing_exporter)
         (ExportManager._register_exporter "TVBExporter" (Some writing_exporter) ∅);
     ExportManager.export_folder := ["TVB"; "EXPORT_TMP"] |}.

(** An exporter that accepts every datatype, removes the staging folder
    it is given and reports a file elsewhere. *)
Definition vanishing_exporter : Exporter :=
  {| accepts := λ _, true;
     get_label := "Elsewhere";
     export := λ data data_export_folder project,
       os_rmdir data_export_folder;;
       mret (dt_gid data, ["TVB"; "elsewhere"], false) |}.

Definition vanishing_manager : ExportManager.t :=
  {| ExportManager.all_exporters :=
       ExportManager._register_exporter "VanishingExporter" (Some vanishing_exporter) ∅;
     ExportManager.export_folder := ["TVB"; "EXPORT_TMP"] |}.

(** A manager whose export folder is the path of a regular file. *)
Definition misplaced_manager : ExportManager.t :=
  {| ExportManager.all_exporters := ExportManager.all_exporters sample_manager;
     ExportManager.export_folder := ["TVB"; "PROJECTS"; "P"; "Project.xml"] |}.

(** The sample installation, without encryption, where the system
    refuses to move or delete the encrypted counterpart of [P]. *)
Definition sealed_world : World :=
  {| fs := sample_fs;
     write_protected := {[ ["TVB"; "PROJECTS"; "P_encrypted"; "payload"] ]};
     clock := sample_clock; tick := 0;
     TVB_STORAGE := ["TVB"]; encrypt_storage := false;
     project_usage_count := ∅; running_op_count := ∅;
     db := sample_db; tvb_zip := None; encryption_handler := None |}.

(** ** Predicates on computations *)

(** A computation that never assigns [self.tvb_zip]. *)
Definition keeps_zip {A} (m : M A) : Prop :=
  ∀ w, tvb_zip (m w).2 = tvb_zip w.

(** A computation that cannot return while [self.tvb_zip] is [None]. *)
Definition needs_zip {A} (m : M A) : Prop :=
  ∀ w, tvb_zip w = None → ∃ e, (m w).1 = Raise e ∧ tvb_zip (m w).2 = None.

(** A computation that, started in a world where [P] holds, leaves
    every path outside [S] as it was, whatever its outcome, and
    establishes [Q] when it returns. *)
Definition confined {A} (P : World → Prop) (S : path → Prop) (m : M A)
    (Q : A → World → Prop) : Prop :=
  ∀ w, P w →
    (∀ q, ¬ S q → fs (m w).2 !! q = fs w !! q)
    ∧ (∀ a, (m w).1 = Ok a → Q a (m w).2).

(** A property of the world that depends on the storage root and on the
    zip handle of the facade only. *)
Definition stable (P : World → Prop) : Prop :=
  ∀ w w', TVB_STORAGE w' = TVB_STORAGE w → tvb_zip w' = tvb_zip w → P w → P w'.

(** The paths on the branch of [d]: [d], what lies under it, and the
    folders [d] lies in. *)
Definition on_branch (d q : path) : Prop :=
  under d q = true ∨ under q d = true.

(** A reading of the clock as [datetime.now()] gives it: no field is
    negative. *)
Definition valid_datetime (d : datetime) : Prop :=
  0 ≤ year d ∧ 0 ≤ month d ∧ 0 ≤ day d ∧ 0 ≤ hour d ∧ 0 ≤ minute d
  ∧ 0 ≤ second d ∧ 0 ≤ microsecond d.


(** ** The name of a staging folder *)

(** The characters of the decimal notation of a number. *)
Definition is_digit (c : Ascii.ascii) : bool :=
  (48 <=? Ascii.nat_of_ascii c)%nat && (Ascii.nat_of_ascii c <=? 57)%nat.

Fixpoint all_digits (s : string) : bool :=
  match s with
  | EmptyString => true
  | String c r => is_digit c && all_digits r
  end.

(** The name [build_data_export_folder] gives the folder of an export
    started at [now] for the entity with the given gid: [date_str + "@"
    + data.gid]. *)
Definition data_export_folder_name (now : datetime) (gid : string) : string :=
  (pretty (year now) +:+ "-" +:+ pretty (month now) +:+ "-" +:+ pretty (day now)
   +:+ "_" +:+ pretty (hour now) +:+ "-" +:+ pretty (minute now) +:+ "-"
   +:+ pretty (second now) +:+ "_" +:+ pretty (microsecond now))
  +:+ "@" +:+ gid.

(** ** The archive of an export *)

(** The facade of a store rooted at [root] holds the handle of an
    archive whose file is one of the paths [S]. *)
Definition holds_archive (root : path) (S : path → Prop) (w : World) : Prop :=
  TVB_STORAGE w = root ∧ ∃ z, tvb_zip w = Some z ∧ S (zip_dest z).

(** * Properties *)

(** ** Paths *)

Section paths.
Implicit Types d p r : path.

Lemma relpath_app d r : relpath d (d ++ r) = Some r.
Proof. induction d as [|x d IH]; simpl; [done|]. by rewrite decide_True. Qed.

Lemma relpath_Some d p r : relpath d p = Some r ↔ p = d ++ r.
Proof.
  split; [|intros ->; apply relpath_app].
  revert p; induction d as [|x d IH]; intros [|y p]; simpl; try congruence.
  case_decide; [|done]. intros ?%IH. by subst.
Qed.

Lemma under_app d r : under d (d ++ r) = true.
Proof. unfold under. by rewrite relpath_app. Qed.

Lemma under_refl d : under d d = true.
Proof. rewrite <- (app_nil_r d) at 2. apply under_app. Qed.

Lemma under_true d p : under d p = true ↔ ∃ r, p = d ++ r.
Proof.
  unfold under. destruct (relpath d p) as [r|] eqn:E.
  - apply relpath_Some in E. naive_solver.
  - split; [done|]. intros [r ->]. by rewrite relpath_app in E.
Qed.

Lemma under_false d p : under d p = false ↔ relpath d p = None.
Proof. unfold under. by destruct (relpath d p). Qed.

(** Two folders with the same parent: one lies under the other only
    when they are the same folder. *)
Lemma relpath_sibling d (a b : string) r :
  relpath (d ++ [a]) (d ++ b :: r) = if decide (a = b) then Some r else None.
Proof. induction d as [|x d IH]; simpl; [done|]. by rewrite decide_True. Qed.

Lemma under_sibling d (a b : string) r :
  under (d ++ [a]) (d ++ b :: r) = bool_decide (a = b).
Proof.
  unfold under. rewrite relpath_sibling.
  destruct (decide (a = b)); [by rewrite bool_decide_true | by rewrite bool_decide_false].
Qed.

Lemma under_trans d p q : under d p = true → under p q = true → under d q = true.
Proof.
  rewrite !under_true. intros [r ->] [r' ->]. exists (r ++ r'). by rewrite app_assoc.
Qed.
End paths.

(** ** The file system as a map *)

Section trees.
Implicit Types m : gmap path node.
Implicit Types d p r : path.

Lemma lookup_subtree d m r : subtree d m !! r = m !! (d ++ r).
Proof.
  unfold subtree.
  set (l := omap _ _).
  assert (Hl : ∀ v, (r, v) ∈ l ↔ m !! (d ++ r) = Some v).
  { intros v. unfold l. rewrite list_elem_of_omap. split.
    - intros [[p n] [Hin Heq]]. apply elem_of_map_to_list in Hin. simpl in Heq.
      destruct (relpath d p) as [r'|] eqn:E; simplify_eq/=.
      apply relpath_Some in E. by subst.
    - intros Hv. exists (d ++ r, v). split; [by apply elem_of_map_to_list|].
      simpl. by rewrite relpath_app. }
  destruct (m !! (d ++ r)) as [v|] eqn:E.
  - destruct (list_to_map l !! r) as [v'|] eqn:E'.
    + apply elem_of_list_to_map_2, Hl in E'. congruence.
    + apply not_elem_of_list_to_map in E'. destruct E'.
      apply list_elem_of_fmap. exists (r, v). split; [done|]. by apply Hl.
  - destruct (list_to_map l !! r) as [v'|] eqn:E'; [|done].
    apply elem_of_list_to_map_2, Hl in E'. congruence.
Qed.

Lemma lookup_prune d m p :
  prune d m !! p = if under d p then None else m !! p.
Proof.
  unfold prune. destruct (under d p) eqn:E.
  - apply map_lookup_filter_None. right. intros x _. simpl. congruence.
  - destruct (m !! p) as [x|] eqn:Ep.
    + by apply map_lookup_filter_Some.
    + apply map_lookup_filter_None. by left.
Qed.

#[local] Instance app_inj (dst : path) : Inj (=) (=) (app dst).
Proof. intros ???. by simplify_list_eq. Qed.

Lemma lookup_moved src dst m p :
  moved src dst m !! p =
    match relpath dst p with
    | Some r => m !! (src ++ r)
    | None => if under src p then None else m !! p
    end.
Proof.
  unfold moved. rewrite lookup_union.
  destruct (relpath dst p) as [r|] eqn:E.
  - apply relpath_Some in E. subst p.
    rewrite (lookup_kmap (app dst)), lookup_subtree, lookup_prune, under_app.
    by destruct (m !! (src ++ r)).
  - assert (kmap (app dst) (subtree src m) !! p = None) as ->.
    { apply lookup_kmap_None; [apply _|]. intros r ->. by rewrite relpath_app in E. }
    rewrite lookup_prune.
    replace (under dst p) with false by (symmetry; by apply under_false).
    rewrite lookup_prune. by destruct (under src p), (m !! p).
Qed.

Lemma elem_of_children d m (f : string) :
  f ∈ children d m ↔ is_Some (m !! (d ++ [f])).
Proof.
  unfold children. rewrite list_elem_of_omap. split.
  - intros [[p n] [Hin Heq]]. apply elem_of_map_to_list in Hin. simpl in Heq.
    destruct (relpath d p) as [[|g [|??]]|] eqn:E; simplify_eq/=.
    apply relpath_Some in E. subst. eauto.
  - intros [n Hn]. exists (d ++ [f], n). split; [by apply elem_of_map_to_list|].
    simpl. by rewrite relpath_app.
Qed.

Lemma elem_of_walk_files d m r c :
  (r, c) ∈ walk_files d m ↔ r ≠ [] ∧ m !! (d ++ r) = Some (File c).
Proof.
  unfold walk_files. rewrite list_elem_of_omap. split.
  - intros [[p n] [Hin Heq]]. apply elem_of_map_to_list in Hin. simpl in Heq.
    rewrite lookup_subtree in Hin.
    destruct n as [|c']; [done|]. destruct p as [|g p]; simplify_eq/=. done.
  - intros [Hr Hm]. exists (r, File c). split.
    + apply elem_of_map_to_list. by rewrite lookup_subtree.
    + simpl. by destruct r.
Qed.

(** The walk of a folder only depends on what lies under it. *)
Lemma subtree_ext d m m' :
  (∀ r, m' !! (d ++ r) = m !! (d ++ r)) → subtree d m' = subtree d m.
Proof. intros H. apply map_eq. intros r. by rewrite !lookup_subtree. Qed.

Lemma walk_files_ext d m m' :
  (∀ r, m' !! (d ++ r) = m !! (d ++ r)) → walk_files d m' = walk_files d m.
Proof. intros H. unfold walk_files. by rewrite (subtree_ext d m m'). Qed.
End trees.

(** ** Strings *)

Lemma string_app_cons (c : Ascii.ascii) (a b : string) :
  String c a +:+ b = String c (a +:+ b).
Proof. reflexivity. Qed.

Lemma string_app_nil (b : string) : "" +:+ b = b.
Proof. reflexivity. Qed.

Lemma string_app_length (a b : string) :
  String.length (a +:+ b) = (String.length a + String.length b)%nat.
Proof.
  induction a as [|c a IH]; [done|].
  rewrite string_app_cons. simpl. by rewrite IH.
Qed.

Lemma prefix_spec (n h : string) :
  String.prefix n h = true ↔ ∃ b, h = n +:+ b.
Proof.
  revert h. induction n as [|c n IH]; intros h.
  - split; [intros _; exists h; reflexivity|by destruct h].
  - destruct h as [|c' h]; simpl.
    { split; [done|]. intros [b Hb]. by rewrite string_app_cons in Hb. }
    destruct (Ascii.ascii_dec c c') as [->|Hne].
    + rewrite IH. split; intros [b Hb]; exists b; rewrite string_app_cons in *; congruence.
    + split; [done|]. intros [b Hb]. rewrite string_app_cons in Hb. congruence.
Qed.

Lemma str_contains_cons (n : string) (c : Ascii.ascii) (h : string) :
  str_contains n (String c h) = String.prefix n (String c h) || str_contains n h.
Proof. reflexivity. Qed.

Lemma str_contains_nil (n : string) : str_contains n "" = String.prefix n "".
Proof. unfold str_contains. apply orb_false_r. Qed.

(** [str_contains] is the substring test. *)
Lemma str_contains_spec (n h : string) :
  str_contains n h = true ↔ ∃ a b, h = a +:+ n +:+ b.
Proof.
  induction h as [|c h IH].
  - rewrite str_contains_nil, prefix_spec. split.
    + intros [b Hb]. exists "", b. by rewrite string_app_nil.
    + intros [[|??] [b Hb]]; [by exists b|by rewrite string_app_cons in Hb].
  - rewrite str_contains_cons, orb_true_iff, IH, prefix_spec. split.
    + intros [[b Hb]|(a & b & ->)];
        [exists "", b; by rewrite string_app_nil|by exists (String c a), b].
    + intros ([|c' a] & b & Hb); [left; by exists b|].
      rewrite string_app_cons in Hb. right. exists a, b. congruence.
Qed.

(** ** Running monadic code *)

Lemma bind_Ok {A B} (m : M A) (f : A → M B) w a w1 :
  m w = (Ok a, w1) → (m ≫= f) w = f a w1.
Proof. unfold mbind, M_bind. by intros ->. Qed.

Lemma bind_Raise {A B} (m : M A) (f : A → M B) w e w1 :
  m w = (Raise e, w1) → (m ≫= f) w = (Raise e, w1).
Proof. unfold mbind, M_bind. by intros ->. Qed.

Lemma bind_inv_Ok {A B} (m : M A) (f : A → M B) w b w' :
  (m ≫= f) w = (Ok b, w') → ∃ a w1, m w = (Ok a, w1) ∧ f a w1 = (Ok b, w').
Proof.
  unfold mbind, M_bind. destruct (m w) as [[a|e] w1]; [eauto|done].
Qed.

(** ** [get_h5_by_gid] *)

Lemma first_h5_spec op_path dt_gid names w :
  ∃ r, StorageInterface.first_h5 op_path dt_gid names w = (Ok r, w) ∧
    match r with
    | Some fp => ∃ f, f ∈ names ∧ fp = op_path ++ [f]
                      ∧ str_contains dt_gid f = true ∧ is_file (fs w !! fp) = true
    | None => ∀ f, f ∈ names → is_file (fs w !! (op_path ++ [f])) = true
                   → str_contains dt_gid f = false
    end.
Proof.
  induction names as [|f names IH]; simpl.
  - exists None. split; [done|]. by intros f ?%elem_of_nil.
  - unfold mbind, M_bind, os_path_isfile, gets. simpl.
    destruct (str_contains dt_gid f && is_file (fs w !! (op_path ++ [f]))) eqn:E.
    + apply andb_true_iff in E as [Hc Hf].
      exists (Some (op_path ++ [f])). split; [done|]. exists f.
      split; [left|done].
    + destruct IH as (r & -> & Hr). exists r. split; [done|].
      destruct r as [fp|].
      * destruct Hr as (g & Hg & Hrest). exists g. split; [by right|done].
      * intros g [->|Hg]%elem_of_cons Hfile; [|by eauto].
        by rewrite Hfile, andb_true_r in E.
Qed.

(** C10. When the operation folder exists, [get_h5_by_gid] returns
    without raising: either the path of a regular file of that folder
    whose name contains the gid, or [None], and [None] only when the
    folder holds no such file. *)
Theorem get_h5_by_gid_spec project_name op_id dt_gid w :
  let op_path := FilesHelper.get_operation_folder w project_name op_id in
  fs w !! op_path = Some Dir →
  ∃ r, StorageInterface.get_h5_by_gid project_name op_id dt_gid w = (Ok r, w) ∧
    match r with
    | Some fp => ∃ f, fp = op_path ++ [f] ∧ str_contains dt_gid f = true
                      ∧ is_file (fs w !! fp) = true
    | None => ∀ f, is_file (fs w !! (op_path ++ [f])) = true
                   → str_contains dt_gid f = false
    end.
Proof.
  intros op_path Hdir. unfold StorageInterface.get_h5_by_gid.
  unfold mbind at 1, M_bind, gets. fold op_path.
  unfold mbind at 1, M_bind, os_listdir. rewrite Hdir. simpl.
  destruct (first_h5_spec op_path dt_gid (children op_path (fs w)) w) as (r & -> & Hr).
  exists r. split; [done|]. destruct r as [fp|].
  - destruct Hr as (f & _ & ?). eauto.
  - intros f Hf. apply Hr; [|done]. apply elem_of_children.
    destruct (fs w !! (op_path ++ [f])); [eauto|done].
Qed.

Lemma get_h5_by_gid_spec_witness :
  fs (sample_world false 0) !! FilesHelper.get_operation_folder (sample_world false 0) "P" (IdInt 1)
    = Some Dir
  ∧ StorageInterface.get_h5_by_gid "P" (IdInt 1) "g1" (sample_world false 0)
    = (Ok (Some ["TVB"; "PROJECTS"; "P"; "1"; "Connectivity_g1.h5"]), sample_world false 0).
Proof.
  split; [by vm_compute|].
  destruct (get_h5_by_gid_spec "P" (IdInt 1) "g1" (sample_world false 0)) as (r & Hr & _);
    [by vm_compute|].
  rewrite Hr. f_equal. vm_compute in Hr. congruence.
Defined.

(** ** [cleanup] *)

Section purge.
Variables enc pwd : path.

(** What [purge] does, case by case. *)
Lemma purge_unfold w :
  EncryptionHandler.purge enc pwd w =
    let m1 :=
      if bool_decide (is_Some (fs w !! enc)) then
        if is_dir (fs w !! enc) && negb (denied (write_protected w) enc (fs w))
        then Some (prune enc (fs w)) else None
      else Some (fs w) in
    match m1 with
    | None => (Raise OSError, w)
    | Some m =>
        if bool_decide (is_Some (m !! pwd)) then
          if is_file (m !! pwd) && negb (denied (write_protected w) pwd m)
          then (Ok tt, with_fs (λ _, delete pwd m) w)
          else (Raise OSError, with_fs (λ _, m) w)
        else (Ok tt, with_fs (λ _, m) w)
    end.
Proof.
  unfold EncryptionHandler.purge.
  unfold mbind, M_bind, os_path_exists, gets, shutil_rmtree, os_remove, mret, M_ret.
  destruct w as [m prot ck tk st es uc rc d z eh]. simpl.
  destruct (bool_decide (is_Some (m !! enc))); simpl.
  - destruct (is_dir (m !! enc) && negb (denied prot enc m)); simpl; [|done].
    destruct (bool_decide (is_Some (prune enc m !! pwd))); simpl; [|done].
    by destruct (is_file (prune enc m !! pwd) && negb (denied prot pwd (prune enc m))).
  - destruct (bool_decide (is_Some (m !! pwd))); simpl; [|done].
    by destruct (is_file (m !! pwd) && negb (denied prot pwd m)).
Qed.

Lemma purge_frame w :
  let w' := (EncryptionHandler.purge enc pwd w).2 in
  TVB_STORAGE w' = TVB_STORAGE w ∧ encryption_handler w' = encryption_handler w.
Proof.
  rewrite purge_unfold. cbv zeta.
  repeat (case_match; simpl); done.
Qed.

(** After a successful [purge] both paths are free. *)
Lemma purge_clean w :
  let out := EncryptionHandler.purge enc pwd w in
  out.1 = Ok tt → fs out.2 !! enc = None ∧ fs out.2 !! pwd = None.
Proof.
  rewrite purge_unfold. cbv zeta.
  destruct (bool_decide (is_Some (fs w !! enc))) eqn:Eenc.
  - destruct (is_dir (fs w !! enc) && negb (denied (write_protected w) enc (fs w)));
      [|done].
    assert (Hgone : prune enc (fs w) !! enc = None) by by rewrite lookup_prune, under_refl.
    destruct (bool_decide (is_Some (prune enc (fs w) !! pwd))) eqn:Epwd.
    + destruct (is_file _ && negb _); [|done]. simpl. intros _.
      rewrite lookup_delete_eq. split; [|done]. rewrite lookup_delete_None. by right.
    + simpl. intros _. split; [done|].
      apply bool_decide_eq_false in Epwd. by apply eq_None_not_Some.
  - apply bool_decide_eq_false, eq_None_not_Some in Eenc.
    destruct (bool_decide (is_Some (fs w !! pwd))) eqn:Epwd.
    + destruct (is_file _ && negb _); [|done]. simpl. intros _.
      rewrite lookup_delete_eq. split; [|done]. rewrite lookup_delete_None. by right.
    + simpl. intros _. split; [done|].
      apply bool_decide_eq_false in Epwd. by apply eq_None_not_Some.
Qed.

(** On a clean pair of paths [purge] changes nothing. *)
Lemma purge_noop w :
  fs w !! enc = None → fs w !! pwd = None →
  EncryptionHandler.purge enc pwd w = (Ok tt, w).
Proof.
  intros Henc Hpwd. rewrite purge_unfold. cbv zeta.
  rewrite Henc, bool_decide_false by by intros [??].
  rewrite Hpwd, bool_decide_false by by intros [??].
  by destruct w.
Qed.

(** A second [purge] ends like the first and changes nothing more. *)
Lemma purge_twice w :
  let out := EncryptionHandler.purge enc pwd w in
  EncryptionHandler.purge enc pwd out.2 = out.
Proof.
  intros out. subst out.
  pose proof (purge_clean w) as Hc. cbv zeta in Hc.
  destruct (EncryptionHandler.purge enc pwd w) as [[[]|e] w1] eqn:Eout; simpl in *.
  - destruct (Hc eq_refl) as [H1 H2]. by apply purge_noop.
  - clear Hc. revert Eout. rewrite purge_unfold. cbv zeta.
    destruct (bool_decide (is_Some (fs w !! enc))) eqn:Eenc.
    + destruct (is_dir (fs w !! enc) && negb (denied (write_protected w) enc (fs w)))
        eqn:Edir.
      * assert (Hgone : prune enc (fs w) !! enc = None)
          by by rewrite lookup_prune, under_refl.
        destruct (bool_decide (is_Some (prune enc (fs w) !! pwd))) eqn:Epwd; [|done].
        destruct (is_file _ && negb _) eqn:Efile; [done|].
        intros [= <- <-]. rewrite purge_unfold. simpl.
        rewrite Hgone, bool_decide_false by by intros [??].
        rewrite Epwd, Efile. by destruct w.
      * intros [= <- <-]. rewrite purge_unfold. cbv zeta. by rewrite Eenc, Edir.
    + destruct (bool_decide (is_Some (fs w !! pwd))) eqn:Epwd; [|done].
      destruct (is_file _ && negb _) eqn:Efile; [done|].
      intros [= <- <-]. rewrite purge_unfold. simpl.
      rewrite Eenc, Epwd, Efile. by destruct w.
Qed.
End purge.

Lemma cleanup_as_purge dir_gid w :
  let h := {| dir_gid := dir_gid |} in
  StorageInterface.cleanup dir_gid w =
    EncryptionHandler.purge (EncryptionHandler.get_encrypted_dir w h)
      (EncryptionHandler.get_password_file w h)
      (with_encryption_handler (Some h) w).
Proof. reflexivity. Qed.

Lemma with_encryption_handler_id h w :
  encryption_handler w = h → with_encryption_handler h w = w.
Proof. intros <-. by destruct w. Qed.

(** C9. [cleanup(dir_gid)] is idempotent: a second call in a row ends
    with the outcome and the state of the first; on a directory that is
    already clean it is a no-op and not an error; and a call that
    succeeds leaves neither the encrypted directory nor the password
    file. *)
Theorem cleanup_idempotent dir_gid w :
  let h := {| dir_gid := dir_gid |} in
  let enc := EncryptionHandler.get_encrypted_dir w h in
  let pwd := EncryptionHandler.get_password_file w h in
  let out := StorageInterface.cleanup dir_gid w in
  StorageInterface.cleanup dir_gid out.2 = out
  ∧ (fs w !! enc = None → fs w !! pwd = None →
       out = (Ok tt, with_encryption_handler (Some h) w))
  ∧ (out.1 = Ok tt → fs out.2 !! enc = None ∧ fs out.2 !! pwd = None).
Proof.
  intros h enc pwd out. subst out.
  set (w0 := with_encryption_handler (Some h) w).
  assert (Hout : StorageInterface.cleanup dir_gid w = EncryptionHandler.purge enc pwd w0)
    by apply cleanup_as_purge.
  rewrite Hout.
  destruct (purge_frame enc pwd w0) as [Hst Heh]. cbv zeta in Hst, Heh.
  split; [|split].
  - assert (He : EncryptionHandler.get_encrypted_dir
                    (EncryptionHandler.purge enc pwd w0).2 h = enc)
      by (unfold EncryptionHandler.get_encrypted_dir; by rewrite Hst).
    assert (Hp : EncryptionHandler.get_password_file
                   (EncryptionHandler.purge enc pwd w0).2 h = pwd)
      by (unfold EncryptionHandler.get_password_file; by rewrite Hst).
    rewrite cleanup_as_purge. cbv zeta. fold h. rewrite He, Hp.
    rewrite with_encryption_handler_id by (by rewrite Heh).
    apply (purge_twice enc pwd w0).
  - intros Henc Hpwd. by apply purge_noop.
  - apply (purge_clean enc pwd w0).
Qed.

Lemma cleanup_idempotent_witness :
  let w := (StorageInterface.cleanup "dg" (sample_world false 0)).2 in
  fs w !! ["TVB"; "ENCRYPTED"; "dg"] = None
  ∧ fs w !! ["TVB"; "ENCRYPTED"; "dg.pwd"] = None
  ∧ StorageInterface.cleanup "dg" w = (Ok tt, w).
Proof.
  intros w.
  assert (H1 : fs w !! ["TVB"; "ENCRYPTED"; "dg"] = None) by by vm_compute.
  assert (H2 : fs w !! ["TVB"; "ENCRYPTED"; "dg.pwd"] = None) by by vm_compute.
  split; [exact H1|]. split; [exact H2|].
  destruct (cleanup_idempotent "dg" w) as (_ & Hclean & _).
  rewrite (Hclean H1 H2). f_equal.
Defined.

(** ** [export_data] *)

Section finally_block.
(** The [finally] block of [export_data], on a folder that is an empty
    directory the system lets go. *)
Lemma finally_removes_empty folder w2 :
  fs w2 !! folder = Some Dir → children folder (fs w2) = [] →
  denied (write_protected w2) folder (fs w2) = false →
  (os_listdir folder ≫= λ names,
     if bool_decide (length names = 0%nat) then os_rmdir folder else mret tt) w2
  = (Ok tt, with_fs (delete folder) w2).
Proof.
  intros Hdir Hnil Hden.
  unfold mbind, M_bind, os_listdir, os_rmdir. rewrite Hdir. simpl.
  rewrite Hnil. simpl. by rewrite Hdir, Hnil, Hden.
Qed.

(** The same block on a directory that holds something. *)
Lemma finally_keeps_nonempty folder w2 :
  fs w2 !! folder = Some Dir → children folder (fs w2) ≠ [] →
  (os_listdir folder ≫= λ names,
     if bool_decide (length names = 0%nat) then os_rmdir folder else mret tt) w2
  = (Ok tt, w2).
Proof.
  intros Hdir Hne.
  unfold mbind, M_bind, os_listdir. rewrite Hdir. simpl.
  destruct (children folder (fs w2)); [done|]. by rewrite bool_decide_false.
Qed.
End finally_block.

(** C8. Once the checks of [export_data] are passed and the staging
    folder is built, whatever the export step yields, an exception
    included: when that step leaves the staging folder an empty directory
    (one the system does not refuse to remove), [export_data] ends with
    the outcome of the export step and the staging folder is gone. *)
Theorem export_data_removes_empty_staging
    self data exporter_id exporter project w folder w1 r2 w2 :
  ExportManager.all_exporters self !! exporter_id = Some exporter →
  accepts exporter data = true →
  StorageInterface.build_data_export_folder (dt_gid data)
    (ExportManager.export_folder self) w = (Ok folder, w1) →
  export exporter data folder project w1 = (r2, w2) →
  fs w2 !! folder = Some Dir →
  children folder (fs w2) = [] →
  denied (write_protected w2) folder (fs w2) = false →
  ∃ w', ExportManager.export_data self (Some data) (Some exporter_id) (Some project) w
          = (r2, w')
        ∧ fs w' !! folder = None.
Proof.
  intros Hreg Hacc Hbuild Hexp Hdir Hnil Hden.
  exists (with_fs (delete folder) w2). split; [|apply lookup_delete_eq].
  unfold ExportManager.export_data. rewrite Hreg, Hacc. simpl.
  unfold try_finally_bound. rewrite Hbuild, Hexp.
  by rewrite finally_removes_empty.
Qed.

Lemma export_data_removes_empty_staging_witness :
  let folder := ["TVB"; "EXPORT_TMP"; "2021-3-9_14-5-7_0@g1"] in
  ∃ w', ExportManager.export_data sample_manager (Some (sample_datatype "g1" 1))
          (Some "TVBLinkedExporter") (Some sample_project) (sample_world false 0)
          = (Raise ExportException, w')
        ∧ fs w' !! folder = None.
Proof.
  intros folder.
  eapply (export_data_removes_empty_staging sample_manager (sample_datatype "g1" 1)
            "TVBLinkedExporter" failing_exporter sample_project (sample_world false 0)
            folder).
  - by vm_compute.
  - reflexivity.
  - by vm_compute.
  - reflexivity.
  - by vm_compute.
  - by vm_compute.
  - by vm_compute.
Defined.

(** C4, as the code has it.  The checks of [export_data] run in this
    order: null data is [InvalidExportDataException]; then a null
    exporter id, an id that is not registered and a null project are each
    [ExportException]; then data the exporter does not accept is
    [InvalidExportDataException]; and an exception of the export step
    itself comes out unchanged when the staging folder is still a
    directory that can be cleaned up. *)
Theorem export_data_errors self w :
  (∀ exporter_id project,
      ExportManager.export_data self None exporter_id project w
      = (Raise InvalidExportDataException, w))
  ∧ (∀ data project,
      ExportManager.export_data self (Some data) None project w
      = (Raise ExportException, w))
  ∧ (∀ data exporter_id project,
      ExportManager.all_exporters self !! exporter_id = None →
      ExportManager.export_data self (Some data) (Some exporter_id) project w
      = (Raise ExportException, w))
  ∧ (∀ data exporter_id exporter,
      ExportManager.all_exporters self !! exporter_id = Some exporter →
      ExportManager.export_data self (Some data) (Some exporter_id) None w
      = (Raise ExportException, w))
  ∧ (∀ data exporter_id exporter project,
      ExportManager.all_exporters self !! exporter_id = Some exporter →
      accepts exporter data = false →
      ExportManager.export_data self (Some data) (Some exporter_id) (Some project) w
      = (Raise InvalidExportDataException, w))
  ∧ (∀ data exporter_id exporter project folder w1 e w2,
      ExportManager.all_exporters self !! exporter_id = Some exporter →
      accepts exporter data = true →
      StorageInterface.build_data_export_folder (dt_gid data)
        (ExportManager.export_folder self) w = (Ok folder, w1) →
      export exporter data folder project w1 = (Raise e, w2) →
      fs w2 !! folder = Some Dir →
      denied (write_protected w2) folder (fs w2) = false →
      (ExportManager.export_data self (Some data) (Some exporter_id) (Some project) w).1
      = Raise e).
Proof.
  repeat split.
  - intros data exporter_id project Hreg. unfold ExportManager.export_data. by rewrite Hreg.
  - intros data exporter_id exporter Hreg. unfold ExportManager.export_data. by rewrite Hreg.
  - intros data exporter_id exporter project Hreg Hacc.
    unfold ExportManager.export_data. by rewrite Hreg, Hacc.
  - intros data exporter_id exporter project folder w1 e w2 Hreg Hacc Hbuild Hexp Hdir Hden.
    unfold ExportManager.export_data. rewrite Hreg, Hacc. simpl.
    unfold try_finally_bound. rewrite Hbuild, Hexp.
    destruct (decide (children folder (fs w2) = [])) as [Hnil|Hne].
    + by rewrite finally_removes_empty.
    + by rewrite finally_keeps_nonempty.
Qed.

Lemma export_data_errors_witness :
  ExportManager.export_data sample_manager (Some (sample_datatype "g1" 1))
    (Some "NoSuchExporter") (Some sample_project) (sample_world false 0)
  = (Raise ExportException, sample_world false 0)
  ∧ ExportManager.export_data sample_manager (Some (sample_datatype "g1" 1))
      (Some "TVBExporter") None (sample_world false 0)
    = (Raise ExportException, sample_world false 0)
  ∧ ExportManager.export_data refusing_manager (Some (sample_datatype "g1" 1))
      (Some "RefusingExporter") (Some sample_project) (sample_world false 0)
    = (Raise InvalidExportDataException, sample_world false 0)
  ∧ (ExportManager.export_data sample_manager (Some (sample_datatype "g1" 1))
       (Some "TVBLinkedExporter") (Some sample_project) (sample_world false 0)).1
    = Raise ExportException.
Proof.
  destruct (export_data_errors sample_manager (sample_world false 0))
    as (_ & _ & Hunreg & Hnoproj & _ & Hexp).
  destruct (export_data_errors refusing_manager (sample_world false 0))
    as (_ & _ & _ & _ & Hrefuse & _).
  split; [apply Hunreg; by vm_compute|].
  split; [apply (Hnoproj _ _ writing_exporter); by vm_compute|].
  split; [apply (Hrefuse _ _ refusing_exporter); by vm_compute|].
  eapply (Hexp _ _ failing_exporter).
  - by vm_compute.
  - reflexivity.
  - by vm_compute.
  - reflexivity.
  - by vm_compute.
  - by vm_compute.
Defined.

(** C4 as stated fails: with data and a project given, a null exporter
    id raises [ExportException], not [InvalidExportDataException]. *)
Lemma export_data_null_exporter_id_counterexample :
  (ExportManager.export_data sample_manager (Some (sample_datatype "g1" 1))
     None (Some sample_project) (sample_world false 0)).1
  = Raise ExportException
  ∧ (ExportManager.export_data sample_manager (Some (sample_datatype "g1" 1))
       None (Some sample_project) (sample_world false 0)).1
    ≠ Raise InvalidExportDataException.
Proof. split; [reflexivity|discriminate]. Qed.

(** ** [ExportManager.export_project] *)

Lemma get_op_with_errors_spec project_id w :
  ExportManager._get_op_with_errors project_id w
  = (Ok (op_id <$> filter (λ o, fk_launched_in o = project_id
                                ∧ op_status_of o = STATUS_ERROR)
                          (operations (db w))), w).
Proof. reflexivity. Qed.

(** The outcomes of [_export_linked_datatypes]: it never touches the
    file system and, when it returns, the clock is all it has used. *)
Lemma export_linked_datatypes_cases project w :
  let linked := default [] (linked_datatypes (db w) !! project_id project) in
  let algo := List.find (λ a, bool_decide
                  (algo_module a = ExportManager.TVB_IMPORTER_MODULE
                   ∧ algo_classname a = ExportManager.TVB_IMPORTER_CLASS))
                (algorithms (db w)) in
  ExportManager._export_linked_datatypes project w =
    if bool_decide (linked = []) then (Ok (None, None), w)
    else match algo with
         | None => (Raise AttributeError, w)
         | Some a =>
             (Ok (Some linked,
                  Some {| op_id := IdStr "links-to-external-projects";
                          fk_launched_in := project_id project;
                          fk_from_algo := algo_id a;
                          op_project := Some project; op_algorithm := Some a;
                          op_status_of := STATUS_FINISHED;
                          start_date := Some (clock w (tick w));
                          completion_date := Some (clock w (S (tick w))) |}),
              with_tick (S (S (tick w))) w)
         end.
Proof.
  intros linked algo. unfold ExportManager._export_linked_datatypes.
  unfold mbind at 1, M_bind, ProjectService.get_linked_datatypes_storage_path, gets.
  fold linked. destruct (bool_decide (linked = [])); [done|].
  unfold mbind at 1, M_bind, dao.get_algorithm_by_module, gets. fold algo.
  by destruct algo.
Qed.

(** C2, what the code does.  The manager works out the folders to
    exclude (the ids of the operations of the project that ended in
    error) and resolves the linked datatypes, but its call of
    [StorageInterface.export_project] supplies five arguments to a method
    with seven required parameters: for every project given the call
    raises, and no archive path is returned.  For a null project the
    manager raises [ExportException]. *)
Theorem manager_export_project_never_returns self project w :
  ExportManager.export_project self None w = (Raise ExportException, w)
  ∧ ∃ e w', ExportManager.export_project self (Some project) w = (Raise e, w')
            ∧ (e = TypeError ∨ e = AttributeError)
            ∧ fs w' = fs w.
Proof.
  split; [done|].
  unfold ExportManager.export_project.
  unfold mbind at 1, M_bind. rewrite get_op_with_errors_spec.
  unfold mbind at 1, M_bind. rewrite export_linked_datatypes_cases. cbv zeta.
  destruct (bool_decide _).
  - exists TypeError, w. by eauto.
  - destruct (List.find _ _).
    + eexists TypeError, _. split; [reflexivity|]. by eauto.
    + exists AttributeError, w. by eauto.
Qed.

(** The failing input of C2: the sample project on the sample
    installation. *)
Example manager_export_project_sample :
  ExportManager._get_op_with_errors 1 (sample_world false 0)
  = (Ok [IdInt 2], sample_world false 0)
  ∧ ExportManager.export_project sample_manager (Some sample_project) (sample_world false 0)
    = (Raise TypeError, sample_world false 0).
Proof. split; reflexivity. Qed.

(** ** Linked datatypes *)

Lemma basename_app (d : path) (x : string) : basename (d ++ [x]) = x.
Proof. unfold basename. apply List.last_last. Qed.

Lemma with_tvb_zip_id z w : tvb_zip w = z → with_tvb_zip z w = w.
Proof. intros <-. by destruct w. Qed.

Lemma add_entries_nil z : TvbZip.add_entries z [] = z.
Proof. destruct z. unfold TvbZip.add_entries. simpl. by rewrite app_nil_r. Qed.

Lemma add_entries_app z es1 es2 :
  TvbZip.add_entries (TvbZip.add_entries z es1) es2 = TvbZip.add_entries z (es1 ++ es2).
Proof. unfold TvbZip.add_entries. simpl. by rewrite app_assoc. Qed.

Lemma write_zip_arc_ok file_name arc c z w :
  tvb_zip w = Some z → zip_closed z = false → fs w !! file_name = Some (File c) →
  StorageInterface.write_zip_arc file_name arc w
  = (Ok tt, with_tvb_zip (Some (TvbZip.add_entries z [(arc, c)])) w).
Proof.
  intros Hz Hopen Hfile. unfold StorageInterface.write_zip_arc.
  unfold mbind at 1, M_bind, StorageInterface.self_tvb_zip. rewrite Hz.
  unfold mbind at 1, M_bind, TvbZip.write. rewrite Hopen.
  unfold mbind at 1, M_bind, read_file. by rewrite Hfile.
Qed.

(** Writing the linked files one by one appends one entry for each, in
    order, and leaves the files where they are. *)
Lemma write_linked_arcs (name : string) (paths : list path) (contents : list content)
    (m : gmap path node) :
  Forall2 (λ pth c, m !! pth = Some (File c)) paths contents →
  ∀ z w, fs w = m → tvb_zip w = Some z → zip_closed z = false →
  for_each paths (λ pth,
    StorageInterface.write_zip_arc pth (name +:+ "/" +:+ basename pth)) w
  = (Ok tt, with_tvb_zip
              (Some (TvbZip.add_entries z
                 (zip ((λ pth, name +:+ "/" +:+ basename pth) <$> paths) contents))) w).
Proof.
  induction 1 as [|pth c paths contents Hfile Hall IH]; intros z w Hfs Hz Hopen.
  - simpl. rewrite add_entries_nil. by rewrite with_tvb_zip_id.
  - simpl. subst m.
    rewrite (bind_Ok _ _ _ _ _ (write_zip_arc_ok pth _ c z w Hz Hopen Hfile)).
    rewrite (IH (TvbZip.add_entries z [(name +:+ "/" +:+ basename pth, c)])); [|done..].
    by rewrite add_entries_app.
Qed.

Lemma export_datatypes_ok (paths : list path) (contents : list content)
    op project z w :
  op_project op = Some project →
  let op_folder := FilesHelper.get_operation_folder w (project_name project) (op_id op) in
  tvb_zip w = Some z → zip_closed z = false →
  Forall2 (λ pth c, fs w !! pth = Some (File c)) paths contents →
  fs w !! op_folder = Some Dir →
  denied (write_protected w) op_folder (fs w) = false →
  StorageInterface.export_datatypes paths (Some op) w
  = (Ok tt,
     with_fs (prune op_folder)
       (with_tvb_zip
          (Some (TvbZip.add_entries z
             (zip ((λ pth, py_str (op_id op) +:+ "/" +:+ basename pth) <$> paths)
                  contents))) w)).
Proof.
  intros Hproj op_folder Hz Hopen Hfiles Hdir Hden.
  unfold StorageInterface.export_datatypes. simpl. rewrite Hproj. simpl.
  unfold mbind at 1, M_bind, StorageInterface.get_operation_folder, gets.
  fold op_folder.
  assert (Hname : basename op_folder = py_str (op_id op)).
  { unfold op_folder, FilesHelper.get_operation_folder, FilesHelper.get_project_folder.
    rewrite !app_assoc. apply basename_app. }
  rewrite Hname.
  erewrite bind_Ok; [|by eapply write_linked_arcs].
  unfold StorageInterface.remove_folder, FilesHelper.remove_folder, shutil_rmtree.
  simpl. by rewrite Hdir, Hden.
Qed.

(** C6.  Without linked datatypes no import operation is made:
    [_export_linked_datatypes] returns [(None, None)] and changes
    nothing.  With linked datatypes (and the import adapter registered)
    it returns their paths and an operation carrying the id
    ['links-to-external-projects'], the project, status finished, and as
    start and completion dates the two readings of the clock taken by
    [start_now] and [mark_complete].  [export_datatypes], given that
    operation, writes every linked file into the open archive under
    [links-to-external-projects/<file name>], in order, and then removes
    the folder of the operation from disk with all it holds. *)
Theorem export_linked_datatypes_spec project w :
  let linked := default [] (linked_datatypes (db w) !! project_id project) in
  (linked = [] →
     ExportManager._export_linked_datatypes project w = (Ok (None, None), w))
  ∧ (linked ≠ [] →
     ∀ algo,
       List.find (λ a, bool_decide
                    (algo_module a = ExportManager.TVB_IMPORTER_MODULE
                     ∧ algo_classname a = ExportManager.TVB_IMPORTER_CLASS))
                 (algorithms (db w)) = Some algo →
       ∃ op,
         ExportManager._export_linked_datatypes project w
         = (Ok (Some linked, Some op), with_tick (S (S (tick w))) w)
         ∧ op_id op = IdStr "links-to-external-projects"
         ∧ op_project op = Some project
         ∧ op_algorithm op = Some algo
         ∧ op_status_of op = STATUS_FINISHED
         ∧ start_date op = Some (clock w (tick w))
         ∧ completion_date op = Some (clock w (S (tick w)))
         ∧ ∀ (contents : list content) z w1,
             let op_folder :=
               FilesHelper.get_project_folder w1 (project_name project)
                 ["links-to-external-projects"] in
             tvb_zip w1 = Some z → zip_closed z = false →
             Forall2 (λ pth c, fs w1 !! pth = Some (File c)) linked contents →
             fs w1 !! op_folder = Some Dir →
             denied (write_protected w1) op_folder (fs w1) = false →
             ∃ w2,
               StorageInterface.export_datatypes linked (Some op) w1 = (Ok tt, w2)
               ∧ tvb_zip w2 = Some (TvbZip.add_entries z
                   (zip ((λ pth, "links-to-external-projects/" +:+ basename pth)
                           <$> linked) contents))
               ∧ (∀ q, under op_folder q = true → fs w2 !! q = None)
               ∧ (∀ q, under op_folder q = false → fs w2 !! q = fs w1 !! q)).
Proof.
  intros linked. split.
  - intros Hnil. rewrite export_linked_datatypes_cases. cbv zeta. fold linked.
    by rewrite bool_decide_true.
  - intros Hne algo Halgo. rewrite export_linked_datatypes_cases. cbv zeta. fold linked.
    rewrite bool_decide_false by done. rewrite Halgo.
    eexists. split; [reflexivity|]. simpl. do 6 (split; [done|]).
    intros contents z w1 Hz Hopen Hfiles Hdir Hden.
    eexists. split.
    + by eapply (export_datatypes_ok linked contents).
    + cbv [FilesHelper.get_operation_folder py_str op_id]. simpl.
      split; [done|]. split; intros q Hq; by rewrite lookup_prune, Hq.
Qed.

Lemma export_linked_datatypes_spec_witness :
  let z := {| zip_dest := ["TVB"; "EXPORT_TMP"; "out.zip"]; zip_entries := [];
              zip_closed := false |} in
  ∃ op w2,
    ExportManager._export_linked_datatypes sample_project linked_world
    = (Ok (Some [linked_surface], Some op), with_tick 2 linked_world)
    ∧ op_id op = IdStr "links-to-external-projects"
    ∧ op_status_of op = STATUS_FINISHED
    ∧ StorageInterface.export_datatypes [linked_surface] (Some op)
        (with_tvb_zip (Some z) linked_world) = (Ok tt, w2)
    ∧ tvb_zip w2
      = Some (TvbZip.add_entries z
                [("links-to-external-projects/Surface_s1.h5", blob "surface")])
    ∧ fs w2 !! ["TVB"; "PROJECTS"; "P"; "links-to-external-projects"] = None.
Proof.
  intros z.
  destruct (export_linked_datatypes_spec sample_project linked_world) as [_ H].
  destruct (H ltac:(by vm_compute) sample_importer ltac:(by vm_compute))
    as (op & Hrun & Hid & _ & _ & Hst & _ & _ & Harc).
  destruct (Harc [blob "surface"] z (with_tvb_zip (Some z) linked_world))
    as (w2 & Hexp & Hzip & Hgone & _).
  - reflexivity.
  - reflexivity.
  - repeat constructor.
  - by vm_compute.
  - by vm_compute.
  - exists op, w2. split; [by rewrite Hrun|]. split; [done|]. split; [done|].
    split; [done|]. split; [exact Hzip|]. apply Hgone. by vm_compute.
Defined.

(** ** [export_simulator_configuration] *)

Lemma keeps_zip_bind {A B} (m : M A) (f : A → M B) :
  keeps_zip m → (∀ a, keeps_zip (f a)) → keeps_zip (m ≫= f).
Proof.
  intros Hm Hf w. unfold mbind, M_bind. specialize (Hm w).
  destruct (m w) as [[a|e] w1]; simpl in *; [|done].
  by rewrite Hf.
Qed.

Lemma keeps_zip_ret {A} (a : A) : keeps_zip (mret a : M A).
Proof. by intros w. Qed.

Lemma keeps_zip_raise {A} e : keeps_zip (raise e : M A).
Proof. by intros w. Qed.

Lemma keeps_zip_gets {A} (f : World → A) : keeps_zip (gets f).
Proof. by intros w. Qed.

Lemma keeps_zip_for_each {A} (l : list A) (body : A → M unit) :
  (∀ a, keeps_zip (body a)) → keeps_zip (for_each l body).
Proof.
  intros Hb. induction l as [|a l IH]; simpl; [by intros w|].
  apply keeps_zip_bind; [done|]. by intros _.
Qed.

Lemma needs_zip_bind_l {A B} (m : M A) (f : A → M B) :
  needs_zip m → needs_zip (m ≫= f).
Proof.
  intros Hm w Hw. unfold mbind, M_bind. destruct (Hm w Hw) as (e & He & Hz).
  destruct (m w) as [[a|e'] w1]; simpl in *; [done|]. eauto.
Qed.

Lemma needs_zip_bind_r {A B} (m : M A) (f : A → M B) :
  keeps_zip m → (∀ a, needs_zip (f a)) → needs_zip (m ≫= f).
Proof.
  intros Hm Hf w Hw. unfold mbind, M_bind. specialize (Hm w).
  destruct (m w) as [[a|e] w1]; simpl in *.
  - apply Hf. congruence.
  - exists e. split; [done|congruence].
Qed.

Lemma keeps_zip_with_fs f : keeps_zip (modify (with_fs f)).
Proof. by intros w. Qed.

Lemma keeps_zip_now : keeps_zip datetime_now.
Proof. by intros w. Qed.

Lemma keeps_zip_listdir d : keeps_zip (os_listdir d).
Proof. intros w. unfold os_listdir. by destruct (is_dir _). Qed.

Lemma keeps_zip_makedirs p : keeps_zip (os_makedirs p).
Proof. intros w. unfold os_makedirs. by repeat case_match. Qed.

Lemma keeps_zip_read_file p : keeps_zip (read_file p).
Proof. intros w. unfold read_file. by repeat case_match. Qed.

Lemma keeps_zip_write_file p c : keeps_zip (write_file p c).
Proof. intros w. unfold write_file. by repeat case_match. Qed.

Lemma keeps_zip_check_created p : keeps_zip (FilesHelper.check_created p).
Proof.
  apply keeps_zip_bind; [apply keeps_zip_gets|].
  intros []; [apply keeps_zip_ret|apply keeps_zip_makedirs].
Qed.

Lemma keeps_zip_copy_file s d : keeps_zip (StorageInterface.copy_file s d).
Proof.
  apply keeps_zip_bind; [apply keeps_zip_read_file|]. intros c.
  apply keeps_zip_bind; [apply keeps_zip_check_created|]. intros _.
  apply keeps_zip_write_file.
Qed.

Lemma keeps_zip_build_folder gid ef :
  keeps_zip (StorageInterface.build_data_export_folder gid ef).
Proof.
  apply keeps_zip_bind; [apply keeps_zip_now|]. intros now.
  apply keeps_zip_bind; [apply keeps_zip_check_created|]. intros _.
  apply keeps_zip_ret.
Qed.

Lemma keeps_zip_determine_filepath gid d : keeps_zip (h5.determine_filepath gid d).
Proof.
  apply keeps_zip_bind; [apply keeps_zip_listdir|]. intros names.
  apply keeps_zip_bind; [apply keeps_zip_gets|].
  intros [fp|]; [apply keeps_zip_ret|apply keeps_zip_raise].
Qed.

Lemma keeps_zip_remove_metadata_param p k : keeps_zip (h5.remove_metadata_param p k).
Proof.
  apply keeps_zip_bind; [apply keeps_zip_read_file|].
  intros [meta payload|es]; [apply keeps_zip_with_fs|apply keeps_zip_raise].
Qed.

(** [write_zip_folder] dereferences [self.tvb_zip] first. *)
Lemma needs_zip_write_zip_folder folder prefix exclude :
  needs_zip (StorageInterface.write_zip_folder folder prefix exclude).
Proof.
  intros w Hw. exists AttributeError.
  unfold StorageInterface.write_zip_folder, mbind, M_bind, StorageInterface.self_tvb_zip.
  by rewrite Hw.
Qed.


Example sample_manager_init :
  ExportManager.__init__ writing_exporter failing_exporter (sample_world false 0)
  = (Ok sample_manager, sample_world false 0).
Proof. reflexivity. Qed.

(** C7, what the code does.  On a manager whose storage interface holds
    no zip handle, as it is after construction,
    [export_simulator_configuration] never returns an archive path: for
    an unknown burst it raises [InvalidExportDataException], and for a
    known one it stages the files and then raises at
    [write_zip_folder], which reads the missing handle. *)
Theorem export_simulator_configuration_never_returns self burst_id w :
  tvb_zip w = None →
  ∃ e, (ExportManager.export_simulator_configuration self burst_id w).1 = Raise e.
Proof.
  intros Hw.
  assert (Hneeds : needs_zip (ExportManager.export_simulator_configuration self burst_id)).
  { unfold ExportManager.export_simulator_configuration.
    apply needs_zip_bind_r; [apply keeps_zip_gets|]. intros [burst|].
    2: { intros w' Hw'. by exists InvalidExportDataException. }
    apply needs_zip_bind_r; [apply keeps_zip_gets|]. intros op_folder.
    apply needs_zip_bind_r; [apply keeps_zip_build_folder|]. intros tmp_export_folder.
    apply needs_zip_bind_r; [apply keeps_zip_gets|]. intros ex.
    apply needs_zip_bind_r.
    { destruct ex; [apply keeps_zip_ret|apply keeps_zip_makedirs]. }
    intros _.
    apply needs_zip_bind_r; [apply keeps_zip_gets|]. intros [vms dts].
    apply needs_zip_bind_r; [apply keeps_zip_determine_filepath|]. intros burst_path.
    apply needs_zip_bind_r.
    { apply keeps_zip_for_each. intros p. apply keeps_zip_copy_file. }
    intros _.
    apply needs_zip_bind_r.
    { apply keeps_zip_for_each. intros p. apply keeps_zip_copy_file. }
    intros _.
    apply needs_zip_bind_r; [apply keeps_zip_determine_filepath|]. intros main_vm_path.
    apply needs_zip_bind_r; [apply keeps_zip_remove_metadata_param|]. intros _.
    apply needs_zip_bind_r; [apply keeps_zip_now|]. intros now.
    apply needs_zip_bind_l. apply needs_zip_write_zip_folder. }
  destruct (Hneeds w Hw) as (e & He & _). eauto.
Qed.

Lemma export_simulator_configuration_never_returns_witness :
  let out := ExportManager.export_simulator_configuration sample_manager 5 burst_world in
  let staging := ["TVB"; "EXPORT_TMP"; "2021-3-9_14-5-7_0@bg"; "exported_simulation"] in
  out.1 = Raise AttributeError
  ∧ fs out.2 !! staging = Some Dir
  ∧ fs out.2 !! (staging ++ ["SimulatorAdapterModel_sg.h5"])
    = Some (File (Blob ∅ "simulator"))
  ∧ children ["TVB"; "EXPORT_TMP"; "2021-3-9_14-5-7_0@bg"] (fs out.2)
    = ["exported_simulation"].
Proof.
  intros out staging.
  destruct (export_simulator_configuration_never_returns sample_manager 5 burst_world
              eq_refl) as [e He].
  vm_compute in He. injection He as <-.
  vm_compute. repeat split; reflexivity.
Defined.

(** ** [remove_project] *)

Lemma prune_subseteq (d : path) (m : gmap path node) : prune d m ⊆ m.
Proof. apply map_filter_subseteq. Qed.

Lemma lookup_None_subseteq (m m' : gmap path node) (q : path) :
  m' ⊆ m → m !! q = None → m' !! q = None.
Proof.
  intros Hsub Hq. destruct (m' !! q) as [n|] eqn:E; [|done].
  eapply lookup_weaken in E; [|done]. congruence.
Qed.

(** [purge] only takes files away. *)
Lemma purge_subseteq (enc pwd : path) w : fs (EncryptionHandler.purge enc pwd w).2 ⊆ fs w.
Proof.
  rewrite purge_unfold. cbv zeta.
  destruct (bool_decide (is_Some (fs w !! enc))).
  - destruct (is_dir _ && negb _); [|done].
    destruct (bool_decide _); [|simpl; apply prune_subseteq].
    destruct (is_file _ && negb _); simpl; [|apply prune_subseteq].
    etrans; [apply delete_subseteq|apply prune_subseteq].
  - destruct (bool_decide _); [|done].
    destruct (is_file _ && negb _); simpl; [|done].
    apply delete_subseteq.
Qed.

Lemma remove_project_structure_unfold name w :
  let folder := FilesHelper.get_project_folder w name [] in
  StorageInterface.remove_project_structure name w =
    if bool_decide (is_Some (fs w !! folder)) then
      if is_dir (fs w !! folder) && negb (denied (write_protected w) folder (fs w))
      then (Ok tt, with_fs (prune folder) w)
      else (Raise OSError, w)
    else (Ok tt, w).
Proof.
  intros folder.
  unfold StorageInterface.remove_project_structure, FilesHelper.remove_project_structure.
  unfold mbind, M_bind, gets, os_path_exists, shutil_rmtree. simpl. fold folder.
  destruct (bool_decide _); [|done].
  by destruct (is_dir _ && negb _).
Qed.

(** After the plaintext structure, [remove_project] purges the encrypted
    folder and the key of the project. *)
Lemma remove_project_as_purge project w :
  let folder := FilesHelper.get_project_folder w (project_name project) [] in
  let enc := DataEncryptionHandler.compute_encrypted_folder_path folder in
  let key := DataEncryptionHandler.project_key_path w (project_id project) in
  StorageInterface.remove_project project w =
    (StorageInterface.remove_project_structure (project_name project) ≫= λ _,
     EncryptionHandler.purge enc key) w.
Proof.
  intros folder enc key.
  unfold StorageInterface.remove_project.
  unfold mbind at 1, M_bind, StorageInterface.get_project_folder, gets. fold folder.
  unfold mbind at 1 6, M_bind.
  destruct (StorageInterface.remove_project_structure (project_name project) w)
    as [[[]|e] w1] eqn:E; [|done].
  assert (Hst : TVB_STORAGE w1 = TVB_STORAGE w).
  { revert E. rewrite remove_project_structure_unfold. cbv zeta.
    repeat case_match; by intros [= <-]. }
  unfold EncryptionHandler.purge, StorageInterface.compute_encrypted_folder_path.
  fold enc.
  unfold mbind, M_bind, os_path_exists, gets, StorageInterface.remove_folder,
    FilesHelper.remove_folder, StorageInterface.project_key_path,
    DataEncryptionHandler.project_key_path. simpl.
  unfold key, DataEncryptionHandler.project_key_path.
  destruct (bool_decide (is_Some (fs w1 !! enc))).
  - unfold shutil_rmtree. destruct (is_dir _ && negb _); simpl; by rewrite ?Hst.
  - unfold mret, M_ret. by rewrite Hst.
Qed.

(** C5.  [remove_project] removes the plaintext structure first.  When
    that removal fails, [remove_project] fails with the same exception
    and the world is as it was, encrypted folder and key included.  So
    whenever a call has changed the encrypted folder or the key, the
    plaintext folder is already gone; and a call that returns leaves
    neither the plaintext folder, nor the encrypted folder, nor the key
    file. *)
Theorem remove_project_order project w :
  let folder := FilesHelper.get_project_folder w (project_name project) [] in
  let enc := DataEncryptionHandler.compute_encrypted_folder_path folder in
  let key := DataEncryptionHandler.project_key_path w (project_id project) in
  (∀ e w1,
     StorageInterface.remove_project_structure (project_name project) w = (Raise e, w1) →
     StorageInterface.remove_project project w = (Raise e, w) ∧ w1 = w)
  ∧ (∀ r w',
     StorageInterface.remove_project project w = (r, w') →
     (∃ q, (under enc q = true ∨ q = key) ∧ fs w' !! q ≠ fs w !! q) →
     fs w' !! folder = None
     ∧ (fs w !! folder = Some Dir → ∀ q, under folder q = true → fs w' !! q = None))
  ∧ (∀ w',
     StorageInterface.remove_project project w = (Ok tt, w') →
     fs w' !! folder = None ∧ fs w' !! enc = None ∧ fs w' !! key = None).
Proof.
  intros folder enc key.
  pose proof (remove_project_as_purge project w) as Hrun. cbv zeta in Hrun.
  fold folder enc key in Hrun.
  pose proof (remove_project_structure_unfold (project_name project) w) as Hrps.
  cbv zeta in Hrps. fold folder in Hrps.
  split; [|split].
  - intros e w1 Hfail. rewrite Hrun.
    assert (w1 = w) as ->.
    { rewrite Hrps in Hfail. by repeat case_match; simplify_eq. }
    split; [|done]. by apply bind_Raise.
  - intros r w' Hrem Hchanged. rewrite Hrun in Hrem.
    unfold mbind, M_bind in Hrem. rewrite Hrps in Hrem.
    destruct (bool_decide (is_Some (fs w !! folder))) eqn:Eex.
    + destruct (is_dir (fs w !! folder) && negb _) eqn:Edir.
      * assert (Hsub : fs w' ⊆ prune folder (fs w)).
        { replace w' with (EncryptionHandler.purge enc key (with_fs (prune folder) w)).2
            by by rewrite Hrem.
          apply (purge_subseteq enc key (with_fs (prune folder) w)). }
        split.
        -- eapply lookup_None_subseteq; [done|]. by rewrite lookup_prune, under_refl.
        -- intros _ q Hq. eapply lookup_None_subseteq; [done|]. by rewrite lookup_prune, Hq.
      * simplify_eq. destruct Hchanged as (q & _ & Hq). done.
    + apply bool_decide_eq_false, eq_None_not_Some in Eex.
      assert (Hsub : fs w' ⊆ fs w).
      { replace w' with (EncryptionHandler.purge enc key w).2 by by rewrite Hrem.
        apply purge_subseteq. }
      split; [by eapply lookup_None_subseteq|]. intros Hdir. congruence.
  - intros w' Hrem. rewrite Hrun in Hrem.
    apply bind_inv_Ok in Hrem as ([] & w1 & Hstep & Hpurge).
    pose proof (purge_clean enc key w1) as Hclean. cbv zeta in Hclean.
    rewrite Hpurge in Hclean. destruct (Hclean eq_refl) as [Henc Hkey].
    split; [|done].
    assert (Hsub : fs w' ⊆ fs w1).
    { replace w' with (EncryptionHandler.purge enc key w1).2 by by rewrite Hpurge.
      apply purge_subseteq. }
    eapply lookup_None_subseteq; [done|].
    rewrite Hrps in Hstep.
    destruct (bool_decide (is_Some (fs w !! folder))) eqn:Eex.
    + destruct (is_dir (fs w !! folder) && negb _); simplify_eq.
      simpl. by rewrite lookup_prune, under_refl.
    + simplify_eq. by apply bool_decide_eq_false, eq_None_not_Some in Eex.
Qed.

Lemma remove_project_order_witness :
  StorageInterface.remove_project sample_project locked_world
  = (Raise OSError, locked_world)
  ∧ fs locked_world !! ["TVB"; "PROJECTS"; "P_encrypted"] = Some Dir
  ∧ is_file (fs locked_world !! ["TVB"; "PROJECT_KEYS"; "project_key_1"]) = true
  ∧ let w' := (StorageInterface.remove_project sample_project (sample_world true 0)).2 in
    fs w' !! ["TVB"; "PROJECTS"; "P"] = None
    ∧ fs w' !! ["TVB"; "PROJECTS"; "P_encrypted"] = None
    ∧ fs w' !! ["TVB"; "PROJECT_KEYS"; "project_key_1"] = None.
Proof.
  split.
  { destruct (remove_project_order sample_project locked_world) as (Hfail & _ & _).
    apply (Hfail OSError locked_world). by vm_compute. }
  split; [by vm_compute|]. split; [by vm_compute|].
  intros w'.
  destruct (remove_project_order sample_project (sample_world true 0)) as (_ & _ & Hok).
  apply (Hok w'). by vm_compute.
Defined.

(** ** [rename_project] *)

Lemma string_app_inj_l (a b s : string) : a +:+ s = b +:+ s → a = b.
Proof.
  revert b. induction a as [|c a IH]; intros [|c' b] H.
  - done.
  - apply (f_equal String.length) in H.
    rewrite string_app_nil, string_app_cons in H. simpl in H.
    rewrite string_app_length in H. lia.
  - apply (f_equal String.length) in H.
    rewrite string_app_nil, string_app_cons in H. simpl in H.
    rewrite string_app_length in H. lia.
  - rewrite !string_app_cons in H. injection H as -> H. f_equal. by apply IH.
Qed.

Lemma string_app_ne_self (a s : string) : s ≠ "" → a ≠ a +:+ s.
Proof.
  intros Hs H. apply (f_equal String.length) in H.
  rewrite string_app_length in H. destruct s; [done|]. simpl in H. lia.
Qed.

Lemma encrypted_path_sibling (d : path) (x : string) :
  DataEncryptionHandler.compute_encrypted_folder_path (d ++ [x])
  = d ++ [x +:+ "_encrypted"].
Proof.
  unfold DataEncryptionHandler.compute_encrypted_folder_path, dirname.
  by rewrite removelast_last, basename_app.
Qed.

Lemma project_folder_eq w (name : string) :
  FilesHelper.get_project_folder w name [] = FilesHelper.get_projects_folder w ++ [name].
Proof. reflexivity. Qed.

(** The refusal to move a folder only depends on what lies under it. *)
Lemma denied_ext (prot : gset path) (d : path) (m m' : gmap path node) :
  (∀ r, m' !! (d ++ r) = m !! (d ++ r)) → denied prot d m' = denied prot d m.
Proof.
  intros Hext. unfold denied. induction (elements prot) as [|p l IH]; simpl; [done|].
  rewrite IH. f_equal. destruct (under d p) eqn:E; [|done]. simpl.
  apply under_true in E as [r ->]. by rewrite Hext.
Qed.

Lemma os_rename_ok (src dst : path) w :
  src ≠ dst → is_Some (fs w !! src) → fs w !! dst = None → under src dst = false →
  denied (write_protected w) src (fs w) = false →
  os_rename src dst w = (Ok tt, with_fs (moved src dst) w).
Proof.
  intros Hne [n Hsrc] Hdst Hund Hden. unfold os_rename.
  rewrite bool_decide_false by done.
  unfold rename_target_ok. rewrite Hsrc, Hdst, Hund, Hden. by destruct n.
Qed.

Section rename.
Variables (cur new : string) (w : World).

Let root : path := FilesHelper.get_projects_folder w.
Let folder : path := root ++ [cur].
Let new_folder : path := root ++ [new].
Let enc : path := root ++ [cur +:+ "_encrypted"].
Let new_enc : path := root ++ [new +:+ "_encrypted"].
Let m : gmap path node := fs w.
Let m1 : gmap path node := moved folder new_folder m.
Let m2 : gmap path node := moved enc new_enc m1.

Hypothesis Hne : new ≠ cur.
Hypothesis Hnot_enc : new ≠ cur +:+ "_encrypted".

Lemma first_move_new r : m1 !! (new_folder ++ r) = m !! (folder ++ r).
Proof. unfold m1. by rewrite lookup_moved, relpath_app. Qed.

Lemma first_move_old r : m1 !! (folder ++ r) = None.
Proof.
  unfold m1, folder, new_folder. rewrite lookup_moved.
  destruct r as [|x r].
  - rewrite app_nil_r.
    replace (root ++ [cur]) with (root ++ cur :: []) by done.
    rewrite relpath_sibling, decide_False by done.
    by rewrite under_sibling, bool_decide_true.
  - rewrite <- app_assoc. simpl.
    rewrite relpath_sibling, decide_False by done.
    by rewrite under_sibling, bool_decide_true.
Qed.

(** The first move leaves the encrypted folder alone. *)
Lemma first_move_enc r : m1 !! (enc ++ r) = m !! (enc ++ r).
Proof.
  unfold m1, folder, new_folder, enc. rewrite lookup_moved, <- app_assoc. simpl.
  rewrite relpath_sibling, decide_False by done.
  rewrite under_sibling, bool_decide_false; [done|].
  apply string_app_ne_self. done.
Qed.

Lemma first_move_new_enc :
  cur ≠ new +:+ "_encrypted" → m1 !! new_enc = m !! new_enc.
Proof.
  intros Hc. unfold m1, folder, new_folder, new_enc. rewrite lookup_moved.
  replace (root ++ [new +:+ "_encrypted"]) with (root ++ (new +:+ "_encrypted") :: [])
    by done.
  rewrite relpath_sibling, decide_False by (apply string_app_ne_self; done).
  by rewrite under_sibling, bool_decide_false.
Qed.

Lemma second_move_new_enc r : m2 !! (new_enc ++ r) = m !! (enc ++ r).
Proof. unfold m2. by rewrite lookup_moved, relpath_app, first_move_enc. Qed.

Lemma second_move_enc r : m2 !! (enc ++ r) = None.
Proof.
  unfold m2, enc, new_enc. rewrite lookup_moved, <- app_assoc. simpl.
  rewrite relpath_sibling, decide_False by (intros ?%string_app_inj_l; done).
  by rewrite under_sibling, bool_decide_true.
Qed.

Lemma second_move_new r : m2 !! (new_folder ++ r) = m !! (folder ++ r).
Proof.
  unfold m2, enc, new_enc. rewrite lookup_moved.
  unfold new_folder at 1 2. rewrite <- app_assoc. simpl.
  rewrite relpath_sibling, decide_False
    by (intros H; symmetry in H; revert H; apply string_app_ne_self; done).
  rewrite under_sibling, bool_decide_false by done.
  replace (root ++ new :: r) with (new_folder ++ r)
    by (unfold new_folder; by rewrite <- app_assoc).
  apply first_move_new.
Qed.

Lemma second_move_old r :
  cur ≠ new +:+ "_encrypted" → m2 !! (folder ++ r) = None.
Proof.
  intros Hc. unfold m2, enc, new_enc. rewrite lookup_moved.
  unfold folder at 1 2. rewrite <- app_assoc. simpl.
  rewrite relpath_sibling, decide_False by done.
  rewrite under_sibling, bool_decide_false
    by (intros H; symmetry in H; revert H; apply string_app_ne_self; done).
  replace (root ++ cur :: r) with (folder ++ r)
    by (unfold folder; by rewrite <- app_assoc).
  apply first_move_old.
Qed.
End rename.

Lemma rename_project_structure_ok (cur new : string) w :
  let folder := FilesHelper.get_projects_folder w ++ [cur] in
  let new_folder := FilesHelper.get_projects_folder w ++ [new] in
  new ≠ cur → is_Some (fs w !! folder) → fs w !! new_folder = None →
  denied (write_protected w) folder (fs w) = false →
  StorageInterface.rename_project_structure cur new w
  = (Ok (folder, new_folder), with_fs (moved folder new_folder) w).
Proof.
  intros folder new_folder Hne Hsrc Hdst Hden.
  unfold StorageInterface.rename_project_structure, FilesHelper.rename_project_structure.
  unfold mbind at 1, M_bind, gets. unfold mbind at 1, M_bind.
  rewrite !project_folder_eq. fold folder new_folder.
  rewrite (bind_Ok _ _ _ tt (with_fs (moved folder new_folder) w)); [done|].
  apply os_rename_ok; [|done|done| |done].
  - unfold folder, new_folder. intros H. by simplify_list_eq.
  - unfold folder, new_folder.
    replace (FilesHelper.get_projects_folder w ++ [new])
      with (FilesHelper.get_projects_folder w ++ new :: []) by done.
    by rewrite under_sibling, bool_decide_false.
Qed.

(** C1, as the code has it.  With encryption enabled, [rename_project]
    refuses with [RenameWhileSyncEncryptingException], and renames
    nothing, when the project folder is _not_ in use.  Otherwise, given
    that the project folder exists and may be moved, that the new name is
    free and is not the name of the encrypted counterpart, and that the
    encrypted counterpart (if there is one) may be moved to a free
    target, it returns with the plaintext tree under the folder of the
    new name and, when the encrypted counterpart exists, with that tree
    under the encrypted path computed from the new name. *)
Theorem rename_project_guard (current_proj_name new_name : string) w :
  let folder := FilesHelper.get_project_folder w current_proj_name [] in
  let new_folder := FilesHelper.get_project_folder w new_name [] in
  let enc := StorageInterface.compute_encrypted_folder_path folder in
  let new_enc := StorageInterface.compute_encrypted_folder_path new_folder in
  let refused := DataEncryptionHandler.encryption_enabled w
                 && negb (DataEncryptionHandler.is_in_usage w folder) in
  (refused = true →
     StorageInterface.rename_project current_proj_name new_name w
     = (Raise RenameWhileSyncEncryptingException, w))
  ∧ (refused = false →
     is_Some (fs w !! folder) →
     fs w !! new_folder = None →
     denied (write_protected w) folder (fs w) = false →
     new_name ≠ current_proj_name +:+ "_encrypted" →
     (is_Some (fs w !! enc) →
        fs w !! new_enc = None ∧ denied (write_protected w) enc (fs w) = false) →
     ∃ w',
       StorageInterface.rename_project current_proj_name new_name w = (Ok tt, w')
       ∧ (∀ r, fs w' !! (new_folder ++ r) = fs w !! (folder ++ r))
       ∧ (∀ r, fs w' !! (folder ++ r) = None)
       ∧ (is_Some (fs w !! enc) →
            ∀ r, fs w' !! (new_enc ++ r) = fs w !! (enc ++ r)
                 ∧ fs w' !! (enc ++ r) = None)).
Proof.
  intros folder new_folder enc new_enc refused.
  assert (Hrun : StorageInterface.rename_project current_proj_name new_name w =
    if refused then (Raise RenameWhileSyncEncryptingException, w)
    else (StorageInterface.rename_project_structure current_proj_name new_name ≫= λ _,
          os_path_exists enc ≫= λ ex : bool,
          if ex then
            StorageInterface.get_project_folder new_name [] ≫= λ nf,
            os_rename enc (StorageInterface.compute_encrypted_folder_path nf)
          else mret tt) w).
  { unfold StorageInterface.rename_project.
    unfold mbind at 1, M_bind, StorageInterface.get_project_folder, gets.
    unfold mbind at 1, M_bind, StorageInterface.encryption_enabled, gets.
    unfold mbind at 1, M_bind, StorageInterface.is_in_usage, gets.
    fold folder refused. by destruct refused. }
  rewrite Hrun. split; [by intros ->|].
  intros -> Hsrc Hdst Hden Hnot_enc Henc.
  set (root := FilesHelper.get_projects_folder w).
  assert (Hne : new_name ≠ current_proj_name).
  { intros ->. destruct Hsrc as [n Hn]. unfold folder, new_folder in *. congruence. }
  assert (Hf : folder = root ++ [current_proj_name]) by done.
  assert (Hnf : new_folder = root ++ [new_name]) by done.
  assert (He : enc = root ++ [current_proj_name +:+ "_encrypted"]).
  { unfold enc, StorageInterface.compute_encrypted_folder_path.
    rewrite Hf. apply encrypted_path_sibling. }
  assert (Hn : new_enc = root ++ [new_name +:+ "_encrypted"]).
  { unfold new_enc, StorageInterface.compute_encrypted_folder_path.
    rewrite Hnf. apply encrypted_path_sibling. }
  clearbody folder new_folder enc new_enc. subst folder new_folder enc new_enc.
  rewrite (bind_Ok _ _ _ _ _
             (rename_project_structure_ok current_proj_name new_name w Hne Hsrc Hdst Hden)).
  unfold mbind at 1, M_bind, os_path_exists, gets. simpl.
  pose proof (first_move_enc current_proj_name new_name w Hnot_enc []) as Henc1.
  rewrite app_nil_r in Henc1. fold root in Henc1. fold root. rewrite Henc1.
  destruct (fs w !! (root ++ [current_proj_name +:+ "_encrypted"])) as [n|] eqn:Eenc.
  - destruct Henc as [Hfree Hden_enc]; [by eauto|].
    assert (Hc : current_proj_name ≠ new_name +:+ "_encrypted").
    { intros Heq. rewrite <- Heq in Hfree. destruct Hsrc as [? ?]. congruence. }
    rewrite bool_decide_true by eauto.
    unfold mbind at 1, M_bind, StorageInterface.get_project_folder, gets.
    simpl. rewrite project_folder_eq.
    unfold StorageInterface.compute_encrypted_folder_path.
    change (FilesHelper.get_projects_folder _) with root.
    rewrite encrypted_path_sibling.
    set (e := root ++ [current_proj_name +:+ "_encrypted"]).
    set (e' := root ++ [new_name +:+ "_encrypted"]).
    set (w1 := with_fs (moved (root ++ [current_proj_name]) (root ++ [new_name])) w).
    assert (H1 : e ≠ e').
    { unfold e, e'. intros H. simplify_list_eq. apply string_app_inj_l in H. done. }
    assert (H2 : is_Some (fs w1 !! e)) by (unfold w1, e; simpl; rewrite Henc1; eauto).
    assert (H3 : fs w1 !! e' = None).
    { pose proof (first_move_new_enc current_proj_name new_name w Hc) as H.
      unfold w1, e'. simpl. fold root in H. by rewrite H. }
    assert (H4 : under e e' = false).
    { unfold e, e'.
      replace (root ++ [new_name +:+ "_encrypted"])
        with (root ++ (new_name +:+ "_encrypted") :: []) by done.
      rewrite under_sibling, bool_decide_false; [done|].
      intros H. apply string_app_inj_l in H. done. }
    assert (H5 : denied (write_protected w1) e (fs w1) = false).
    { rewrite <- Hden_enc. unfold w1, e. simpl. apply denied_ext. intros r.
      by apply first_move_enc. }
    rewrite (os_rename_ok e e' w1 H1 H2 H3 H4 H5).
    eexists. split; [reflexivity|]. simpl.
    split; [intros r; by apply second_move_new|].
    split; [intros r; by apply second_move_old|].
    intros _ r. split; [by apply second_move_new_enc|by apply second_move_enc].
  - rewrite bool_decide_false by by intros [??].
    eexists. split; [reflexivity|]. simpl.
    split; [intros r; by apply first_move_new|].
    split; [intros r; by apply first_move_old|].
    by intros [??].
Qed.

Lemma rename_project_guard_witness :
  let w := sample_world true 1 in
  let out := StorageInterface.rename_project "P" "Q" w in
  StorageInterface.rename_project "P" "Q" (sample_world true 0)
  = (Raise RenameWhileSyncEncryptingException, sample_world true 0)
  ∧ out.1 = Ok tt
  ∧ fs out.2 !! ["TVB"; "PROJECTS"; "Q"; "1"; "Connectivity_g1.h5"]
    = Some (File (blob "conn"))
  ∧ fs out.2 !! ["TVB"; "PROJECTS"; "P"] = None
  ∧ fs out.2 !! ["TVB"; "PROJECTS"; "Q_encrypted"; "payload"]
    = Some (File (blob "cipher"))
  ∧ fs out.2 !! ["TVB"; "PROJECTS"; "P_encrypted"] = None.
Proof.
  intros w out. split.
  { destruct (rename_project_guard "P" "Q" (sample_world true 0)) as [Hrefused _].
    apply Hrefused. reflexivity. }
  destruct (rename_project_guard "P" "Q" w) as [_ Hmoves].
  destruct Hmoves as (w' & Hrun & Hnew & Hold & Henc).
  - reflexivity.
  - vm_compute. eauto.
  - vm_compute. reflexivity.
  - vm_compute. reflexivity.
  - discriminate.
  - intros _. split; vm_compute; reflexivity.
  - assert (Hw' : out.2 = w') by (unfold out; by rewrite Hrun).
    split; [unfold out; by rewrite Hrun|]. rewrite Hw'.
    specialize (Henc ltac:(vm_compute; eauto)).
    split; [etrans; [apply (Hnew ["1"; "Connectivity_g1.h5"])|vm_compute; reflexivity]|].
    split; [apply (Hold [])|].
    split; [etrans; [apply (proj1 (Henc ["payload"]))|vm_compute; reflexivity]|].
    apply (proj2 (Henc [])).
Defined.

(** C1 as stated fails: with encryption enabled and the project folder
    in use, [rename_project] does not raise but renames the folder. *)
Lemma rename_project_in_use_counterexample :
  let w := sample_world true 1 in
  let out := StorageInterface.rename_project "P" "Q" w in
  DataEncryptionHandler.encryption_enabled w = true
  ∧ DataEncryptionHandler.is_in_usage w ["TVB"; "PROJECTS"; "P"] = true
  ∧ out.1 = Ok tt
  ∧ out.1 ≠ Raise RenameWhileSyncEncryptingException
  ∧ fs w !! ["TVB"; "PROJECTS"; "P"] = Some Dir
  ∧ fs out.2 !! ["TVB"; "PROJECTS"; "P"] = None
  ∧ fs out.2 !! ["TVB"; "PROJECTS"; "Q"] = Some Dir.
Proof. vm_compute. repeat split; try reflexivity. discriminate. Qed.

(** ** [StorageInterface.export_project] *)

(** The loop over [project_datatypes] keeps one pack for each operation
    id, in the order of first occurrence. *)
Lemma consider_fold w project (excl : list pyid) (dts : list DataType)
    (packs0 : list StorageInterface.pack) (ops0 : list Z) :
  let mk := λ o : Z,
    {| StorageInterface.folder :=
         FilesHelper.get_project_folder w (project_name project) [pretty o];
       StorageInterface.archive_path_prefix := pretty o +:+ StorageInterface.os_sep;
       StorageInterface.exclude := excl |} in
  packs0 = mk <$> ops0 → NoDup ops0 →
  let res := fold_left (StorageInterface.consider w project excl) dts (packs0, ops0) in
  res.1 = mk <$> res.2 ∧ NoDup res.2
  ∧ ∀ o, o ∈ res.2 ↔ o ∈ ops0 ∨ o ∈ fk_from_operation <$> dts.
Proof.
  intros mk. revert packs0 ops0.
  induction dts as [|dt dts IH]; intros packs0 ops0 Hpacks Hnodup; simpl.
  - split; [done|]. split; [done|]. intros o. rewrite elem_of_nil. tauto.
  - assert (Hstep : StorageInterface.consider w project excl (packs0, ops0) dt =
              if decide (fk_from_operation dt ∈ ops0) then (packs0, ops0)
              else (packs0 ++ [mk (fk_from_operation dt)],
                    ops0 ++ [fk_from_operation dt])) by reflexivity.
    rewrite Hstep. clear Hstep.
    destruct (decide (fk_from_operation dt ∈ ops0)) as [Hin|Hnotin].
    + destruct (IH packs0 ops0 Hpacks Hnodup) as (H1 & H2 & H3).
      split; [done|]. split; [done|]. intros o. rewrite H3, elem_of_cons.
      split; [tauto|]. intros [?|[->|?]]; tauto.
    + destruct (IH (packs0 ++ [mk (fk_from_operation dt)])
                  (ops0 ++ [fk_from_operation dt])) as (H1 & H2 & H3).
      * by rewrite Hpacks, fmap_app.
      * apply NoDup_app. split; [done|]. split; [|apply NoDup_singleton].
        intros x Hx ->%list_elem_of_singleton. done.
      * split; [done|]. split; [done|]. intros o.
        rewrite H3, elem_of_app, list_elem_of_singleton, elem_of_cons. tauto.
Qed.

Lemma write_zip_folder_ok (folder : path) (prefix : string) (exclude : list pyid) z w :
  tvb_zip w = Some z → zip_closed z = false →
  StorageInterface.write_zip_folder folder prefix exclude w
  = (Ok tt, with_tvb_zip
              (Some (TvbZip.add_entries z
                       (TvbZip.folder_entries (fs w) folder prefix exclude))) w).
Proof.
  intros Hz Hopen. unfold StorageInterface.write_zip_folder.
  unfold mbind at 1, M_bind, StorageInterface.self_tvb_zip. rewrite Hz.
  unfold mbind at 1, M_bind, TvbZip.write_zip_folder. by rewrite Hopen.
Qed.

(** Packing the folders one by one appends the entries of each, in
    order; the file system is only read. *)
Lemma write_packs (packs : list StorageInterface.pack) (m : gmap path node) :
  ∀ z w, fs w = m → tvb_zip w = Some z → zip_closed z = false →
  for_each packs (λ pk,
    StorageInterface.write_zip_folder (StorageInterface.folder pk)
      (StorageInterface.archive_path_prefix pk) (StorageInterface.exclude pk)) w
  = (Ok tt, with_tvb_zip
              (Some (TvbZip.add_entries z
                 (flat_map (λ pk, TvbZip.folder_entries m (StorageInterface.folder pk)
                                    (StorageInterface.archive_path_prefix pk)
                                    (StorageInterface.exclude pk)) packs))) w).
Proof.
  induction packs as [|pk packs IH]; intros z w Hfs Hz Hopen; simpl.
  - rewrite add_entries_nil. by rewrite with_tvb_zip_id.
  - rewrite (bind_Ok _ _ _ _ _ (write_zip_folder_ok _ _ _ z w Hz Hopen)).
    erewrite IH; [|done..].
    rewrite add_entries_app. by rewrite Hfs.
Qed.

Lemma initialize_tvb_zip_inv (dest : path) w w1 :
  StorageInterface.initialize_tvb_zip dest "w" w = (Ok tt, w1) →
  w1 = with_tvb_zip (Some {| zip_dest := dest; zip_entries := []; zip_closed := false |})
         (with_fs (<[dest := File (Archive [])]>) w).
Proof.
  unfold StorageInterface.initialize_tvb_zip, TvbZip.open.
  rewrite decide_True by done.
  unfold mbind, M_bind, write_file, modify, mret, M_ret.
  destruct (_ && _); [|done]. by intros [= <-].
Qed.

Lemma write_zip_arc_inv (file_name : path) (arc : string) z w w1 :
  tvb_zip w = Some z →
  StorageInterface.write_zip_arc file_name arc w = (Ok tt, w1) →
  ∃ c, fs w !! file_name = Some (File c)
       ∧ w1 = with_tvb_zip (Some (TvbZip.add_entries z [(arc, c)])) w.
Proof.
  intros Hz. unfold StorageInterface.write_zip_arc.
  unfold mbind at 1, M_bind, StorageInterface.self_tvb_zip. rewrite Hz.
  unfold mbind at 1, M_bind, TvbZip.write.
  destruct (zip_closed z); [done|].
  unfold mbind at 1, M_bind, read_file.
  destruct (fs w !! file_name) as [[|c]|]; [done| |done].
  intros [= <-]. eauto.
Qed.

Lemma close_tvb_zip_ok z w :
  tvb_zip w = Some z →
  StorageInterface.close_tvb_zip w
  = (Ok tt, with_tvb_zip
              (Some {| zip_dest := zip_dest z; zip_entries := zip_entries z;
                       zip_closed := true |})
              (with_fs (<[zip_dest z := File (Archive (zip_entries z))]>) w)).
Proof.
  intros Hz. unfold StorageInterface.close_tvb_zip.
  unfold mbind at 1, M_bind, StorageInterface.self_tvb_zip. by rewrite Hz.
Qed.

(** The files that a successful run of the loop over the linked paths
    has read. *)
Lemma write_linked_arcs_inv (name : string) (paths : list path) :
  ∀ z w w1, tvb_zip w = Some z →
  for_each paths (λ pth,
    StorageInterface.write_zip_arc pth (name +:+ "/" +:+ basename pth)) w = (Ok tt, w1) →
  ∃ contents, Forall2 (λ pth c, fs w !! pth = Some (File c)) paths contents.
Proof.
  induction paths as [|pth paths IH]; intros z w w1 Hz Hrun; simpl in Hrun.
  - exists []. constructor.
  - apply bind_inv_Ok in Hrun as ([] & w2 & Hstep & Hrest).
    destruct (write_zip_arc_inv _ _ z w w2 Hz Hstep) as (c & Hc & ->).
    set (z' := TvbZip.add_entries z [(name +:+ "/" +:+ basename pth, c)]) in *.
    destruct (IH z' (with_tvb_zip (Some z') w) w1 eq_refl Hrest) as (contents & Hall).
    exists (c :: contents). by constructor.
Qed.

Lemma lookup_foldr_mkdir (l : list path) (m : gmap path node) (q : path) :
  q ∉ l → foldr (λ p acc, <[p := Dir]> acc) m l !! q = m !! q.
Proof.
  induction l as [|p l IH]; simpl; [done|].
  intros [Hne Hnotin]%not_elem_of_cons. by rewrite lookup_insert_ne, IH.
Qed.

Lemma ancestors_under (p q : path) : q ∈ ancestors p → under q p = true.
Proof.
  unfold ancestors. intros (n & -> & _)%list_elem_of_fmap.
  apply under_true. exists (drop n p). by rewrite take_drop.
Qed.

(** Building the staging folder only creates prefixes of its path. *)
Lemma build_data_export_folder_inv (gid : string) (ef : path) w folder w1 :
  StorageInterface.build_data_export_folder gid ef w = (Ok folder, w1) →
  (∃ stamp : string, folder = ef ++ [stamp])
  ∧ tvb_zip w1 = tvb_zip w
  ∧ TVB_STORAGE w1 = TVB_STORAGE w
  ∧ ∀ q, under q folder = false → fs w1 !! q = fs w !! q.
Proof.
  unfold StorageInterface.build_data_export_folder.
  unfold mbind at 1, M_bind, datetime_now.
  match goal with |- context [ef ++ [?s]] => set (stamp := s) end.
  unfold StorageInterface.check_created, FilesHelper.check_created.
  unfold mbind, M_bind, os_path_exists, gets, os_makedirs, mret, M_ret. simpl.
  destruct (bool_decide (is_Some (fs w !! (ef ++ [stamp])))) eqn:E; simpl.
  - intros [= <- <-]. simpl. eauto 10.
  - rewrite E. destruct (existsb _ _); [done|]. intros [= <- <-]. simpl.
    split; [eauto|]. split; [done|]. split; [done|].
    intros q Hq. apply lookup_foldr_mkdir. intros Hin%ancestors_under. congruence.
Qed.

Lemma folder_entries_ext (d : path) (prefix : string) (exclude : list pyid)
    (m m' : gmap path node) :
  (∀ r, m' !! (d ++ r) = m !! (d ++ r)) →
  TvbZip.folder_entries m' d prefix exclude = TvbZip.folder_entries m d prefix exclude.
Proof. intros H. unfold TvbZip.folder_entries. by rewrite (walk_files_ext d m m'). Qed.

(** What a folder contributes to the archive: the files below it that
    have no excluded component, under the prefix. *)
Lemma elem_of_folder_entries (m : gmap path node) (d : path) (prefix : string)
    (exclude : list pyid) (arc : string) (c : content) :
  (arc, c) ∈ TvbZip.folder_entries m d prefix exclude ↔
  ∃ r, r ≠ [] ∧ m !! (d ++ r) = Some (File c)
       ∧ (∀ e, e ∈ exclude → py_str e ∉ r)
       ∧ arc = prefix +:+ String.concat "/" r.
Proof.
  unfold TvbZip.folder_entries. rewrite list_elem_of_omap.
  assert (Hex : ∀ r, TvbZip.excluded exclude r = false ↔ ∀ e, e ∈ exclude → py_str e ∉ r).
  { intros r. unfold TvbZip.excluded. induction exclude as [|e l IH]; simpl.
    - split; [by intros _ e ?%elem_of_nil|done].
    - rewrite orb_false_iff, IH, bool_decide_eq_false. split.
      + intros [He Hl] e' [->|?]%elem_of_cons; eauto.
      + intros H. split; [apply H; left|]. intros e' He'. apply H. by right. }
  split.
  - intros [[r c'] [Hin Heq]]. simpl in Heq.
    destruct (TvbZip.excluded exclude r) eqn:E; simplify_eq/=.
    apply elem_of_walk_files in Hin as [Hr Hm]. exists r. by rewrite <- Hex.
  - intros (r & Hr & Hm & Hnot & ->). exists (r, c). split.
    + by apply elem_of_walk_files.
    + simpl. apply Hex in Hnot. by rewrite Hnot.
Qed.

(** Every entry of a folder carries the prefix of its pack. *)
Lemma folder_entries_prefix (m : gmap path node) (d : path) (prefix : string)
    (exclude : list pyid) (arc : string) (c : content) :
  (arc, c) ∈ TvbZip.folder_entries m d prefix exclude → String.prefix prefix arc = true.
Proof.
  intros (r & _ & _ & _ & ->)%elem_of_folder_entries. apply prefix_spec. eauto.
Qed.

Lemma linked_name_not_project_file (a b : string) :
  a +:+ "/" +:+ b ≠ StorageInterface.TVB_PROJECT_FILE.
Proof.
  intros H.
  assert (Hc : str_contains "/" (a +:+ "/" +:+ b) = true)
    by (apply str_contains_spec; eauto).
  rewrite H in Hc. vm_compute in Hc. discriminate.
Qed.

Lemma flat_map_fmap {A B C} (f : B → list C) (g : A → B) (l : list A) :
  flat_map f (g <$> l) = flat_map (λ x, f (g x)) l.
Proof. induction l as [|x l IH]; simpl; [done|]. by f_equal. Qed.

Lemma export_datatypes_inv (paths : list path) (op : option Operation) z w w1 :
  tvb_zip w = Some z → zip_closed z = false →
  StorageInterface.export_datatypes paths op w = (Ok tt, w1) →
  ∃ o project (contents : list content),
    op = Some o ∧ op_project o = Some project
    ∧ Forall2 (λ pth c, fs w !! pth = Some (File c)) paths contents
    ∧ w1 = with_fs (prune (FilesHelper.get_operation_folder w (project_name project)
                             (op_id o)))
             (with_tvb_zip
                (Some (TvbZip.add_entries z
                   (zip ((λ pth, py_str (op_id o) +:+ "/" +:+ basename pth) <$> paths)
                        contents))) w).
Proof.
  intros Hz Hopen Hrun.
  destruct op as [o|]; [|done].
  destruct (op_project o) as [project|] eqn:Hproj;
    [|unfold StorageInterface.export_datatypes in Hrun; simpl in Hrun;
      by rewrite Hproj in Hrun].
  exists o, project.
  assert (Hcontents : ∃ contents : list content,
            Forall2 (λ pth c, fs w !! pth = Some (File c)) paths contents).
  { unfold StorageInterface.export_datatypes in Hrun. simpl in Hrun.
    rewrite Hproj in Hrun. simpl in Hrun.
    apply bind_inv_Ok in Hrun as (op_folder & wa & Hfolder & Hrun).
    injection Hfolder as <- <-.
    apply bind_inv_Ok in Hrun as ([] & wb & Hloop & _).
    by eapply write_linked_arcs_inv. }
  destruct Hcontents as [contents Hall]. exists contents.
  split; [done|]. split; [done|]. split; [done|].
  revert Hrun.
  unfold StorageInterface.export_datatypes. simpl. rewrite Hproj. simpl.
  unfold mbind at 1, M_bind, StorageInterface.get_operation_folder, gets.
  set (op_folder := FilesHelper.get_operation_folder w (project_name project) (op_id o)).
  assert (Hname : basename op_folder = py_str (op_id o)).
  { unfold op_folder, FilesHelper.get_operation_folder, FilesHelper.get_project_folder.
    rewrite !app_assoc. apply basename_app. }
  rewrite Hname.
  erewrite bind_Ok; [|by eapply write_linked_arcs].
  unfold StorageInterface.remove_folder, FilesHelper.remove_folder, shutil_rmtree.
  simpl. destruct (is_dir _ && negb _); [|done]. by intros [= <-].
Qed.


(** The state in which the folders are packed: the staging folder and
    the empty archive are there, nothing else has changed. *)
Lemma export_project_prepare (export_folder : path) (gid zip_file_name : string)
    w wa folder wb :
  fs wa = fs w → tvb_zip wa = tvb_zip w → TVB_STORAGE wa = TVB_STORAGE w →
  StorageInterface.build_data_export_folder gid export_folder wa = (Ok folder, wb) →
  ∀ wc, StorageInterface.initialize_tvb_zip (folder ++ [zip_file_name]) "w" wb = (Ok tt, wc) →
  tvb_zip wc = Some {| zip_dest := folder ++ [zip_file_name]; zip_entries := [];
                       zip_closed := false |}
  ∧ TVB_STORAGE wc = TVB_STORAGE w
  ∧ ∀ d, under d (folder ++ [zip_file_name]) = false →
         ∀ r, fs wc !! (d ++ r) = fs w !! (d ++ r).
Proof.
  intros Hfs Hzip Hst Hbuild wc Hinit.
  apply build_data_export_folder_inv in Hbuild as (_ & Hz & Hs & Hframe).
  apply initialize_tvb_zip_inv in Hinit as ->. simpl.
  split; [done|]. split; [congruence|].
  intros d Hd r.
  rewrite lookup_insert_ne.
  - rewrite Hframe; [by rewrite Hfs|].
    destruct (under (d ++ r) folder) eqn:E; [|done].
    rewrite <- Hd. symmetry. apply under_trans with (d ++ r); [apply under_app|].
    apply under_trans with folder; [done|apply under_app].
  - intros Heq. rewrite Heq in Hd. by rewrite under_app in Hd.
Qed.

Lemma project_subfolder w (name : string) (subs : list string) :
  FilesHelper.get_project_folder w name subs
  = FilesHelper.get_project_folder w name [] ++ subs.
Proof.
  unfold FilesHelper.get_project_folder. by rewrite app_nil_r, !app_assoc.
Qed.

Lemma zip_names_Forall2 {A} (f : path → string) (P : path → A → Prop)
    (paths : list path) (contents : list A) :
  Forall2 P paths contents →
  Forall2 (λ pth (e : string * A), e.1 = f pth) paths (zip (f <$> paths) contents).
Proof. induction 1; simpl; by constructor. Qed.

(** The step of [export_project] that deals with the linked paths. *)
Lemma export_project_linked_step (linked_paths : option (list path))
    (op : option Operation) z w w1 :
  tvb_zip w = Some z → zip_closed z = false →
  match linked_paths with
  | Some paths => StorageInterface.export_datatypes paths op
  | None => mret tt
  end w = (Ok tt, w1) →
  ∃ linked_entries : list (string * content),
    match linked_paths with
    | None => linked_entries = []
    | Some paths =>
        ∃ o, op = Some o
             ∧ Forall2 (λ pth e, e.1 = py_str (op_id o) +:+ "/" +:+ basename pth)
                       paths linked_entries
    end
    ∧ tvb_zip w1 = Some (TvbZip.add_entries z linked_entries)
    ∧ TVB_STORAGE w1 = TVB_STORAGE w
    ∧ ∀ q n, fs w1 !! q = Some n → fs w !! q = Some n.
Proof.
  intros Hz Hopen Hrun. destruct linked_paths as [paths|].
  - apply (export_datatypes_inv paths op z) in Hrun
      as (o & project & contents & -> & Hproj & Hall & ->); [|done..].
    eexists. split; [|split; [reflexivity|split; [done|]]].
    + exists o. split; [done|]. by eapply zip_names_Forall2.
    + intros q n. simpl. rewrite lookup_prune. by destruct (under _ q).
  - injection Hrun as <-. exists []. rewrite add_entries_nil. by eauto.
Qed.

(** The step that adds the project metadata file in optimized mode. *)
Lemma export_project_meta_step (name : string) (optimize_size : bool) z w w1 :
  tvb_zip w = Some z →
  (if optimize_size then
     StorageInterface.get_project_meta_file_path name ≫= λ meta_path,
     StorageInterface.write_zip_arc meta_path StorageInterface.TVB_PROJECT_FILE
   else mret tt) w = (Ok tt, w1) →
  fs w1 = fs w
  ∧ if optimize_size then
      ∃ meta, fs w !! (FilesHelper.get_project_folder w name [] ++ ["Project.xml"])
              = Some (File meta)
              ∧ tvb_zip w1 = Some (TvbZip.add_entries z [("Project.xml", meta)])
    else tvb_zip w1 = Some z.
Proof.
  intros Hz Hrun. destruct optimize_size.
  - apply bind_inv_Ok in Hrun as (meta_path & wa & Hpath & Hrun).
    injection Hpath as <- <-.
    apply (write_zip_arc_inv _ _ z) in Hrun as (c & Hc & ->); [|done].
    split; [done|]. exists c. by split.
  - injection Hrun as <-. by split.
Qed.

(** C3.  A run of [StorageInterface.export_project] that returns (with
    the archive written outside the project folder) leaves at the
    returned path an archive whose entries are, in order:
    - with [optimize_size]: for each operation id of the given datatypes,
      taken once ([ops] has no duplicates and holds exactly those ids),
      the files of the folder of that operation, every one of them named
      by the operation id followed by the separator and the relative
      path; then the linked files; then [Project.xml] with the content of
      the metadata file of the project;
    - without [optimize_size]: the files of the whole project folder
      under their relative paths, leaving out every path with a component
      named like an excluded operation or [TEMP]; then the linked files,
      none of which is named [Project.xml]: no separate entry is written
      for the metadata file. *)
Theorem export_project_archive
    project (project_datatypes : list DataType) (folders_to_exclude : list pyid)
    (export_folder : path) (linked_paths : option (list path)) (op : option Operation)
    (optimize_size : bool) w (result_path : path) w' :
  StorageInterface.export_project project project_datatypes folders_to_exclude
    export_folder linked_paths op optimize_size w = (Ok result_path, w') →
  let project_folder := FilesHelper.get_project_folder w (project_name project) [] in
  under project_folder result_path = false →
  ∃ linked_entries : list (string * content),
    match linked_paths with
    | None => linked_entries = []
    | Some paths =>
        ∃ o, op = Some o
             ∧ Forall2 (λ pth e, e.1 = py_str (op_id o) +:+ "/" +:+ basename pth)
                       paths linked_entries
    end
    ∧ if optimize_size then
        ∃ (ops : list Z) (meta : content),
          NoDup ops
          ∧ (∀ o, o ∈ ops ↔ o ∈ fk_from_operation <$> project_datatypes)
          ∧ fs w !! (project_folder ++ ["Project.xml"]) = Some (File meta)
          ∧ fs w' !! result_path = Some (File (Archive (
              flat_map (λ o, TvbZip.folder_entries (fs w) (project_folder ++ [pretty o])
                               (pretty o +:+ "/") folders_to_exclude) ops
              ++ linked_entries ++ [("Project.xml", meta)])))
          ∧ (∀ (o : Z) arc c,
               (arc, c) ∈ TvbZip.folder_entries (fs w) (project_folder ++ [pretty o])
                            (pretty o +:+ "/") folders_to_exclude →
               String.prefix (pretty o +:+ "/") arc = true)
      else
        fs w' !! result_path = Some (File (Archive (
          TvbZip.folder_entries (fs w) project_folder ""
            (folders_to_exclude ++ [IdStr "TEMP"])
          ++ linked_entries)))
        ∧ (∀ e, e ∈ linked_entries → e.1 ≠ "Project.xml")
        ∧ (∀ arc c,
             (arc, c) ∈ TvbZip.folder_entries (fs w) project_folder ""
                          (folders_to_exclude ++ [IdStr "TEMP"]) ↔
             ∃ r, r ≠ [] ∧ fs w !! (project_folder ++ r) = Some (File c)
                  ∧ ("TEMP" ∉ r)
                  ∧ (∀ e, e ∈ folders_to_exclude → py_str e ∉ r)
                  ∧ arc = String.concat "/" r).
Proof.
  intros Hrun project_folder Hunder.
  unfold StorageInterface.export_project in Hrun.
  apply bind_inv_Ok in Hrun as (pf & w0 & Hpf & Hrun).
  injection Hpf as <- <-. fold project_folder in Hrun.
  apply bind_inv_Ok in Hrun as (packs & w0 & Hpacks & Hrun).
  assert (w0 = w) as -> by (destruct optimize_size; by injection Hpacks).
  apply bind_inv_Ok in Hrun as (now & wa & Hnow & Hrun).
  injection Hnow as <- <-.
  apply bind_inv_Ok in Hrun as (folder & wb & Hbuild & Hrun).
  apply bind_inv_Ok in Hrun as ([] & wc & Hinit & Hrun).
  match type of Hinit with
  | StorageInterface.initialize_tvb_zip (folder ++ [?n]) _ _ = _ =>
      set (zip_file_name := n) in *
  end.
  destruct (export_project_prepare export_folder (project_gid project) zip_file_name
              w (with_tick (S (tick w)) w) folder wb eq_refl eq_refl eq_refl
              Hbuild wc Hinit) as (Hz & Hst & Hframe).
  set (z0 := {| zip_dest := folder ++ [zip_file_name]; zip_entries := [];
                zip_closed := false |}) in *.
  rewrite (bind_Ok _ _ _ _ _ (write_packs packs (fs wc) z0 wc eq_refl Hz eq_refl)) in Hrun.
  set (packed := flat_map _ packs) in Hrun.
  apply bind_inv_Ok in Hrun as ([] & we & Hlinked & Hrun).
  apply (export_project_linked_step linked_paths op (TvbZip.add_entries z0 packed))
    in Hlinked as (linked_entries & Hspec & Hze & Hste & Hsub); [|done..].
  apply bind_inv_Ok in Hrun as ([] & wf & Hmeta & Hrun).
  apply (export_project_meta_step _ _ _ _ _ Hze) in Hmeta as [Hfsf Hzf].
  assert (Hclose : ∀ zf, tvb_zip wf = Some zf → zip_dest zf = folder ++ [zip_file_name] →
            result_path = folder ++ [zip_file_name]
            ∧ fs w' !! result_path = Some (File (Archive (zip_entries zf)))).
  { intros zf Hzf' Hdest.
    rewrite (bind_Ok _ _ _ _ _ (close_tvb_zip_ok zf wf Hzf')) in Hrun.
    injection Hrun as <- <-. split; [done|]. simpl. rewrite Hdest.
    apply lookup_insert_eq. }
  exists linked_entries. split; [exact Hspec|].
  destruct optimize_size.
  - destruct Hzf as (meta & Hmeta & Hzf).
    destruct (Hclose _ Hzf eq_refl) as [-> Hfinal].
    injection Hpacks as Hpacks.
    destruct (consider_fold w project folders_to_exclude project_datatypes [] [])
      as (Hmk & Hnodup & Hops); [done|constructor|].
    cbv zeta in Hmk, Hnodup, Hops. rewrite Hpacks in Hmk.
    set (ops := (fold_left _ project_datatypes ([], [])).2) in *.
    exists ops, meta. split; [done|]. split.
    { intros o. rewrite Hops, elem_of_nil. tauto. }
    split.
    { apply Hsub in Hmeta.
      unfold FilesHelper.get_project_folder, FilesHelper.get_projects_folder in Hmeta.
      rewrite Hste in Hmeta. simpl in Hmeta. rewrite Hst in Hmeta.
      rewrite <- (Hframe project_folder Hunder). exact Hmeta. }
    split; [|intros o arc c; apply folder_entries_prefix].
    rewrite Hfinal. simpl. do 3 f_equal. rewrite <- app_assoc. f_equal.
    unfold packed. rewrite Hmk, flat_map_fmap. simpl.
    apply flat_map_ext. intros o. rewrite project_subfolder. fold project_folder.
    apply folder_entries_ext. intros r. apply Hframe.
    destruct (under (project_folder ++ [pretty o]) (folder ++ [zip_file_name])) eqn:E;
      [|done].
    rewrite <- Hunder. symmetry.
    apply under_trans with (project_folder ++ [pretty o]); [apply under_app|done].
  - destruct (Hclose _ Hzf eq_refl) as [-> Hfinal].
    injection Hpacks as <-. split; [|split].
    + rewrite Hfinal. simpl. do 3 f_equal. unfold packed. simpl.
      rewrite app_nil_r. f_equal. apply folder_entries_ext. intros r. by apply Hframe.
    + intros e He. destruct linked_paths as [paths|]; [|subst; by apply elem_of_nil in He].
      destruct Hspec as (o & _ & Hall).
      apply list_elem_of_lookup in He as [i Hi].
      destruct (Forall2_lookup_r _ _ _ _ _ Hall Hi) as (pth & _ & ->).
      apply linked_name_not_project_file.
    + intros arc c. rewrite elem_of_folder_entries. split.
      * intros (r & Hr & Hfile & Hex & ->). exists r.
        split; [done|]. split; [done|]. split.
        { apply (Hex (IdStr "TEMP")). rewrite elem_of_app, list_elem_of_singleton. by right. }
        split; [|by rewrite string_app_nil].
        intros e He. apply Hex. rewrite elem_of_app. by left.
      * intros (r & Hr & Hfile & Htemp & Hex & ->). exists r.
        split; [done|]. split; [done|]. split; [|by rewrite string_app_nil].
        intros e [He| ->%list_elem_of_singleton]%elem_of_app; [by apply Hex|done].
Qed.

Lemma export_project_archive_witness :
  let w := sample_world false 0 in
  let dts := [sample_datatype "g1" 1; sample_datatype "g1b" 1] in
  let rp := ["TVB"; "EXPORT_TMP"; "2021-3-9_14-5-7_1@pg"; "2021-03-09_14-05_P.zip"] in
  (∃ w' ops,
     StorageInterface.export_project sample_project dts [IdInt 2]
       ["TVB"; "EXPORT_TMP"] None None true w = (Ok rp, w')
     ∧ NoDup ops ∧ (∀ o, o ∈ ops ↔ o = 1)
     ∧ fs w' !! rp = Some (File (Archive (
         flat_map (λ o, TvbZip.folder_entries (fs w) (["TVB"; "PROJECTS"; "P"] ++ [pretty o])
                          (pretty o +:+ "/") [IdInt 2]) ops
         ++ [("Project.xml", blob "meta")]))))
  ∧ (∃ w',
     StorageInterface.export_project sample_project dts [IdInt 2]
       ["TVB"; "EXPORT_TMP"] None None false w = (Ok rp, w')
     ∧ fs w' !! rp = Some (File (Archive
         [("Project.xml", blob "meta"); ("1/Connectivity_g1.h5", blob "conn")]))).
Proof.
  intros w dts rp. split.
  - eexists.
    assert (Hrun : StorageInterface.export_project sample_project dts [IdInt 2]
              ["TVB"; "EXPORT_TMP"] None None true w
            = (Ok rp, (StorageInterface.export_project sample_project dts [IdInt 2]
                         ["TVB"; "EXPORT_TMP"] None None true w).2))
      by (vm_compute; reflexivity).
    destruct (export_project_archive _ _ _ _ _ _ _ _ _ _ Hrun)
      as (les & -> & ops & meta & Hnodup & Hops & Hmeta & Hfinal & _);
      [vm_compute; reflexivity|].
    exists ops. split; [exact Hrun|]. split; [exact Hnodup|]. split.
    + intros o. rewrite Hops. unfold dts. simpl.
      rewrite !elem_of_cons, elem_of_nil. tauto.
    + vm_compute in Hmeta. injection Hmeta as <-. exact Hfinal.
  - eexists.
    assert (Hrun : StorageInterface.export_project sample_project dts [IdInt 2]
              ["TVB"; "EXPORT_TMP"] None None false w
            = (Ok rp, (StorageInterface.export_project sample_project dts [IdInt 2]
                         ["TVB"; "EXPORT_TMP"] None None false w).2))
      by (vm_compute; reflexivity).
    destruct (export_project_archive _ _ _ _ _ _ _ _ _ _ Hrun)
      as (les & -> & Hfinal & _ & _); [vm_compute; reflexivity|].
    split; [exact Hrun|]. rewrite Hfinal. vm_compute. reflexivity.
Defined.


(** ** File name extensions *)

Lemma str_endswith_spec (s suffix : string) :
  str_endswith s suffix = true ↔ ∃ a, s = a +:+ suffix.
Proof.
  induction s as [|c s IH]; simpl.
  - rewrite orb_false_r, bool_decide_eq_true. split.
    + intros <-. by exists "".
    + intros [a Ha]. destruct a; [by rewrite string_app_nil in Ha|].
      by rewrite string_app_cons in Ha.
  - rewrite orb_true_iff, bool_decide_eq_true, IH. split.
    + intros [<-|[a ->]]; [by exists ""|]. exists (String c a).
      by rewrite string_app_cons.
    + intros [a Ha]. destruct a as [|c' a].
      * left. by rewrite string_app_nil in Ha.
      * right. rewrite string_app_cons in Ha. injection Ha as -> ->. by exists a.
Qed.

Lemma string_app_inj_r (a s t : string) : a +:+ s = a +:+ t → s = t.
Proof.
  induction a as [|c a IH]; [by rewrite !string_app_nil|].
  rewrite !string_app_cons. intros [= H]. by apply IH.
Qed.

Lemma string_app_assoc' (a b c : string) : (a +:+ b) +:+ c = a +:+ (b +:+ c).
Proof.
  induction a as [|x a IH]; [by rewrite !string_app_nil|].
  by rewrite !string_app_cons, IH.
Qed.

Lemma string_app_nil_r (a : string) : a +:+ "" = a.
Proof. induction a as [|x a IH]; [done|]. by rewrite string_app_cons, IH. Qed.

(** Two suffixes of one string of the same length are the same. *)
Lemma suffix_same_length (a b s t : string) :
  a +:+ s = b +:+ t → String.length s = String.length t → s = t.
Proof.
  revert b. induction a as [|x a IH]; intros b H Hlen.
  - rewrite string_app_nil in H. destruct b as [|y b]; [by rewrite string_app_nil in H|].
    apply (f_equal String.length) in H. rewrite string_app_length in H.
    simpl in H. lia.
  - destruct b as [|y b].
    + rewrite string_app_nil in H.
      apply (f_equal String.length) in H. rewrite string_app_length in H.
      simpl in H. lia.
    + rewrite !string_app_cons in H. injection H as _ H. by apply IH with b.
Qed.

(** X1.  The two extension tests of the facade.  A name passes
    [ends_with_tvb_storage_file_extension] exactly when it is some stem
    followed by [.h5], and [ends_with_tvb_file_extension] exactly when it
    is some stem followed by the extension of the metadata files; no
    name passes both, and the name of the project metadata file passes
    the second. *)
Theorem ends_with_extension_spec (file : string) :
  (StorageInterface.ends_with_tvb_storage_file_extension file = true
     ↔ ∃ stem, file = stem +:+ ".h5")
  ∧ (StorageInterface.ends_with_tvb_file_extension file = true
     ↔ ∃ stem, file = stem +:+ StorageInterface.TVB_FILE_EXTENSION)
  ∧ ¬ (StorageInterface.ends_with_tvb_storage_file_extension file = true
       ∧ StorageInterface.ends_with_tvb_file_extension file = true)
  ∧ StorageInterface.ends_with_tvb_file_extension StorageInterface.TVB_PROJECT_FILE = true.
Proof.
  unfold StorageInterface.ends_with_tvb_storage_file_extension,
    StorageInterface.ends_with_tvb_file_extension.
  split; [apply str_endswith_spec|]. split; [apply str_endswith_spec|].
  split; [|done].
  rewrite !str_endswith_spec. intros [[a Ha] [b Hb]].
  rewrite Ha in Hb.
  change StorageInterface.TVB_STORAGE_FILE_EXTENSION with (".h" +:+ "5") in Hb.
  change StorageInterface.TVB_FILE_EXTENSION with (".xm" +:+ "l") in Hb.
  rewrite <- !string_app_assoc' in Hb.
  apply suffix_same_length in Hb; [discriminate Hb|reflexivity].
Qed.

(** ** The method that calls itself *)

(** X2.  [get_allen_mouse_cache_folder] never returns: its body calls the
    method itself with the same argument, so whatever room the call
    stack has, the call ends with the stack exhausted, and the world is
    as before. *)
Theorem get_allen_mouse_cache_folder_never_returns
    (depth : nat) (project_name : string) (w : World) :
  StorageInterface.get_allen_mouse_cache_folder depth project_name w
  = (StorageInterface.RecursionError, w).
Proof. induction depth as [|d IH]; [done|]. exact IH. Qed.

(** ** The exporters offered for a datatype *)

Lemma get_exporters_lookup (registry : gmap string Exporter) (data : DataType)
    (id : string) :
  map_fold (λ exporterId exporter (results : gmap string string),
              if accepts exporter data
              then <[exporterId := get_label exporter]> results
              else results) ∅ registry !! id
  = match registry !! id with
    | Some exporter => if accepts exporter data then Some (get_label exporter) else None
    | None => None
    end.
Proof.
  apply (map_fold_weak_ind (λ (r : gmap string string) (m : gmap string Exporter),
    r !! id = match m !! id with
              | Some exporter =>
                  if accepts exporter data then Some (get_label exporter) else None
              | None => None
              end)).
  - by rewrite !lookup_empty.
  - intros i x m r Hi IH.
    destruct (decide (i = id)) as [->|Hne].
    + rewrite lookup_insert_eq. rewrite Hi in IH.
      destruct (accepts x data); [by rewrite lookup_insert_eq|done].
    + rewrite (lookup_insert_ne m) by done.
      destruct (accepts x data); [by rewrite lookup_insert_ne|done].
Qed.

(** X3.  [get_exporters_for_data] refuses null data with
    [InvalidExportDataException]; for a datatype it answers, without
    changing anything, with the dictionary that maps exactly the ids of
    the registered exporters accepting the datatype to their labels. *)
Theorem get_exporters_for_data_spec (self : ExportManager.t) (w : World) :
  ExportManager.get_exporters_for_data self None w
  = (Raise InvalidExportDataException, w)
  ∧ ∀ data, ∃ results,
      ExportManager.get_exporters_for_data self (Some data) w = (Ok results, w)
      ∧ ∀ id label,
          results !! id = Some label ↔
          ∃ exporter, ExportManager.all_exporters self !! id = Some exporter
                      ∧ accepts exporter data = true
                      ∧ label = get_label exporter.
Proof.
  split; [done|]. intros data. eexists. split; [reflexivity|].
  intros id label. rewrite get_exporters_lookup.
  destruct (ExportManager.all_exporters self !! id) as [e|] eqn:E.
  - destruct (accepts e data) eqn:Ha.
    + split.
      * intros [= <-]. by exists e.
      * intros (e' & [= <-] & _ & ->). done.
    + split; [done|]. intros (e' & [= <-] & Ha' & _). congruence.
  - split; [done|]. by intros (e' & ? & _).
Qed.

(** X4.  An exporter id that [get_exporters_for_data] does not offer for a
    datatype is refused by [export_data] before anything is touched:
    with [ExportException] when no exporter is registered under the id,
    with [InvalidExportDataException] when the registered exporter does
    not accept the datatype. *)
Theorem export_data_refuses_unoffered
    (self : ExportManager.t) (data : DataType) (id : string) (project : Project)
    (results : gmap string string) (w : World) :
  ExportManager.get_exporters_for_data self (Some data) w = (Ok results, w) →
  results !! id = None →
  ExportManager.export_data self (Some data) (Some id) (Some project) w
  = (Raise (match ExportManager.all_exporters self !! id with
            | Some _ => InvalidExportDataException
            | None => ExportException
            end), w).
Proof.
  intros [= <-]. rewrite get_exporters_lookup.
  unfold ExportManager.export_data.
  destruct (ExportManager.all_exporters self !! id) as [e|]; [|done].
  by destruct (accepts e data).
Qed.

Lemma export_data_refuses_unoffered_witness :
  ∃ results,
    ExportManager.get_exporters_for_data refusing_manager
      (Some (sample_datatype "g1" 1)) (sample_world false 0)
    = (Ok results, sample_world false 0)
    ∧ results !! "RefusingExporter" = None
    ∧ ExportManager.export_data refusing_manager (Some (sample_datatype "g1" 1))
        (Some "RefusingExporter") (Some sample_project) (sample_world false 0)
      = (Raise InvalidExportDataException, sample_world false 0).
Proof.
  eexists. split; [reflexivity|].
  assert (H : (map_fold (λ exporterId exporter (results : gmap string string),
              if accepts exporter (sample_datatype "g1" 1)
              then <[exporterId := get_label exporter]> results
              else results) ∅ (ExportManager.all_exporters refusing_manager))
            !! "RefusingExporter" = None) by (vm_compute; reflexivity).
  split; [exact H|].
  exact (export_data_refuses_unoffered refusing_manager (sample_datatype "g1" 1)
           "RefusingExporter" sample_project _ (sample_world false 0) eq_refl H).
Defined.


(** ** Rules for [confined] *)

Lemma confined_ret {A} (P : World → Prop) (S : path → Prop) (a : A) :
  confined P S (mret a) (λ b w, P w ∧ b = a).
Proof. intros w Hw. split; [done|]. intros b [= <-]. done. Qed.

Lemma confined_raise {A} (P : World → Prop) (S : path → Prop) e (Q : A → World → Prop) :
  confined P S (raise e) Q.
Proof. intros w Hw. split; [done|]. intros b [=]. Qed.

Lemma confined_gets {A} (P : World → Prop) (S : path → Prop) (f : World → A) :
  confined P S (gets f) (λ a w, P w ∧ a = f w).
Proof. intros w Hw. split; [done|]. intros b [= <-]. done. Qed.

Lemma confined_bind {A B} (P : World → Prop) (S : path → Prop) (m : M A)
    (Q : A → World → Prop) (f : A → M B) (R : B → World → Prop) :
  confined P S m Q → (∀ a, confined (Q a) S (f a) R) → confined P S (m ≫= f) R.
Proof.
  intros Hm Hf w Hw. destruct (Hm w Hw) as [Hfr Hpost].
  unfold mbind, M_bind. destruct (m w) as [[a|e] w1] eqn:E; simpl in *.
  - destruct (Hf a w1 (Hpost a eq_refl)) as [Hfr' Hpost'].
    split; [|done]. intros q Hq. by rewrite Hfr', Hfr.
  - split; [done|]. intros b [=].
Qed.

Lemma confined_weaken {A} (P P' : World → Prop) (S S' : path → Prop) (m : M A)
    (Q Q' : A → World → Prop) :
  confined P S m Q →
  (∀ w, P' w → P w) → (∀ q, S q → S' q) → (∀ a w, Q a w → Q' a w) →
  confined P' S' m Q'.
Proof.
  intros Hm HP HS HQ w Hw. destruct (Hm w (HP w Hw)) as [Hfr Hpost].
  split; [|by auto]. intros q Hq. apply Hfr. by auto.
Qed.

Lemma confined_pre {A} (P : World → Prop) (φ : Prop) (S : path → Prop) (m : M A)
    (Q : A → World → Prop) :
  (φ → confined P S m Q) → confined (λ w, P w ∧ φ) S m Q.
Proof. intros H w [Hw Hφ]. by apply H. Qed.

Lemma confined_post {A} (P : World → Prop) (S : path → Prop) (m : M A)
    (Q Q' : A → World → Prop) :
  confined P S m Q → (∀ a w, Q a w → Q' a w) → confined P S m Q'.
Proof. intros H HQ. by apply (confined_weaken P P S S m Q Q'). Qed.

Lemma confined_for_each {A} (P : World → Prop) (S : path → Prop) (l : list A)
    (body : A → M unit) :
  (∀ a, confined P S (body a) (λ _, P)) →
  confined P S (for_each l body) (λ _, P).
Proof.
  intros Hbody. induction l as [|a l IH]; simpl.
  - eapply confined_post; [apply confined_ret|]. by intros ? ? [? _].
  - eapply confined_bind; [apply Hbody|]. intros ?. exact IH.
Qed.

(** A step that leaves the file system alone. *)
Lemma confined_reads {A} (P : World → Prop) (S : path → Prop) (m : M A) :
  (∀ w, (m w).2 = w) → confined P S m (λ _, P).
Proof. intros H w Hw. rewrite H. by split. Qed.

Lemma confined_now (P : World → Prop) (S : path → Prop) :
  stable P → confined P S datetime_now (λ _, P).
Proof. intros HP w Hw. split; [done|]. intros a _. by apply (HP w). Qed.

Lemma confined_path_exists (P : World → Prop) (S : path → Prop) (p : path) :
  confined P S (os_path_exists p) (λ _, P).
Proof. by apply confined_reads. Qed.



Lemma confined_makedirs (P : World → Prop) (S : path → Prop) (p : path) :
  stable P → (∀ q, under q p = true → S q) →
  confined P S (os_makedirs p) (λ _, P).
Proof.
  intros HP HS w Hw. unfold os_makedirs.
  destruct (bool_decide _); [split; [done|intros ? [=]]|].
  destruct (existsb _ _); [split; [done|intros ? [=]]|]. simpl. split.
  - intros q Hq. apply lookup_foldr_mkdir. intros Hin%ancestors_under. by auto.
  - intros _ _. by apply (HP w).
Qed.


Lemma confined_rmtree (P : World → Prop) (S : path → Prop) (d : path) (b : bool) :
  stable P → (∀ q, under d q = true → S q) →
  confined P S (shutil_rmtree d b) (λ _, P).
Proof.
  intros HP HS w Hw. unfold shutil_rmtree.
  destruct (_ && _); simpl.
  - split; [|intros _ _; by apply (HP w)].
    intros q Hq. rewrite lookup_prune.
    destruct (under d q) eqn:E; [|done]. by destruct Hq; auto.
  - destruct b; (split; [done|]); [by intros _ _|intros ? [=]].
Qed.

Lemma confined_check_created (P : World → Prop) (S : path → Prop) (p : path) :
  stable P → (∀ q, under q p = true → S q) →
  confined P S (FilesHelper.check_created p) (λ _, P).
Proof.
  intros HP HS. unfold FilesHelper.check_created.
  eapply confined_bind; [apply confined_path_exists|]. intros [|].
  - eapply confined_post; [apply confined_ret|]. by intros ? ? [? _].
  - by apply confined_makedirs.
Qed.



Lemma confined_build_data_export_folder (P : World → Prop) (S : path → Prop)
    (gid : string) (ef : path) :
  stable P → (∀ q stamp, under q (ef ++ [stamp]) = true → S q) →
  confined P S (StorageInterface.build_data_export_folder gid ef)
    (λ folder w, P w ∧ ∃ stamp : string, folder = ef ++ [stamp]).
Proof.
  intros HP HS. unfold StorageInterface.build_data_export_folder.
  eapply confined_bind; [by apply confined_now|]. intros now.
  eapply confined_bind.
  { apply confined_check_created; [done|]. intros q. apply HS. }
  intros u. eapply confined_post; [apply confined_ret|].
  intros a w [Hw ->]. eauto.
Qed.




(** ** Paths on the branch of a folder *)

Lemma on_branch_prefix (d r q : path) : under q (d ++ r) = true → on_branch d q.
Proof.
  intros [r' Hr]%under_true. apply app_eq_inv in Hr as [(k & -> & _)|(k & -> & _)].
  - right. apply under_app.
  - left. apply under_app.
Qed.

Lemma on_branch_under (d r q : path) : under (d ++ r) q = true → on_branch d q.
Proof.
  intros H. left. apply under_trans with (d ++ r); [apply under_app|done].
Qed.


(** ** The simulator configuration export and the project data *)







Lemma find_None_all {A} (f : A → bool) (l : list A) :
  (∀ x, x ∈ l → f x = false) → List.find f l = None.
Proof.
  induction l as [|x l IH]; simpl; [done|]. intros H.
  rewrite (H x) by (apply elem_of_cons; by left). apply IH.
  intros y Hy. apply H. apply elem_of_cons. by right.
Qed.

(** X6.  For a burst id the store does not know,
    [export_simulator_configuration] raises
    [InvalidExportDataException] before anything is done: no staging
    folder is created and the clock is not read. *)
Theorem export_simulator_configuration_unknown_burst
    (self : ExportManager.t) (id : Z) (w : World) :
  (∀ b, b ∈ bursts (db w) → burst_id b ≠ id) →
  ExportManager.export_simulator_configuration self id w
  = (Raise InvalidExportDataException, w).
Proof.
  intros Hnone. unfold ExportManager.export_simulator_configuration.
  unfold mbind at 1, M_bind, dao.get_burst_by_id, gets.
  rewrite find_None_all; [done|].
  intros b Hb. apply bool_decide_eq_false. by apply Hnone.
Qed.

Lemma export_simulator_configuration_unknown_burst_witness :
  ExportManager.export_simulator_configuration sample_manager 6 burst_world
  = (Raise InvalidExportDataException, burst_world).
Proof.
  apply export_simulator_configuration_unknown_burst.
  intros b Hb. vm_compute in Hb.
  apply list_elem_of_singleton in Hb as ->. vm_compute. discriminate.
Defined.


(** ** The staging folder of [export_data] *)

(** X7.  When the export step leaves something in the staging folder,
    [export_data] keeps the folder and ends exactly as the export step
    did: same outcome (the triple the exporter returned, or its
    exception) and same world. *)
Theorem export_data_keeps_nonempty_staging
    (self : ExportManager.t) (data : DataType) (exporter_id : string)
    (exporter : Exporter) (project : Project) (w : World) (folder : path)
    (w1 : World) (r2 : result (string * path * bool)) (w2 : World) :
  ExportManager.all_exporters self !! exporter_id = Some exporter →
  accepts exporter data = true →
  StorageInterface.build_data_export_folder (dt_gid data)
    (ExportManager.export_folder self) w = (Ok folder, w1) →
  export exporter data folder project w1 = (r2, w2) →
  fs w2 !! folder = Some Dir →
  children folder (fs w2) ≠ [] →
  ExportManager.export_data self (Some data) (Some exporter_id) (Some project) w
  = (r2, w2).
Proof.
  intros Hreg Hacc Hbuild Hexp Hdir Hne.
  unfold ExportManager.export_data. rewrite Hreg, Hacc. simpl.
  unfold try_finally_bound. rewrite Hbuild, Hexp.
  by rewrite finally_keeps_nonempty.
Qed.

Lemma export_data_keeps_nonempty_staging_witness :
  let folder := ["TVB"; "EXPORT_TMP"; "2021-3-9_14-5-7_0@g1"] in
  ∃ w', ExportManager.export_data sample_manager (Some (sample_datatype "g1" 1))
          (Some "TVBExporter") (Some sample_project) (sample_world false 0)
        = (Ok ("g1.h5", folder ++ ["g1.h5"], true), w')
        ∧ fs w' !! (folder ++ ["g1.h5"]) = Some (File (blob "exported")).
Proof.
  intros folder.
  set (w := sample_world false 0).
  set (w1 := (StorageInterface.build_data_export_folder "g1" ["TVB"; "EXPORT_TMP"] w).2).
  set (w2 := (export writing_exporter (sample_datatype "g1" 1) folder sample_project w1).2).
  exists w2. split.
  - apply (export_data_keeps_nonempty_staging sample_manager (sample_datatype "g1" 1)
             "TVBExporter" writing_exporter sample_project w folder w1).
    + by vm_compute.
    + reflexivity.
    + by vm_compute.
    + by vm_compute.
    + by vm_compute.
    + vm_compute. discriminate.
  - by vm_compute.
Defined.

(** X8.  When the export step leaves no directory at the staging path (it
    removed or replaced the folder), the listing in the [finally] block
    fails, and this failure is what [export_data] ends with: [OSError],
    also when the exporter had returned its triple. *)
Theorem export_data_staging_vanished
    (self : ExportManager.t) (data : DataType) (exporter_id : string)
    (exporter : Exporter) (project : Project) (w : World) (folder : path)
    (w1 : World) (r2 : result (string * path * bool)) (w2 : World) :
  ExportManager.all_exporters self !! exporter_id = Some exporter →
  accepts exporter data = true →
  StorageInterface.build_data_export_folder (dt_gid data)
    (ExportManager.export_folder self) w = (Ok folder, w1) →
  export exporter data folder project w1 = (r2, w2) →
  fs w2 !! folder ≠ Some Dir →
  ExportManager.export_data self (Some data) (Some exporter_id) (Some project) w
  = (Raise OSError, w2).
Proof.
  intros Hreg Hacc Hbuild Hexp Hdir.
  unfold ExportManager.export_data. rewrite Hreg, Hacc. simpl.
  unfold try_finally_bound. rewrite Hbuild, Hexp.
  unfold mbind, M_bind, os_listdir.
  assert (is_dir (fs w2 !! folder) = false) as ->; [|done].
  by destruct (fs w2 !! folder) as [[|c]|].
Qed.

Lemma export_data_staging_vanished_witness :
  let w := sample_world false 0 in
  let folder := ["TVB"; "EXPORT_TMP"; "2021-3-9_14-5-7_0@g1"] in
  (export vanishing_exporter (sample_datatype "g1" 1) folder sample_project
     (StorageInterface.build_data_export_folder "g1" ["TVB"; "EXPORT_TMP"] w).2).1
  = Ok ("g1", ["TVB"; "elsewhere"], false)
  ∧ (ExportManager.export_data vanishing_manager (Some (sample_datatype "g1" 1))
       (Some "VanishingExporter") (Some sample_project) w).1
    = Raise OSError.
Proof.
  intros w folder. split; [by vm_compute|].
  set (w1 := (StorageInterface.build_data_export_folder "g1" ["TVB"; "EXPORT_TMP"] w).2).
  set (out := export vanishing_exporter (sample_datatype "g1" 1) folder sample_project w1).
  rewrite (export_data_staging_vanished vanishing_manager (sample_datatype "g1" 1)
             "VanishingExporter" vanishing_exporter sample_project w folder w1
             out.1 out.2).
  - reflexivity.
  - by vm_compute.
  - reflexivity.
  - by vm_compute.
  - exact (surjective_pairing out).
  - vm_compute. discriminate.
Defined.

(** X9.  When the staging folder cannot be created, [export_data] ends
    with the exception of that step in the world that step left: the
    exporter is not run, and the [finally] block has nothing to remove. *)
Theorem export_data_staging_failure
    (self : ExportManager.t) (data : DataType) (exporter_id : string)
    (exporter : Exporter) (project : Project) (w : World) (e : exn) (w1 : World) :
  ExportManager.all_exporters self !! exporter_id = Some exporter →
  accepts exporter data = true →
  StorageInterface.build_data_export_folder (dt_gid data)
    (ExportManager.export_folder self) w = (Raise e, w1) →
  ExportManager.export_data self (Some data) (Some exporter_id) (Some project) w
  = (Raise e, w1).
Proof.
  intros Hreg Hacc Hbuild.
  unfold ExportManager.export_data. rewrite Hreg, Hacc. simpl.
  unfold try_finally_bound. by rewrite Hbuild.
Qed.

Lemma export_data_staging_failure_witness :
  let w := sample_world false 0 in
  ExportManager.export_data misplaced_manager (Some (sample_datatype "g1" 1))
    (Some "TVBExporter") (Some sample_project) w
  = (Raise OSError, with_tick 1 w).
Proof.
  intros w.
  apply (export_data_staging_failure misplaced_manager (sample_datatype "g1" 1)
           "TVBExporter" writing_exporter sample_project w).
  - by vm_compute.
  - reflexivity.
  - by vm_compute.
Defined.


(** ** The staging folder of an export *)

Lemma pretty_N_char_digit (x : N) : is_digit (pretty_N_char x) = true.
Proof. unfold pretty_N_char. by repeat case_match. Qed.

Lemma pretty_N_go_digits (x : N) (s : string) :
  all_digits s = true → all_digits (pretty_N_go x s) = true.
Proof.
  revert s. induction (N.lt_wf_0 x) as [x _ IH]; intros s Hs.
  assert (x = 0 ∨ 0 < x)%N as [->|?] by lia; [by rewrite pretty_N_go_0|].
  rewrite pretty_N_go_step by done. apply IH; [by apply N.div_lt|].
  simpl. by rewrite pretty_N_char_digit.
Qed.

Lemma pretty_Z_digits (z : Z) : 0 ≤ z → all_digits (pretty z) = true.
Proof.
  destruct z as [|p|p]; [done| |lia]. intros _.
  unfold pretty, pretty_Z, pretty, pretty_positive, pretty, pretty_N.
  case_decide; [done|]. by apply pretty_N_go_digits.
Qed.

(** A run of digits ended by another character is read in one way. *)
Lemma digits_split (a a' : string) (c c' : Ascii.ascii) (r r' : string) :
  all_digits a = true → all_digits a' = true →
  is_digit c = false → is_digit c' = false →
  a +:+ String c r = a' +:+ String c' r' → a = a' ∧ c = c' ∧ r = r'.
Proof.
  revert a'. induction a as [|x a IH]; intros [|x' a'] Ha Ha' Hc Hc';
    rewrite ?string_app_nil, ?string_app_cons; simpl in *.
  - by intros [= -> ->].
  - intros [= -> _]. apply andb_true_iff in Ha' as [Hx _]. congruence.
  - intros [= -> _]. apply andb_true_iff in Ha as [Hx _]. congruence.
  - intros [= -> H].
    apply andb_true_iff in Ha as [_ Ha]. apply andb_true_iff in Ha' as [_ Ha'].
    destruct (IH a' Ha Ha' Hc Hc' H) as (-> & -> & ->). done.
Qed.

Lemma number_split (n n' : Z) (c c' : Ascii.ascii) (r r' : string) :
  0 ≤ n → 0 ≤ n' → is_digit c = false → is_digit c' = false →
  pretty n +:+ String c r = pretty n' +:+ String c' r' → n = n' ∧ r = r'.
Proof.
  intros Hn Hn' Hc Hc' H.
  apply digits_split in H as (H & _ & ->); [|by apply pretty_Z_digits..|done|done].
  split; [|done]. by apply (inj pretty).
Qed.

Lemma data_export_folder_name_inj (t t' : datetime) (gid gid' : string) :
  valid_datetime t → valid_datetime t' →
  data_export_folder_name t gid = data_export_folder_name t' gid' →
  t = t' ∧ gid = gid'.
Proof.
  intros (Hy & Hm & Hd & Hh & Hmi & Hs & Hus) (Hy' & Hm' & Hd' & Hh' & Hmi' & Hs' & Hus').
  unfold data_export_folder_name. rewrite !string_app_assoc'.
  destruct t as [y m d h mi s us], t' as [y' m' d' h' mi' s' us']; simpl in *.
  rewrite !string_app_cons, !string_app_nil.
  intros H.
  apply number_split in H as [-> H]; [|done..].
  apply number_split in H as [-> H]; [|done..].
  apply number_split in H as [-> H]; [|done..].
  apply number_split in H as [-> H]; [|done..].
  apply number_split in H as [-> H]; [|done..].
  apply number_split in H as [-> H]; [|done..].
  apply number_split in H as [-> H]; [|done..].
  by subst.
Qed.

(** What [os.makedirs] leaves when no folder on the way is a file. *)
Lemma lookup_foldr_mkdir_in (l : list path) (m : gmap path node) (q : path) :
  q ∈ l → foldr (λ p acc, <[p := Dir]> acc) m l !! q = Some Dir.
Proof.
  induction l as [|p l IH]; simpl; [by intros ?%elem_of_nil|].
  intros [->|Hin]%elem_of_cons; [apply lookup_insert_eq|].
  destruct (decide (p = q)) as [->|Hne]; [apply lookup_insert_eq|].
  rewrite lookup_insert_ne by done. by apply IH.
Qed.

Lemma existsb_false_all {A} (f : A → bool) (l : list A) :
  existsb f l = false → ∀ x, x ∈ l → f x = false.
Proof.
  induction l as [|y l IH]; simpl; [by intros _ x ?%elem_of_nil|].
  intros [Hy Hl]%orb_false_iff x [->|Hin]%elem_of_cons; [done|by apply IH].
Qed.

Lemma last_ancestor (p : path) : p ≠ [] → p ∈ ancestors p.
Proof.
  intros Hp. unfold ancestors. apply list_elem_of_fmap.
  exists (length p). split; [by rewrite firstn_all|].
  apply elem_of_seq. destruct p; [done|]. simpl. lia.
Qed.

(** X10.  [build_data_export_folder] reads the clock once and resolves the
    folder [export_folder/<name>], where the name spells the reading
    and the gid of the exported entity.  When that path exists nothing is
    created; when it does not and some folder on the way is a regular
    file, the call raises [OSError]; otherwise the folder is created
    with the missing folders on the way, and every file or folder that
    existed before is afterwards as it was. *)
Theorem build_data_export_folder_spec (gid : string) (export_folder : path) (w : World) :
  let folder :=
    export_folder ++ [data_export_folder_name (clock w (tick w)) gid] in
  let w0 := with_tick (S (tick w)) w in
  if bool_decide (is_Some (fs w !! folder)) then
    StorageInterface.build_data_export_folder gid export_folder w = (Ok folder, w0)
  else if existsb (λ q, is_file (fs w !! q)) (ancestors folder) then
    StorageInterface.build_data_export_folder gid export_folder w = (Raise OSError, w0)
  else
    ∃ w1, StorageInterface.build_data_export_folder gid export_folder w = (Ok folder, w1)
          ∧ tick w1 = S (tick w)
          ∧ fs w1 !! folder = Some Dir
          ∧ (∀ q n, fs w !! q = Some n → fs w1 !! q = Some n)
          ∧ (∀ q, under q folder = false → fs w1 !! q = fs w !! q).
Proof.
  intros folder w0. subst folder. unfold data_export_folder_name.
  set (folder := export_folder ++ _).
  unfold StorageInterface.build_data_export_folder.
  unfold StorageInterface.check_created, FilesHelper.check_created.
  unfold mbind, M_bind, datetime_now, os_path_exists, gets, os_makedirs, mret, M_ret.
  simpl. fold folder. fold w0.
  destruct (bool_decide (is_Some (fs w !! folder))) eqn:E; simpl; [done|].
  rewrite E. destruct (existsb _ _) eqn:Ex; [done|].
  eexists. split; [reflexivity|]. simpl. split; [done|].
  assert (Hall := existsb_false_all _ _ Ex). split; [|split].
  - apply lookup_foldr_mkdir_in, last_ancestor. unfold folder. by destruct export_folder.
  - intros q n Hq. destruct (decide (q ∈ ancestors folder)) as [Hin|Hnotin].
    + rewrite lookup_foldr_mkdir_in by done.
      apply Hall in Hin. rewrite Hq in Hin. by destruct n.
    + by rewrite lookup_foldr_mkdir.
  - intros q Hq. apply lookup_foldr_mkdir. intros Hin%ancestors_under. congruence.
Qed.

Lemma build_data_export_folder_name (gid : string) (export_folder : path)
    w (folder : path) w1 :
  StorageInterface.build_data_export_folder gid export_folder w = (Ok folder, w1) →
  folder = export_folder ++ [data_export_folder_name (clock w (tick w)) gid].
Proof.
  intros Hrun. pose proof (build_data_export_folder_spec gid export_folder w) as H.
  cbv zeta in H. destruct (bool_decide _); [congruence|].
  destruct (existsb _ _); [congruence|].
  destruct H as (w1' & H & _). congruence.
Qed.

(** X11.  The staging folders of two exports into the same export folder
    coincide exactly when the two exports read the same time from the
    clock and are for the same gid: the name of the folder determines
    both (the fields of a reading are never negative). *)
Theorem build_data_export_folder_unique (gid1 gid2 : string) (export_folder : path)
    (w1 w2 : World) (folder1 folder2 : path) (w1' w2' : World) :
  valid_datetime (clock w1 (tick w1)) → valid_datetime (clock w2 (tick w2)) →
  StorageInterface.build_data_export_folder gid1 export_folder w1 = (Ok folder1, w1') →
  StorageInterface.build_data_export_folder gid2 export_folder w2 = (Ok folder2, w2') →
  folder1 = folder2 ↔ clock w1 (tick w1) = clock w2 (tick w2) ∧ gid1 = gid2.
Proof.
  intros Hv1 Hv2 ->%build_data_export_folder_name ->%build_data_export_folder_name.
  split.
  - intros H%app_inv_head. injection H as H.
    by apply data_export_folder_name_inj.
  - by intros [-> ->].
Qed.

Lemma build_data_export_folder_unique_witness :
  let w := sample_world false 0 in
  let first := StorageInterface.build_data_export_folder "g1" ["TVB"; "EXPORT_TMP"] w in
  let second :=
    StorageInterface.build_data_export_folder "g1" ["TVB"; "EXPORT_TMP"] first.2 in
  ∃ folder1 folder2,
    first.1 = Ok folder1 ∧ second.1 = Ok folder2 ∧ folder1 ≠ folder2.
Proof.
  intros w first second.
  exists ["TVB"; "EXPORT_TMP"; "2021-3-9_14-5-7_0@g1"],
         ["TVB"; "EXPORT_TMP"; "2021-3-9_14-5-7_1@g1"].
  split; [by vm_compute|]. split; [by vm_compute|].
  intros Heq.
  apply (build_data_export_folder_unique "g1" "g1" ["TVB"; "EXPORT_TMP"] w first.2
           _ _ first.2 second.2) in Heq as [Hclock _].
  - vm_compute in Hclock. discriminate Hclock.
  - vm_compute. repeat split; discriminate.
  - vm_compute. repeat split; discriminate.
  - by vm_compute.
  - by vm_compute.
Defined.


(** ** The zip handle of the facade *)




Lemma write_closed (z : ZipHandle) w :
  tvb_zip w = Some z → zip_closed z = true →
  (∀ file_name arc,
     StorageInterface.write_zip_arc file_name arc w = (Raise ValueError, w))
  ∧ (∀ folder prefix exclude,
     StorageInterface.write_zip_folder folder prefix exclude w = (Raise ValueError, w)).
Proof.
  intros Hz Hclosed. split; intros.
  - unfold StorageInterface.write_zip_arc.
    unfold mbind at 1, M_bind, StorageInterface.self_tvb_zip. rewrite Hz.
    unfold mbind at 1, M_bind, TvbZip.write. by rewrite Hclosed.
  - unfold StorageInterface.write_zip_folder.
    unfold mbind at 1, M_bind, StorageInterface.self_tvb_zip. rewrite Hz.
    unfold mbind at 1, M_bind, TvbZip.write_zip_folder. by rewrite Hclosed.
Qed.





Lemma initialize_tvb_zip_write (dest_path : path) w w1 :
  write_file dest_path (Archive []) w = (Ok tt, w1) →
  StorageInterface.initialize_tvb_zip dest_path "w" w
  = (Ok tt, with_tvb_zip (Some {| zip_dest := dest_path; zip_entries := [];
                                  zip_closed := false |}) w1).
Proof.
  intros Hwrite. unfold StorageInterface.initialize_tvb_zip, TvbZip.open.
  rewrite decide_True by done.
  erewrite bind_Ok; [reflexivity|]. by erewrite bind_Ok.
Qed.

(** X14.  [namelist] passes its mode on to the archive it opens.  In
    mode ["w"] the archive is opened for writing, which empties it: the
    call answers with no name, and the path holds an empty archive
    afterwards, whatever it held before. *)
Theorem namelist_write_mode_truncates (dest_path : path) (w w1 : World) :
  write_file dest_path (Archive []) w = (Ok tt, w1) →
  ∃ w', StorageInterface.namelist dest_path "w" w = (Ok [], w')
        ∧ fs w' !! dest_path = Some (File (Archive []))
        ∧ ∀ q, q ≠ dest_path → fs w' !! q = fs w !! q.
Proof.
  intros Hwrite. unfold StorageInterface.namelist.
  rewrite (bind_Ok _ _ _ _ _ (initialize_tvb_zip_write dest_path w w1 Hwrite)).
  unfold mbind at 1, M_bind, StorageInterface.self_tvb_zip. simpl.
  erewrite bind_Ok; [|by apply close_tvb_zip_ok]. simpl.
  eexists. split; [reflexivity|]. simpl.
  unfold write_file in Hwrite. destruct (_ && _); [|done].
  injection Hwrite as <-. simpl. split.
  - by rewrite lookup_insert_eq.
  - intros q Hq. by rewrite !lookup_insert_ne.
Qed.

Lemma namelist_write_mode_truncates_witness :
  let archive := ["TVB"; "EXPORT_TMP"; "out.zip"] in
  let w := with_fs (<[archive := File (Archive [("1/a.h5", blob "a")])]>)
             (sample_world false 0) in
  ∃ w', StorageInterface.namelist archive "w" w = (Ok [], w')
        ∧ fs w' !! archive = Some (File (Archive [])).
Proof.
  intros archive w.
  destruct (namelist_write_mode_truncates archive w
              (write_file archive (Archive []) w).2) as (w' & H1 & H2 & _).
  - by vm_compute.
  - by exists w'.
Defined.



(** ** Linked files *)

Lemma write_zip_arc_missing (file_name : path) (arc : string) z w :
  tvb_zip w = Some z → zip_closed z = false → is_file (fs w !! file_name) = false →
  StorageInterface.write_zip_arc file_name arc w = (Raise OSError, w).
Proof.
  intros Hz Hopen Hfile. unfold StorageInterface.write_zip_arc.
  unfold mbind at 1, M_bind, StorageInterface.self_tvb_zip. rewrite Hz.
  unfold mbind at 1, M_bind, TvbZip.write. rewrite Hopen.
  unfold mbind at 1, M_bind, read_file.
  by destruct (fs w !! file_name) as [[|c]|].
Qed.








(** ** Renaming a project: the two folders can get out of step *)

Lemma os_rename_denied (src dst : path) w :
  src ≠ dst → denied (write_protected w) src (fs w) = true →
  os_rename src dst w = (Raise OSError, w).
Proof.
  intros Hne Hden. unfold os_rename. rewrite bool_decide_false by done.
  rewrite Hden. by rewrite !andb_false_r.
Qed.

(** X18.  [rename_project] renames the plaintext folder first and the
    encrypted counterpart second, with nothing to undo the first step.
    When the rename is let through, the plaintext folder can be renamed
    and the system refuses to move the existing encrypted counterpart,
    the call raises [OSError] with the plaintext tree already under the
    new name and the encrypted tree still under the old one. *)
Theorem rename_project_half_done (current_proj_name new_name : string) (w : World) :
  let folder := FilesHelper.get_project_folder w current_proj_name [] in
  let new_folder := FilesHelper.get_project_folder w new_name [] in
  let enc := StorageInterface.compute_encrypted_folder_path folder in
  DataEncryptionHandler.encryption_enabled w
    && negb (DataEncryptionHandler.is_in_usage w folder) = false →
  is_Some (fs w !! folder) →
  fs w !! new_folder = None →
  denied (write_protected w) folder (fs w) = false →
  new_name ≠ current_proj_name +:+ "_encrypted" →
  is_Some (fs w !! enc) →
  denied (write_protected w) enc (fs w) = true →
  ∃ w',
    StorageInterface.rename_project current_proj_name new_name w = (Raise OSError, w')
    ∧ (∀ r, fs w' !! (new_folder ++ r) = fs w !! (folder ++ r))
    ∧ (∀ r, fs w' !! (folder ++ r) = None)
    ∧ (∀ r, fs w' !! (enc ++ r) = fs w !! (enc ++ r)).
Proof.
  intros folder new_folder enc Hlet Hsrc Hdst Hden Hnot_enc Henc Hden_enc.
  assert (Hrun : StorageInterface.rename_project current_proj_name new_name w =
    (StorageInterface.rename_project_structure current_proj_name new_name ≫= λ _,
     os_path_exists enc ≫= λ ex : bool,
     if ex then
       StorageInterface.get_project_folder new_name [] ≫= λ nf,
       os_rename enc (StorageInterface.compute_encrypted_folder_path nf)
     else mret tt) w).
  { unfold StorageInterface.rename_project.
    unfold mbind at 1, M_bind, StorageInterface.get_project_folder, gets.
    unfold mbind at 1, M_bind, StorageInterface.encryption_enabled, gets.
    unfold mbind at 1, M_bind, StorageInterface.is_in_usage, gets.
    fold folder. by rewrite Hlet. }
  rewrite Hrun.
  set (root := FilesHelper.get_projects_folder w).
  assert (Hne : new_name ≠ current_proj_name).
  { intros ->. destruct Hsrc as [n Hn]. unfold folder, new_folder in *. congruence. }
  assert (Hf : folder = root ++ [current_proj_name]) by done.
  assert (Hnf : new_folder = root ++ [new_name]) by done.
  assert (He : enc = root ++ [current_proj_name +:+ "_encrypted"]).
  { unfold enc, StorageInterface.compute_encrypted_folder_path.
    rewrite Hf. apply encrypted_path_sibling. }
  clearbody folder new_folder enc. subst folder new_folder enc.
  rewrite (bind_Ok _ _ _ _ _
             (rename_project_structure_ok current_proj_name new_name w Hne Hsrc Hdst Hden)).
  unfold mbind at 1, M_bind, os_path_exists, gets. simpl.
  pose proof (first_move_enc current_proj_name new_name w Hnot_enc) as Henc1.
  fold root in Henc1.
  pose proof (Henc1 []) as Henc0. rewrite app_nil_r in Henc0.
  fold root. rewrite Henc0, bool_decide_true by done.
  unfold mbind at 1, M_bind, StorageInterface.get_project_folder, gets.
  simpl. rewrite project_folder_eq.
  unfold StorageInterface.compute_encrypted_folder_path.
  change (FilesHelper.get_projects_folder _) with root.
  rewrite encrypted_path_sibling.
  set (w1 := with_fs (moved (root ++ [current_proj_name]) (root ++ [new_name])) w).
  rewrite (os_rename_denied _ _ w1).
  - exists w1. split; [done|]. unfold w1. simpl.
    split; [intros r; by apply first_move_new|].
    split; [intros r; by apply first_move_old|intros r; apply Henc1].
  - intros H. simplify_list_eq. apply string_app_inj_l in H. done.
  - etrans; [|exact Hden_enc]. unfold w1. simpl. apply denied_ext. intros r. apply Henc1.
Qed.

Lemma rename_project_half_done_witness :
  let out := StorageInterface.rename_project "P" "Q" sealed_world in
  out.1 = Raise OSError
  ∧ fs out.2 !! ["TVB"; "PROJECTS"; "Q"; "1"; "Connectivity_g1.h5"]
    = Some (File (blob "conn"))
  ∧ fs out.2 !! ["TVB"; "PROJECTS"; "P"] = None
  ∧ fs out.2 !! ["TVB"; "PROJECTS"; "P_encrypted"; "payload"]
    = Some (File (blob "cipher")).
Proof.
  intros out.
  destruct (rename_project_half_done "P" "Q" sealed_world)
    as (w' & Hrun & Hnew & Hold & Henc).
  - by vm_compute.
  - vm_compute. by eexists.
  - by vm_compute.
  - by vm_compute.
  - discriminate.
  - vm_compute. by eexists.
  - by vm_compute.
  - unfold out. rewrite Hrun. simpl. split; [done|]. split; [|split].
    + etrans; [exact (Hnew ["1"; "Connectivity_g1.h5"])|]. by vm_compute.
    + exact (Hold []).
    + etrans; [exact (Henc ["payload"])|]. by vm_compute.
Defined.

(** ** Removing a project *)

Lemma world_with_own_fs w : with_fs (λ _, fs w) w = w.
Proof. by destruct w. Qed.

Lemma purge_world (enc pwd : path) w :
  let w' := (EncryptionHandler.purge enc pwd w).2 in
  w' = with_fs (λ _, fs w') w
  ∧ ∀ q, under enc q = false → q ≠ pwd → fs w' !! q = fs w !! q.
Proof.
  cbv zeta. rewrite purge_unfold. cbv zeta.
  destruct (bool_decide (is_Some (fs w !! enc))).
  - destruct (_ && _).
    + destruct (bool_decide _); [destruct (_ && _)|]; simpl; (split; [done|]);
        intros q Hq Hne; rewrite ?lookup_delete_ne by done;
        by rewrite lookup_prune, Hq.
    + simpl. by rewrite world_with_own_fs.
  - destruct (bool_decide _); [destruct (_ && _)|]; simpl;
      rewrite ?world_with_own_fs; (split; [done|]); try done.
    intros q Hq Hne. by rewrite lookup_delete_ne.
Qed.

(** X19.  [remove_project] touches nothing but the project: whatever the
    outcome of the call, every path outside the project folder and the
    encrypted counterpart, other than the key file of the project, holds
    afterwards what it held before, and nothing but the files of the
    world has changed. *)
Theorem remove_project_frame (project : Project) (w : World) :
  let folder := FilesHelper.get_project_folder w (project_name project) [] in
  let enc := DataEncryptionHandler.compute_encrypted_folder_path folder in
  let key := DataEncryptionHandler.project_key_path w (project_id project) in
  let w' := (StorageInterface.remove_project project w).2 in
  w' = with_fs (λ _, fs w') w
  ∧ ∀ q, under folder q = false → under enc q = false → q ≠ key →
         fs w' !! q = fs w !! q.
Proof.
  intros folder enc key. cbv zeta.
  rewrite remove_project_as_purge. cbv zeta. fold folder enc key.
  unfold mbind, M_bind. rewrite remove_project_structure_unfold. cbv zeta.
  fold folder.
  destruct (bool_decide (is_Some (fs w !! folder))); [destruct (_ && _)|].
  - destruct (purge_world enc key (with_fs (prune folder) w)) as [Hw Hfr].
    split; [by rewrite Hw at 1|].
    intros q Hf He Hk. rewrite Hfr by done. simpl. by rewrite lookup_prune, Hf.
  - simpl. by rewrite world_with_own_fs.
  - destruct (purge_world enc key w) as [Hw Hfr]. split; [done|].
    intros q Hf He Hk. by apply Hfr.
Qed.

Lemma remove_project_structure_cases (name : string) w :
  let folder := FilesHelper.get_project_folder w name [] in
  (∃ e, StorageInterface.remove_project_structure name w = (Raise e, w))
  ∨ (∃ w1, StorageInterface.remove_project_structure name w = (Ok tt, w1)
           ∧ fs w1 !! folder = None
           ∧ TVB_STORAGE w1 = TVB_STORAGE w).
Proof.
  intros folder. rewrite remove_project_structure_unfold. fold folder.
  destruct (bool_decide (is_Some (fs w !! folder))) eqn:E; [destruct (_ && _)|].
  - right. eexists. split; [done|]. simpl. split; [|done].
    by rewrite lookup_prune, under_refl.
  - left. by eexists.
  - right. exists w. split; [done|]. split; [|done].
    apply bool_decide_eq_false in E. by apply eq_None_not_Some.
Qed.

(** X20.  [remove_project] can be repeated: called again in the world the
    first call left, it ends with the same outcome and leaves that world
    as it is.  In particular a second removal of a removed project
    returns and changes nothing. *)
Theorem remove_project_twice (project : Project) (w : World) :
  let out := StorageInterface.remove_project project w in
  StorageInterface.remove_project project out.2 = out.
Proof.
  intros out. unfold out. clear out.
  rewrite !remove_project_as_purge. cbv zeta.
  set (folder := FilesHelper.get_project_folder w (project_name project) []).
  set (enc := DataEncryptionHandler.compute_encrypted_folder_path folder).
  set (key := DataEncryptionHandler.project_key_path w (project_id project)).
  destruct (remove_project_structure_cases (project_name project) w)
    as [[e He]|(w1 & Hw1 & Hgone & Hst)].
  - rewrite (bind_Raise _ _ _ _ _ He). simpl.
    fold folder enc key. by rewrite (bind_Raise _ _ _ _ _ He).
  - fold folder in Hgone.
    rewrite (bind_Ok _ _ _ _ _ Hw1).
    set (out := EncryptionHandler.purge enc key w1).
    assert (Hst2 : TVB_STORAGE out.2 = TVB_STORAGE w).
    { destruct (purge_frame enc key w1) as [H _]. unfold out. by rewrite H. }
    assert (Hf : FilesHelper.get_project_folder out.2 (project_name project) [] = folder).
    { unfold folder, FilesHelper.get_project_folder, FilesHelper.get_projects_folder.
      by rewrite Hst2. }
    assert (Hk : DataEncryptionHandler.project_key_path out.2 (project_id project) = key).
    { unfold key, DataEncryptionHandler.project_key_path. by rewrite Hst2. }
    rewrite Hf, Hk. fold enc.
    assert (Hgone2 : fs out.2 !! folder = None).
    { eapply lookup_None_subseteq; [apply purge_subseteq|done]. }
    assert (Hrun2 : StorageInterface.remove_project_structure (project_name project) out.2
                    = (Ok tt, out.2)).
    { rewrite remove_project_structure_unfold. cbv zeta. rewrite Hf.
      rewrite bool_decide_false; [done|]. rewrite Hgone2. by intros [??]. }
    rewrite (bind_Ok _ _ _ _ _ Hrun2). apply purge_twice.
Qed.

(** ** Looking up a file by gid *)




(** ** What a project export leaves alone *)

Section export_frame.
Variables (root : path) (S : path → Prop).

Lemma stable_root : stable (λ w, TVB_STORAGE w = root).
Proof. intros w w' Hst _ H. congruence. Qed.

Lemma stable_holds_archive : stable (holds_archive root S).
Proof.
  intros w w' Hst Hz [Hr (z & Hz' & Hd)]. split; [congruence|].
  exists z. split; [congruence|done].
Qed.

Lemma confined_initialize_write (dest : path) :
  S dest →
  confined (λ w, TVB_STORAGE w = root) S
    (StorageInterface.initialize_tvb_zip dest "w") (λ _, (holds_archive root S)).
Proof.
  intros Hdest w Hw.
  destruct (write_file dest (Archive []) w) as [[[]|e] w1] eqn:E.
  - rewrite (initialize_tvb_zip_write dest w w1 E). simpl.
    unfold write_file in E. destruct (_ && _); [|done]. injection E as <-.
    split.
    + intros q Hq. simpl. apply lookup_insert_ne. by intros ->.
    + intros _ _. split; [done|]. eexists. split; [done|]. done.
  - assert (H : StorageInterface.initialize_tvb_zip dest "w" w = (Raise e, w1)).
    { unfold StorageInterface.initialize_tvb_zip, TvbZip.open.
      rewrite decide_True by done.
      apply bind_Raise. by apply bind_Raise. }
    rewrite H. simpl.
    unfold write_file in E. destruct (_ && _); [done|]. injection E as _ <-.
    split; [done|]. intros a Ha. discriminate Ha.
Qed.

Lemma confined_write_zip_folder (folder : path) (prefix : string) (exclude : list pyid) :
  confined (holds_archive root S) S (StorageInterface.write_zip_folder folder prefix exclude)
    (λ _, (holds_archive root S)).
Proof.
  intros w [Hr (z & Hz & Hd)]. destruct (zip_closed z) eqn:Hc.
  - destruct (write_closed z w Hz Hc) as [_ H]. rewrite H. simpl.
    split; [done|]. intros a Ha. discriminate Ha.
  - rewrite (write_zip_folder_ok folder prefix exclude z w Hz Hc). simpl.
    split; [done|]. intros _ _. split; [done|]. eexists. split; [done|]. done.
Qed.

Lemma confined_write_zip_arc (file_name : path) (arc : string) :
  confined (holds_archive root S) S (StorageInterface.write_zip_arc file_name arc)
    (λ _, (holds_archive root S)).
Proof.
  intros w [Hr (z & Hz & Hd)]. destruct (zip_closed z) eqn:Hc.
  - destruct (write_closed z w Hz Hc) as [H _]. rewrite H. simpl.
    split; [done|]. intros a Ha. discriminate Ha.
  - destruct (fs w !! file_name) as [[|c]|] eqn:E.
    + rewrite (write_zip_arc_missing file_name arc z w Hz Hc) by by rewrite E.
      simpl. split; [done|]. intros a Ha. discriminate Ha.
    + rewrite (write_zip_arc_ok file_name arc c z w Hz Hc E). simpl.
      split; [done|]. intros _ _. split; [done|]. eexists. split; [done|]. done.
    + rewrite (write_zip_arc_missing file_name arc z w Hz Hc) by by rewrite E.
      simpl. split; [done|]. intros a Ha. discriminate Ha.
Qed.

Lemma confined_close_tvb_zip :
  confined (holds_archive root S) S StorageInterface.close_tvb_zip (λ _, (holds_archive root S)).
Proof.
  intros w [Hr (z & Hz & Hd)]. rewrite (close_tvb_zip_ok z w Hz). simpl. split.
  - intros q Hq. apply lookup_insert_ne. intros Heq. apply Hq. by rewrite <- Heq.
  - intros _ _. split; [done|]. eexists. split; [done|]. done.
Qed.

Lemma confined_export_datatypes (paths : list path) (op : option Operation) :
  (∀ o p q, op = Some o → op_project o = Some p →
     under (root ++ ["PROJECTS"; project_name p; py_str (op_id o)]) q = true → S q) →
  confined (holds_archive root S) S (StorageInterface.export_datatypes paths op)
    (λ _, (holds_archive root S)).
Proof.
  intros HS. unfold StorageInterface.export_datatypes.
  destruct op as [o|]; simpl; [|apply confined_raise].
  destruct (op_project o) as [p|] eqn:Hp; simpl; [|apply confined_raise].
  eapply confined_bind.
  { eapply confined_post; [apply confined_gets|].
    intros a w [Hw Ha].
    instantiate (1 := λ a w, (holds_archive root S) w
                      ∧ a = root ++ ["PROJECTS"; project_name p; py_str (op_id o)]).
    split; [done|]. rewrite Ha. destruct Hw as [<- _].
    unfold FilesHelper.get_operation_folder, FilesHelper.get_project_folder,
      FilesHelper.get_projects_folder. by rewrite <- !app_assoc. }
  intros op_folder. apply confined_pre. intros ->.
  eapply confined_bind.
  { apply confined_for_each. intros pth. apply confined_write_zip_arc. }
  intros u. apply confined_rmtree; [apply stable_holds_archive|].
  intros q Hq. by apply (HS o p q eq_refl Hp).
Qed.

Lemma export_project_confined (project : Project) (project_datatypes : list DataType)
    (folders_to_exclude : list pyid) (export_folder : path)
    (linked_paths : option (list path)) (op : option Operation) (optimize_size : bool) :
  (∀ q, on_branch export_folder q → S q) →
  (∀ paths o p q, linked_paths = Some paths → op = Some o → op_project o = Some p →
     under (root ++ ["PROJECTS"; project_name p; py_str (op_id o)]) q = true → S q) →
  confined (λ w, TVB_STORAGE w = root) S
    (StorageInterface.export_project project project_datatypes folders_to_exclude
       export_folder linked_paths op optimize_size) (λ _ _, True).
Proof.
  intros HS1 HS2. unfold StorageInterface.export_project.
  eapply confined_bind; [by apply confined_reads|]. intros project_folder.
  eapply confined_bind.
  { instantiate (1 := λ _ w, TVB_STORAGE w = root).
    destruct optimize_size; by apply confined_reads. }
  intros packs.
  eapply confined_bind; [apply confined_now, stable_root|]. intros now.
  eapply confined_bind.
  { apply confined_build_data_export_folder; [apply stable_root|].
    intros q stamp Hq. eapply HS1, on_branch_prefix, Hq. }
  intros folder. apply confined_pre. intros [stamp ->].
  eapply confined_bind.
  { apply confined_initialize_write. apply HS1.
    rewrite <- app_assoc. eapply on_branch_under, under_refl. }
  intros u1.
  eapply confined_bind.
  { apply confined_for_each. intros pk. apply confined_write_zip_folder. }
  intros u2.
  eapply confined_bind.
  { instantiate (1 := λ _, holds_archive root S). destruct linked_paths as [paths|].
    - apply confined_export_datatypes. intros o p q Ho Hp. by apply (HS2 paths).
    - eapply confined_post; [apply confined_ret|]. by intros ? ? [? _]. }
  intros u3.
  eapply confined_bind.
  { instantiate (1 := λ _, holds_archive root S). destruct optimize_size.
    - eapply confined_bind; [by apply confined_reads|]. intros meta_path.
      apply confined_write_zip_arc.
    - eapply confined_post; [apply confined_ret|]. by intros ? ? [? _]. }
  intros u4.
  eapply confined_bind; [apply confined_close_tvb_zip|]. intros u5.
  eapply confined_post; [apply confined_ret|]. done.
Qed.

End export_frame.





(** ** A project export that returns *)

Lemma build_data_export_folder_tick (gid : string) (export_folder : path)
    w (folder : path) w1 :
  StorageInterface.build_data_export_folder gid export_folder w = (Ok folder, w1) →
  tick w1 = S (tick w).
Proof.
  intros Hrun. pose proof (build_data_export_folder_spec gid export_folder w) as H.
  cbv zeta in H. destruct (bool_decide _).
  - rewrite Hrun in H. by injection H as _ ->.
  - destruct (existsb _ _); [congruence|].
    destruct H as (w1' & H & Ht & _). congruence.
Qed.

(** The world after the step of [export_project] that deals with the
    linked paths. *)
Lemma export_project_linked_world (linked_paths : option (list path))
    (op : option Operation) z w w1 :
  tvb_zip w = Some z → zip_closed z = false →
  match linked_paths with
  | Some paths => StorageInterface.export_datatypes paths op
  | None => mret tt
  end w = (Ok tt, w1) →
  ∃ linked_entries : list (string * content),
    tvb_zip w1 = Some (TvbZip.add_entries z linked_entries)
    ∧ TVB_STORAGE w1 = TVB_STORAGE w
    ∧ tick w1 = tick w
    ∧ (∀ q n, fs w1 !! q = Some n → fs w !! q = Some n)
    ∧ (linked_paths = None → linked_entries = [] ∧ fs w1 = fs w).
Proof.
  intros Hz Hopen Hrun. destruct linked_paths as [paths|].
  - apply (export_datatypes_inv paths op z) in Hrun
      as (o & project & contents & -> & Hproj & Hall & ->); [|done..].
    eexists. split; [reflexivity|]. split; [done|]. split; [done|]. split; [|done].
    intros q n. simpl. rewrite lookup_prune. by destruct (under _ q).
  - injection Hrun as <-. exists []. rewrite add_entries_nil. by eauto 10.
Qed.

(** The world after the step that adds the project metadata file. *)
Lemma export_project_meta_world (name : string) (optimize_size : bool) z w w1 :
  tvb_zip w = Some z →
  (if optimize_size then
     StorageInterface.get_project_meta_file_path name ≫= λ meta_path,
     StorageInterface.write_zip_arc meta_path StorageInterface.TVB_PROJECT_FILE
   else mret tt) w = (Ok tt, w1) →
  fs w1 = fs w ∧ tick w1 = tick w ∧ TVB_STORAGE w1 = TVB_STORAGE w
  ∧ ∃ meta_entries,
      tvb_zip w1 = Some (TvbZip.add_entries z meta_entries)
      ∧ if optimize_size then
          ∃ meta, fs w !! (FilesHelper.get_project_folder w name [] ++ ["Project.xml"])
                  = Some (File meta)
                  ∧ meta_entries = [("Project.xml", meta)]
        else meta_entries = [].
Proof.
  intros Hz Hrun. destruct optimize_size.
  - apply bind_inv_Ok in Hrun as (meta_path & wa & Hpath & Hrun).
    injection Hpath as <- <-.
    apply (write_zip_arc_inv _ _ z) in Hrun as (c & Hc & ->); [|done].
    do 3 (split; [done|]). eexists. split; [done|]. by exists c.
  - injection Hrun as <-. do 3 (split; [done|]). exists [].
    by rewrite add_entries_nil.
Qed.

Lemma export_project_run (project : Project) (project_datatypes : list DataType)
    (folders_to_exclude : list pyid) (export_folder : path)
    (linked_paths : option (list path)) (op : option Operation)
    (optimize_size : bool) w (result_path : path) w' :
  StorageInterface.export_project project project_datatypes folders_to_exclude
    export_folder linked_paths op optimize_size w = (Ok result_path, w') →
  let project_folder := FilesHelper.get_project_folder w (project_name project) [] in
  let folder :=
    export_folder
    ++ [data_export_folder_name (clock w (S (tick w))) (project_gid project)] in
  ∃ entries : list (string * content),
    result_path
    = folder ++ [strftime_minutes (clock w (tick w)) +:+ "_" +:+ project_name project
                 +:+ "." +:+ StorageInterface.ZIP_FILE_EXTENSION]
    ∧ tick w' = S (S (tick w))
    ∧ TVB_STORAGE w' = TVB_STORAGE w
    ∧ tvb_zip w' = Some {| zip_dest := result_path; zip_entries := entries;
                           zip_closed := true |}
    ∧ fs w' !! result_path = Some (File (Archive entries))
    ∧ (linked_paths = None → under project_folder result_path = false →
       entries =
         if optimize_size then
           flat_map (λ o, TvbZip.folder_entries (fs w) (project_folder ++ [pretty o])
                            (pretty o +:+ "/") folders_to_exclude)
             (fold_left (StorageInterface.consider w project folders_to_exclude)
                project_datatypes ([], [])).2
           ++ match fs w !! (project_folder ++ ["Project.xml"]) with
              | Some (File meta) => [("Project.xml", meta)]
              | _ => []
              end
         else TvbZip.folder_entries (fs w) project_folder ""
                (folders_to_exclude ++ [IdStr "TEMP"])).
Proof.
  intros Hrun project_folder folder0.
  unfold StorageInterface.export_project in Hrun.
  apply bind_inv_Ok in Hrun as (pf & w0 & Hpf & Hrun).
  injection Hpf as <- <-. fold project_folder in Hrun.
  apply bind_inv_Ok in Hrun as (packs & w0 & Hpacks & Hrun).
  assert (w0 = w) as -> by (destruct optimize_size; by injection Hpacks).
  apply bind_inv_Ok in Hrun as (now & wa & Hnow & Hrun).
  injection Hnow as <- <-.
  apply bind_inv_Ok in Hrun as (folder & wb & Hbuild & Hrun).
  apply bind_inv_Ok in Hrun as ([] & wc & Hinit & Hrun).
  match type of Hinit with
  | StorageInterface.initialize_tvb_zip (folder ++ [?n]) _ _ = _ =>
      set (zip_file_name := n) in *
  end.
  pose proof (build_data_export_folder_name _ _ _ _ _ Hbuild) as Hname.
  simpl in Hname. fold folder0 in Hname. subst folder.
  pose proof (build_data_export_folder_tick _ _ _ _ _ Hbuild) as Htick.
  simpl in Htick.
  destruct (export_project_prepare export_folder (project_gid project) zip_file_name
              w (with_tick (S (tick w)) w) folder0 wb eq_refl eq_refl eq_refl
              Hbuild wc Hinit) as (Hz & Hst & Hframe).
  assert (Htc : tick wc = tick wb).
  { apply initialize_tvb_zip_inv in Hinit. by rewrite Hinit. }
  set (z0 := {| zip_dest := folder0 ++ [zip_file_name]; zip_entries := [];
                zip_closed := false |}) in *.
  rewrite (bind_Ok _ _ _ _ _ (write_packs packs (fs wc) z0 wc eq_refl Hz eq_refl)) in Hrun.
  set (packed := flat_map _ packs) in Hrun.
  apply bind_inv_Ok in Hrun as ([] & we & Hlinked & Hrun).
  apply (export_project_linked_world linked_paths op (TvbZip.add_entries z0 packed))
    in Hlinked as (linked_entries & Hze & Hste & Hte & Hsub & Hnone); [|done..].
  simpl in Hste, Hte.
  apply bind_inv_Ok in Hrun as ([] & wf & Hmeta & Hrun).
  apply (export_project_meta_world _ _ _ _ _ Hze) in Hmeta
    as (Hfsf & Htf & Hstf & meta_entries & Hzf & Hmeta).
  rewrite (bind_Ok _ _ _ _ _ (close_tvb_zip_ok _ wf Hzf)) in Hrun.
  injection Hrun as <- <-. simpl.
  exists ((packed ++ linked_entries) ++ meta_entries).
  split; [done|]. split; [congruence|]. split; [congruence|]. split; [done|].
  split; [apply lookup_insert_eq|].
  intros Hl Hunder. destruct (Hnone Hl) as [-> Hfse]. rewrite app_nil_r.
  destruct optimize_size.
  - destruct Hmeta as (meta & Hmeta & ->).
    injection Hpacks as Hpacks.
    destruct (consider_fold w project folders_to_exclude project_datatypes [] [])
      as (Hmk & Hnodup & Hops); [done|constructor|].
    cbv zeta in Hmk, Hnodup, Hops. rewrite Hpacks in Hmk.
    set (ops := (fold_left _ project_datatypes ([], [])).2) in *.
    assert (Hm : fs w !! (project_folder ++ ["Project.xml"]) = Some (File meta)).
    { rewrite Hfse in Hmeta. simpl in Hmeta.
      unfold FilesHelper.get_project_folder, FilesHelper.get_projects_folder in Hmeta.
      rewrite Hste in Hmeta. simpl in Hmeta. rewrite Hst in Hmeta.
      rewrite <- (Hframe project_folder Hunder). exact Hmeta. }
    rewrite Hm. f_equal.
    unfold packed. rewrite Hmk, flat_map_fmap. simpl.
    apply flat_map_ext. intros o. rewrite project_subfolder. fold project_folder.
    apply folder_entries_ext. intros r. apply Hframe.
    destruct (under (project_folder ++ [pretty o]) (folder0 ++ [zip_file_name])) eqn:E;
      [|done].
    rewrite <- Hunder. symmetry.
    apply under_trans with (project_folder ++ [pretty o]); [apply under_app|done].
  - rewrite Hmeta, app_nil_r. injection Hpacks as <-.
    unfold packed. simpl. rewrite app_nil_r.
    apply folder_entries_ext. intros r. by apply Hframe.
Qed.

(** X23.  Where a project export puts its archive.  A call of
    [StorageInterface.export_project] that returns has read the clock
    twice: the first reading, to the minute, names the archive
    [<date>_<project name>.zip]; the second names the staging folder
    [<reading>@<project gid>] inside the export folder; the returned
    path is that archive in that folder, and it holds a zip archive. *)
Theorem export_project_result_path (project : Project) (project_datatypes : list DataType)
    (folders_to_exclude : list pyid) (export_folder : path)
    (linked_paths : option (list path)) (op : option Operation)
    (optimize_size : bool) (w : World) (result_path : path) (w' : World) :
  StorageInterface.export_project project project_datatypes folders_to_exclude
    export_folder linked_paths op optimize_size w = (Ok result_path, w') →
  result_path
  = export_folder
    ++ [data_export_folder_name (clock w (S (tick w))) (project_gid project);
        strftime_minutes (clock w (tick w)) +:+ "_" +:+ project_name project +:+ ".zip"]
  ∧ tick w' = S (S (tick w))
  ∧ ∃ entries, fs w' !! result_path = Some (File (Archive entries)).
Proof.
  intros Hrun. apply export_project_run in Hrun
    as (entries & -> & Ht & _ & _ & Hfile & _).
  split; [by rewrite <- app_assoc|]. split; [done|]. by exists entries.
Qed.

Lemma export_project_result_path_witness :
  let out := StorageInterface.export_project sample_project [sample_datatype "g1" 1]
               [IdInt 2] ["TVB"; "EXPORT_TMP"] None None true (sample_world false 0) in
  out.1 = Ok ["TVB"; "EXPORT_TMP"; "2021-3-9_14-5-7_1@pg"; "2021-03-09_14-05_P.zip"]
  ∧ tick out.2 = 2%nat.
Proof.
  intros out.
  assert (Hrun : out = (Ok ["TVB"; "EXPORT_TMP"; "2021-3-9_14-5-7_1@pg";
                            "2021-03-09_14-05_P.zip"], out.2))
    by (vm_compute; reflexivity).
  unfold out in Hrun.
  destruct (export_project_result_path _ _ _ _ _ _ _ _ _ _ Hrun) as (_ & Ht & _).
  split; [unfold out; by rewrite Hrun|exact Ht].
Defined.



(** ** Exporting twice *)

Lemma off_branch_inside (d e r : path) :
  under d e = false → under e d = false →
  under d (e ++ r) = false ∧ ¬ on_branch e (d ++ r).
Proof.
  intros Hde Hed. split.
  - destruct (under d (e ++ r)) eqn:E; [|done].
    apply on_branch_prefix in E as [H|H]; congruence.
  - intros [H|H].
    + apply on_branch_prefix in H as [H|H]; congruence.
    + assert (under d e = true); [|congruence].
      apply under_trans with (d ++ r); [apply under_app|done].
Qed.

Lemma consider_ops_indep (w w' : World) (project : Project) (excl : list pyid)
    (dts : list DataType) (acc acc' : list StorageInterface.pack * list Z) :
  acc.2 = acc'.2 →
  (fold_left (StorageInterface.consider w project excl) dts acc).2
  = (fold_left (StorageInterface.consider w' project excl) dts acc').2.
Proof.
  revert acc acc'. induction dts as [|dt dts IH]; intros acc acc' Hacc; simpl; [done|].
  apply IH. unfold StorageInterface.consider. rewrite Hacc.
  by destruct (decide _).
Qed.

(** X25.  Exporting a project twice gives the same archive content.  When
    the export folder and the project folder lie apart and there are no
    linked paths, two calls of [StorageInterface.export_project] in a
    row that both return leave, at the two returned paths, archives
    with the same entries in the same order. *)
Theorem export_project_twice (project : Project) (project_datatypes : list DataType)
    (folders_to_exclude : list pyid) (export_folder : path) (op : option Operation)
    (optimize_size : bool) (w : World) (path1 : path) (w1 : World) (path2 : path)
    (w2 : World) :
  let project_folder := FilesHelper.get_project_folder w (project_name project) [] in
  under project_folder export_folder = false →
  under export_folder project_folder = false →
  StorageInterface.export_project project project_datatypes folders_to_exclude
    export_folder None op optimize_size w = (Ok path1, w1) →
  StorageInterface.export_project project project_datatypes folders_to_exclude
    export_folder None op optimize_size w1 = (Ok path2, w2) →
  ∃ entries,
    fs w1 !! path1 = Some (File (Archive entries))
    ∧ fs w2 !! path2 = Some (File (Archive entries)).
Proof.
  intros project_folder Hpe Hep Hrun1 Hrun2.
  assert (Hsame : ∀ r, fs w1 !! (project_folder ++ r) = fs w !! (project_folder ++ r)).
  { intros r.
    destruct (export_project_confined (TVB_STORAGE w) (on_branch export_folder)
                project project_datatypes folders_to_exclude export_folder None op
                optimize_size) with (w := w) as [Hfr _]; [done|done|done|].
    rewrite Hrun1 in Hfr. apply Hfr. by apply off_branch_inside. }
  destruct (export_project_run _ _ _ _ _ _ _ _ _ _ Hrun1)
    as (es1 & Hp1 & _ & Hst1 & _ & Hf1 & He1).
  destruct (export_project_run _ _ _ _ _ _ _ _ _ _ Hrun2)
    as (es2 & Hp2 & _ & _ & _ & Hf2 & He2).
  assert (Hpf : FilesHelper.get_project_folder w1 (project_name project) []
                = project_folder).
  { unfold project_folder, FilesHelper.get_project_folder,
      FilesHelper.get_projects_folder. by rewrite Hst1. }
  rewrite Hpf in He2. fold project_folder in He1.
  exists es1. split; [done|]. rewrite Hf2. do 3 f_equal.
  rewrite He1, He2; [|done|..|done|].
  - destruct optimize_size.
    + f_equal.
      * rewrite (consider_ops_indep w1 w project folders_to_exclude project_datatypes
                   ([], []) ([], []) eq_refl).
        apply flat_map_ext. intros o. apply folder_entries_ext. intros r.
        rewrite <- !app_assoc. apply Hsame.
      * pose proof (Hsame ["Project.xml"]) as H. by rewrite H.
    + apply folder_entries_ext. apply Hsame.
  - rewrite Hp2, <- app_assoc. by apply off_branch_inside.
  - rewrite Hp1, <- app_assoc. by apply off_branch_inside.
Qed.

Lemma export_project_twice_witness :
  let first := StorageInterface.export_project sample_project [sample_datatype "g1" 1]
                 [IdInt 2] ["TVB"; "EXPORT_TMP"] None None false (sample_world false 0) in
  let second := StorageInterface.export_project sample_project [sample_datatype "g1" 1]
                  [IdInt 2] ["TVB"; "EXPORT_TMP"] None None false first.2 in
  let path1 := ["TVB"; "EXPORT_TMP"; "2021-3-9_14-5-7_1@pg"; "2021-03-09_14-05_P.zip"] in
  let path2 := ["TVB"; "EXPORT_TMP"; "2021-3-9_14-5-7_3@pg"; "2021-03-09_14-05_P.zip"] in
  first.1 = Ok path1 ∧ second.1 = Ok path2
  ∧ ∃ entries, fs first.2 !! path1 = Some (File (Archive entries))
               ∧ fs second.2 !! path2 = Some (File (Archive entries)).
Proof.
  intros first second path1 path2.
  assert (H1 : first = (Ok path1, first.2)) by (vm_compute; reflexivity).
  assert (H2 : second = (Ok path2, second.2)) by (vm_compute; reflexivity).
  split; [by rewrite H1|]. split; [by rewrite H2|].
  unfold first in H1. unfold second, first in H2.
  apply (export_project_twice sample_project [sample_datatype "g1" 1] [IdInt 2]
           ["TVB"; "EXPORT_TMP"] None false (sample_world false 0) path1 _ path2 _).
  - by vm_compute.
  - by vm_compute.
  - exact H1.
  - exact H2.
Defined.
